(** * Versioned dashboard resolution: a shallow embedding

    The development follows three places of the repository:

    - [DashboardScenePageStateManager.ts] (the page state managers of the
      dashboard scene: the per-version managers, the unified manager with its
      version fallback, and the two caches they own);
    - [apps/dashboard/pkg/apis/dashboard_manifest.go] (the registry mapping a
      kind and a version to its Go type);
    - the golden query [resource_history_get] of the unified storage
      (reading the history of one object).

    JavaScript promises are modelled sequentially: an [await] is a call that
    threads the outside world.  A thrown value is a result [Throw e] which
    keeps every mutation made before the throw. *)

From Stdlib Require Import Ascii.
From stdpp Require Import gmap strings list sorting.

Open Scope Z_scope.

(** ** Data of the page state managers *)

(** [DashboardRoutes] of [app/types], whose declaration is not among the
    sources: the members the managers name, and [Path], [Scripted] and
    [Report] for the members they leave to the default branch. *)
Inductive DashboardRoutes :=
  | Home | New | Normal | Path | Scripted | Public | Embedded | Report
  | Provisioning.

Global Instance DashboardRoutes_eq_dec : EqDecision DashboardRoutes.
Proof. solve_decision. Defined.

(** A value of a [UrlQueryMap].  Structural equality on this type is what
    lodash's [isEqual] decides on such values (numbers are taken integral). *)
Inductive UrlQueryValue :=
  | QString (s : string)
  | QNumber (n : Z)
  | QBool (b : bool)
  | QStrings (l : list string)
  | QNumbers (l : list Z)
  | QBools (l : list bool)
  | QUndefined
  | QNull.

Global Instance UrlQueryValue_eq_dec : EqDecision UrlQueryValue.
Proof. solve_decision. Defined.

(** A JS object used as a string-keyed map: key order is irrelevant to
    [isEqual], a key bound to [undefined] differs from a missing key. *)
Abbreviation UrlQueryMap := (gmap string UrlQueryValue).

Record TimeRange := { from : string; to : string }.

Global Instance TimeRange_eq_dec : EqDecision TimeRange.
Proof. solve_decision. Defined.

(** [LoadDashboardOptions['params']] *)
Record Params := {
  version : Z;
  scopes : list string;
  timeRange : TimeRange;
  variables : UrlQueryMap;
}.

Global Instance Params_eq_dec : EqDecision Params.
Proof. solve_decision. Defined.

Record LoadDashboardOptions := {
  uid : string;
  route : DashboardRoutes;
  slug : option string;
  type : option string;
  urlFolderUid : option string;
  params : option Params;
}.

Global Instance LoadDashboardOptions_eq_dec : EqDecision LoadDashboardOptions.
Proof. solve_decision. Defined.

Record LoadError := {
  status : option Z;
  messageId : option string;
  message : string;
}.

(** The v1 response [DashboardDTO]: the save model and its meta block. *)
Record DashboardDataDTO := {
  dash_title : string;
  dash_uid : option string;
  dash_version : option Z;
}.

Record DashboardMeta := {
  url : option string;
  folderUid : option string;
  canSave : option bool;
  canShare : option bool;
  canStar : option bool;
  isEmbedded : option bool;
}.

Record DashboardDTO := {
  dashboard : option DashboardDataDTO;
  meta : DashboardMeta;
}.

(** The v2 response [DashboardWithAccessInfo<DashboardV2Spec>]. *)
Record DashboardV2Spec := { spec_title : string }.

Record ObjectMeta := {
  generation : option Z;
  annotations : option (gmap string string);
}.

Record AccessInfo := {
  access_url : option string;
  access_canSave : option bool;
  access_canShare : option bool;
  access_canStar : option bool;
}.

Record DashboardV2Resource := {
  spec : DashboardV2Spec;
  metadata : ObjectMeta;
  access : AccessInfo;
}.

(** [AnnoKeyFolder] of [app/features/apiserver/types]. *)
Definition AnnoKeyFolder : string := "grafana.app/folder".

(** What [/api/dashboards/home] answers: a redirect, a stored home dashboard
    in the legacy envelope (whose [dashboard] is a v1 save model or a v2
    spec), or a v2 resource.  The constructors are what [isRedirectResponse],
    [isDashboardV2Spec] and [isDashboardV2Resource] tell apart. *)
Inductive HomeResponse :=
  | HomeRedirect (redirectUri : string)
  | HomeLegacy (dto : DashboardDTO)
  | HomeV2Spec (v2spec : DashboardV2Spec) (home_meta : DashboardMeta)
  | HomeResource (r : DashboardV2Resource).

(** The materialized scene; [scene_version] is [scene.state.version]. *)
Record DashboardScene := {
  scene_uid : option string;
  scene_title : string;
  scene_version : option Z;
}.

Inductive PanelEditor := MkPanelEditor.

(** What a property read [obj[key]] of the scene cache evaluates to, as far
    as the managers look at it: a value with a [state] (a scene, seen through
    its [state.version]), a truthy value without [state] (reading its
    [.state.version] throws), or a falsy value ([undefined] on a miss). *)
Inductive Read :=
  | Found (scene : DashboardScene)
  | NoState
  | Falsy.

(** The scene a read yields, if it yields one. *)
Definition sceneOf (r : Read) : option DashboardScene :=
  match r with
  | Found scene => Some scene
  | _ => None
  end.

(** The scene cache is a plain object, [{}]: its own properties hold the
    stored scenes, and what it does not own it inherits.  Its prototype is
    [Object.prototype] ([None]) until a scene is assigned to the key
    [__proto__], which makes that scene the prototype and creates no own
    property. *)
Record SceneCache := {
  entries : gmap string DashboardScene;
  prototype : option DashboardScene;
}.

(** The object literal [{}]. *)
Definition emptyCache : SceneCache := {| entries := ∅; prototype := None |}.

Global Instance SceneCache_empty : Empty SceneCache := emptyCache.

(** The own property [key] of the cache. *)
Global Instance SceneCache_lookup : Lookup string DashboardScene SceneCache :=
  fun key c => entries c !! key.

(** The members every plain object inherits from [Object.prototype], apart
    from the accessor [__proto__]: all of them functions. *)
Definition objectPrototypeMembers : list string :=
  ["constructor"; "__defineGetter__"; "__defineSetter__"; "hasOwnProperty";
   "__lookupGetter__"; "__lookupSetter__"; "isPrototypeOf";
   "propertyIsEnumerable"; "toString"; "valueOf"; "toLocaleString"]%string.

(** Values that the code throws and catches. *)
Inductive JsError :=
  | FetchError (fe_status : Z) (cancelled : bool)
               (fe_messageId : option string) (fe_message : string)
  | DashboardVersionError (storedVersion : string) (dv_message : string)
  | Error (err_message : string)
  | TypeError (te_message : string).

(** [isFetchError(e) && e.cancelled] *)
Definition isCancelledFetchError (e : JsError) : bool :=
  match e with
  | FetchError _ c _ _ => c
  | _ => false
  end.

(** [DashboardScenePageState]: every key is optional, and a key may be
    present with the value [undefined]; the outer [option] is the presence of
    the key, the inner one its value. *)
Record DashboardScenePageState := {
  st_dashboard : option (option DashboardScene);
  st_options : option (option LoadDashboardOptions);
  st_panelEditor : option (option PanelEditor);
  st_isLoading : option (option bool);
  st_loadError : option (option LoadError);
}.

(** The object literal [{}]. *)
Definition emptyState : DashboardScenePageState :=
  {| st_dashboard := None; st_options := None; st_panelEditor := None;
     st_isLoading := None; st_loadError := None |}.

(** Reading a property: an absent key reads as [undefined]. *)
Definition prop {A} (slot : option (option A)) : option A :=
  match slot with
  | Some v => v
  | None => None
  end.

(** [{ ...old, ...update }] on one key. *)
Definition spread {A} (old update : option (option A)) : option (option A) :=
  match update with
  | Some v => Some v
  | None => old
  end.

Definition DASHBOARD_CACHE_TTL : Z := 500.

Definition HOME_DASHBOARD_CACHE_KEY : string := "__grafana_home_uid__".

Record DashboardCacheEntry (T : Type) := {
  entry_dashboard : T;
  ts : Z;
  cacheKey : string;
}.
Arguments entry_dashboard {T} _.
Arguments ts {T} _.
Arguments cacheKey {T} _.
Arguments Build_DashboardCacheEntry {T} _ _ _.

(** The fields of [DashboardScenePageStateManagerBase<T>]. *)
Record Manager (T : Type) := {
  state : DashboardScenePageState;
  cache : SceneCache;
  dashboardCache : option (DashboardCacheEntry T);
}.
Arguments state {T} _.
Arguments cache {T} _.
Arguments dashboardCache {T} _.
Arguments Build_Manager {T} _ _ _.

(** [new Manager(initialState)] *)
Definition newManager {T} (initialState : DashboardScenePageState) : Manager T :=
  {| state := initialState; cache := emptyCache; dashboardCache := None |}.

Inductive ManagerId := V1Manager | V2Manager.

Global Instance ManagerId_eq_dec : EqDecision ManagerId.
Proof. solve_decision. Defined.

(** Ghost events: one is recorded each time a version-specific
    [fetchDashboard] is entered. *)
Inductive Event :=
  | EvFetchDashboard (m : ManagerId) (o : LoadDashboardOptions).

(** Truthiness of the JS values the code tests. *)
Definition truthy (s : string) : bool := negb (String.eqb s "").

Definition truthy_opt (s : option string) : bool :=
  match s with
  | Some s => truthy s
  | None => false
  end.

(** [a || b] on an optional string *)
Definition or_default (a : option string) (b : string) : string :=
  match a with
  | Some s => if truthy s then s else b
  | None => b
  end.

(** ** The monad of the managers: state and thrown values *)

Inductive Res (A : Type) :=
  | Ret (a : A)
  | Throw (e : JsError).
Arguments Ret {A} _.
Arguments Throw {A} _.

Definition M (S A : Type) : Type := S -> Res A * S.

Definition ret {S A} (a : A) : M S A := fun s => (Ret a, s).

Definition throw {S A} (e : JsError) : M S A := fun s => (Throw e, s).

Definition bind {S A B} (c : M S A) (k : A -> M S B) : M S B :=
  fun s =>
    match c s with
    | (Ret a, s') => k a s'
    | (Throw e, s') => (Throw e, s')
    end.

(** [try { body } catch (e) { handler e }] *)
Definition try_catch {S A} (body : M S A) (handler : JsError -> M S A) : M S A :=
  fun s =>
    match body s with
    | (Ret a, s') => (Ret a, s')
    | (Throw e, s') => handler e s'
    end.

Definition gets {S A} (f : S -> A) : M S A := fun s => (Ret (f s), s).

Definition modify {S} (f : S -> S) : M S unit := fun s => (Ret tt, f s).

Definition when {S} (b : bool) (c : M S unit) : M S unit :=
  if b then c else ret tt.

Notation "'let!' x ':=' c 'in' k" := (bind c (fun x => k))
  (at level 10, x pattern, c at level 100, k at level 200).
Notation "c '>>' k" := (bind c (fun _ => k))
  (at level 100, k at level 200, right associativity).

(** ** The collaborators of the managers

    [Ext] is the world outside the managers (network, location service,
    clock, telemetry).  A call to a collaborator may change it and may
    throw. *)
Section Collaborators.
Context {Ext : Type}.

Definition Call (A : Type) : Type := Ext -> Res A * Ext.

Inductive Telemetry :=
  | StartMeasure
  | StopMeasure
  | TrackDashboardSceneLoaded (d : DashboardScene)
  | StartProfile (d : DashboardScene)
  | EmitDashboardViewEvent (d : DashboardScene).

Record Env := {
  (* [Date.now()] *)
  now : Ext -> Z;
  (* [buildNewDashboardSaveModel], [buildNewDashboardSaveModelV2] *)
  buildNewDashboardSaveModel : option string -> Call DashboardDTO;
  buildNewDashboardSaveModelV2 : option string -> Call DashboardV2Resource;
  (* [getBackendSrv().get('/api/dashboards/home')] *)
  getHomeDashboard : Call HomeResponse;
  (* [dashboardLoaderSrv.loadDashboard(type, slug, uid, params)] and
      [loadSnapshot(slug)] *)
  loadDashboardV1 :
    string -> option string -> string -> option UrlQueryMap -> Call DashboardDTO;
  loadSnapshotV1 : string -> Call (option DashboardDTO);
  (* the same two of [DashboardLoaderSrvV2] *)
  loadDashboardV2 :
    string -> option string -> string -> option UrlQueryMap -> Call DashboardV2Resource;
  loadSnapshotV2 : string -> Call (option DashboardV2Resource);
  (* [updateNavModel(folderUid)] *)
  updateNavModel : string -> Call unit;
  (* [locationUtil.stripBaseFromUrl], [locationService] *)
  stripBaseFromUrl : string -> string;
  locationReplace : string -> Ext -> Ext;
  locationReplacePathname : string -> Ext -> Ext;
  locationPathname : Ext -> string;
  (* the two serializers *)
  transformSaveModelToScene : DashboardDTO -> Call DashboardScene;
  transformSaveModelSchemaV2ToScene : DashboardV2Resource -> Call DashboardScene;
  (* [app/core/utils/errors] *)
  getStatusFromError : JsError -> option Z;
  getMessageFromError : JsError -> string;
  getMessageIdFromError : JsError -> option string;
  (* [config.featureToggles.preserveDashboardStateWhenNavigating] *)
  preserveDashboardStateWhenNavigating : bool;
  restoreDashboardStateFromLocalStorage : DashboardScene -> Call unit;
  (* measurements, tracking and the query controller profile *)
  telemetry : Telemetry -> Call unit;
  (* [getDashboardSrv().setCurrent(undefined)] *)
  dashboardSrvSetCurrentUndefined : Ext -> Ext;
  (* the class [DashboardScene] is not among the sources: what a read
     [receiver[key]] and an assignment [receiver[key] = value] do for a key
     that [receiver] does not own, once a scene is its prototype *)
  getThroughScene : DashboardScene -> SceneCache -> string -> Read;
  setThroughScene :
    DashboardScene -> SceneCache -> string -> DashboardScene -> Res SceneCache;
}.

(** What one manager instance sees: its own fields, the outside world, and
    the ghost log. *)
Record Local (T : Type) := {
  self : Manager T;
  ext : Ext;
  log : list Event;
}.
End Collaborators.

Arguments Call : clear implicits.
Arguments Env : clear implicits.
Arguments Local : clear implicits.
Arguments self {Ext T} _.
Arguments ext {Ext T} _.
Arguments log {Ext T} _.
Arguments Build_Local {Ext T} _ _ _.

(** ** [DashboardScenePageStateManagerBase<T>] *)
Module Base.
Section Base.
Context {Ext : Type} (env : Env Ext) {T : Type}.

(** The abstract methods of the class. *)
Context (fetchDashboard : LoadDashboardOptions -> M (Local Ext T) (option T)).
Context (transformResponseToScene :
           option T -> LoadDashboardOptions -> M (Local Ext T) (option DashboardScene)).
Context (loadSnapshotScene : string -> M (Local Ext T) DashboardScene).

(** An awaited call to a collaborator. *)
Definition call {A} (c : Call Ext A) : M (Local Ext T) A :=
  fun s =>
    match c (ext s) with
    | (r, x) => (r, {| self := self s; ext := x; log := log s |})
    end.

(** A collaborator that only acts on the outside world. *)
Definition act (f : Ext -> Ext) : M (Local Ext T) unit :=
  modify (fun s => {| self := self s; ext := f (ext s); log := log s |}).

(** Recording a ghost event. *)
Definition emit (e : Event) : M (Local Ext T) unit :=
  modify (fun s => {| self := self s; ext := ext s; log := log s ++ [e] |}).

Definition update_self (f : Manager T -> Manager T) : M (Local Ext T) unit :=
  modify (fun s => {| self := f (self s); ext := ext s; log := log s |}).

(** Modelled from the spec: [StateManagerBase] ([app/core/services]) is not
    among the sources.  Its [setState(update)] is what the spec calls
    updating the active state in place: the keys of [update] overwrite those
    of the state, [this.state = { ...this.state, ...update }]. *)
Definition mergeState (old update : DashboardScenePageState) : DashboardScenePageState :=
  {| st_dashboard := spread (st_dashboard old) (st_dashboard update);
     st_options := spread (st_options old) (st_options update);
     st_panelEditor := spread (st_panelEditor old) (st_panelEditor update);
     st_isLoading := spread (st_isLoading old) (st_isLoading update);
     st_loadError := spread (st_loadError old) (st_loadError update) |}.

Definition setState (update : DashboardScenePageState) : M (Local Ext T) unit :=
  update_self (fun m =>
    {| state := mergeState (state m) update;
       cache := cache m;
       dashboardCache := dashboardCache m |}).

Definition getCache : M (Local Ext T) SceneCache :=
  gets (fun s => cache (self s)).

(** The read [c[key]] of a scene cache: an own property first, then what
    the prototype gives.  On [Object.prototype] the key [__proto__] reads
    the prototype itself and the other members are functions: truthy and
    without [state]. *)
Definition readCache (c : SceneCache) (key : string) : Read :=
  match entries c !! key with
  | Some scene => Found scene
  | None =>
      match prototype c with
      | Some p => getThroughScene env p c key
      | None =>
          if String.eqb key "__proto__" then NoState
          else if bool_decide (key ∈ objectPrototypeMembers) then NoState
          else Falsy
      end
  end.

(** The assignment [c[key] = scene]: an own property is overwritten; a key
    the cache does not own is created, except that [__proto__], the setter
    of [Object.prototype], replaces the prototype, and that a scene
    prototype has its say. *)
Definition writeCache (c : SceneCache) (key : string) (scene : DashboardScene)
  : Res SceneCache :=
  let own := {| entries := <[key := scene]> (entries c);
                prototype := prototype c |} in
  match entries c !! key with
  | Some _ => Ret own
  | None =>
      match prototype c with
      | Some p => setThroughScene env p c key scene
      | None =>
          if String.eqb key "__proto__"
          then Ret {| entries := entries c; prototype := Some scene |}
          else Ret own
      end
  end.

Definition getDashboardFromCache (key : string) : M (Local Ext T) (option T) :=
  fun s =>
    let cachedDashboard := dashboardCache (self s) in
    match cachedDashboard with
    | Some entry =>
        if String.eqb (cacheKey entry) key
           && (now env (ext s) - ts entry <? DASHBOARD_CACHE_TTL)
        then (Ret (Some (entry_dashboard entry)), s)
        else (Ret None, s)
    | None => (Ret None, s)
    end.

Definition clearState : M (Local Ext T) unit :=
  act (dashboardSrvSetCurrentUndefined env) >>
  setState {| st_dashboard := Some None;
              st_loadError := Some None;
              st_isLoading := Some (Some false);
              st_panelEditor := Some None;
              st_options := None |}.

Definition setDashboardCache (key : string) (d : T) : M (Local Ext T) unit :=
  fun s =>
    (Ret tt,
     {| self := {| state := state (self s);
                   cache := cache (self s);
                   dashboardCache :=
                     Some {| entry_dashboard := d; ts := now env (ext s);
                             cacheKey := key |} |};
        ext := ext s; log := log s |}).

Definition clearDashboardCache : M (Local Ext T) unit :=
  update_self (fun m =>
    {| state := state m; cache := cache m; dashboardCache := None |}).

Definition getSceneFromCache (key : string) : M (Local Ext T) Read :=
  gets (fun s => readCache (cache (self s)) key).

Definition setSceneCache (key : string) (scene : DashboardScene) : M (Local Ext T) unit :=
  fun s =>
    match writeCache (cache (self s)) key scene with
    | Ret c =>
        (Ret tt,
         {| self := {| state := state (self s);
                       cache := c;
                       dashboardCache := dashboardCache (self s) |};
            ext := ext s; log := log s |})
    | Throw e => (Throw e, s)
    end.

Definition clearSceneCache : M (Local Ext T) unit :=
  update_self (fun m =>
    {| state := state m; cache := emptyCache; dashboardCache := dashboardCache m |}).

(** The [loadError] built in the [catch] blocks of [loadDashboard] and
    [loadSnapshot]. *)
Definition loadErrorOf (err : JsError) : LoadError :=
  {| status := getStatusFromError env err;
     message := getMessageFromError env err;
     messageId := getMessageIdFromError env err |}.

(** The [try] block of [loadSnapshot]. *)
Definition loadSnapshotTry (slug : string) : M (Local Ext T) unit :=
  let! dashboard := loadSnapshotScene slug in
  setState {| st_dashboard := Some (Some dashboard);
              st_isLoading := Some (Some false);
              st_options := None; st_panelEditor := None;
              st_loadError := None |}.

Definition loadSnapshot (slug : string) : M (Local Ext T) unit :=
  try_catch
    (loadSnapshotTry slug)
    (fun err =>
       setState {| st_isLoading := Some (Some false);
                   st_loadError := Some (Some (loadErrorOf err));
                   st_dashboard := None; st_options := None;
                   st_panelEditor := None |}).

Definition loadScene (options : LoadDashboardOptions)
  : M (Local Ext T) (option DashboardScene) :=
  setState {| st_dashboard := Some None; st_isLoading := Some (Some true);
              st_options := None; st_panelEditor := None;
              st_loadError := None |} >>
  let! rsp := fetchDashboard options in
  match rsp with
  | None => ret None
  | Some rsp => transformResponseToScene (Some rsp) options
  end.

(** The [try] block of [loadDashboard]. *)
Definition loadDashboardTry (options : LoadDashboardOptions)
  : M (Local Ext T) unit :=
  call (telemetry env StartMeasure) >>
  let! dashboard := loadScene options in
  match dashboard with
  | None => ret tt
  | Some dashboard =>
      when (preserveDashboardStateWhenNavigating env && truthy (uid options))
           (call (restoreDashboardStateFromLocalStorage env dashboard)) >>
      setState {| st_dashboard := Some (Some dashboard);
                  st_isLoading := Some (Some false);
                  st_options := Some (Some options);
                  st_panelEditor := None; st_loadError := None |} >>
      call (telemetry env StopMeasure) >>
      call (telemetry env (TrackDashboardSceneLoaded dashboard)) >>
      call (telemetry env (StartProfile dashboard)) >>
      when (negb (bool_decide (route options = New)))
           (call (telemetry env (EmitDashboardViewEvent dashboard)))
  end.

Definition loadDashboard (options : LoadDashboardOptions) : M (Local Ext T) unit :=
  try_catch
    (loadDashboardTry options)
    (fun err =>
       setState {| st_isLoading := Some (Some false);
                   st_loadError := Some (Some (loadErrorOf err));
                   st_dashboard := None; st_options := None;
                   st_panelEditor := None |}).
End Base.
End Base.

(** Leaving a [try] block early with [return], or falling through with the
    response fetched so far. *)
Inductive Flow (A B : Type) :=
  | Return (a : A)
  | Continue (b : B).
Arguments Return {A B} _.
Arguments Continue {A B} _.

(** The query parameters sent with a load:
    [{ version, scopes, from, to, ...params.variables }]; the variables are
    spread last and win on a clash of keys. *)
Definition queryParamsOf (p : Params) : UrlQueryMap :=
  variables p ∪
  list_to_map [("version"%string, QNumber (version p));
               ("scopes"%string, QStrings (scopes p));
               ("from"%string, QString (from (timeRange p)));
               ("to"%string, QString (to (timeRange p)))].

(** The [cacheKey] of [fetchDashboard]:
    [route === DashboardRoutes.Home ? HOME_DASHBOARD_CACHE_KEY : uid] *)
Definition keyOf (options : LoadDashboardOptions) : string :=
  if bool_decide (route options = Home) then HOME_DASHBOARD_CACHE_KEY
  else uid options.

(** ** [DashboardScenePageStateManager], the manager of v1 dashboards *)
Module V1.
Section V1.
Context {Ext : Type} (env : Env Ext).

Abbreviation St := (Local Ext DashboardDTO).

(** [rsp?.dashboard.version]: [undefined] on a null response, a
    [TypeError] on a response without [dashboard]. *)
Definition versionOf (rsp : option DashboardDTO) : M St (option Z) :=
  match rsp with
  | None => ret None
  | Some r =>
      match dashboard r with
      | Some d => ret (dash_version d)
      | None => throw (TypeError "Cannot read properties of undefined (reading 'version')")
      end
  end.

(** [fromCache && fromCache.state.version === rsp?.dashboard.version]: the
    left operand of [===] is read first, and throws on a truthy value
    without [state]. *)
Definition sameVersion (fromCache : Read) (rsp : option DashboardDTO)
  : M St bool :=
  match fromCache with
  | Falsy => ret false
  | NoState =>
      throw (TypeError "Cannot read properties of undefined (reading 'version')")
  | Found fc =>
      let! v := versionOf rsp in
      ret (bool_decide (scene_version fc = v))
  end.

Definition transformResponseToScene (rsp : option DashboardDTO)
    (options : LoadDashboardOptions) : M St (option DashboardScene) :=
  let! fromCache := Base.getSceneFromCache env (uid options) in
  let! same := sameVersion fromCache rsp in
  if same then ret (sceneOf fromCache)
  else
    match rsp with
    | Some r =>
        match dashboard r with
        | Some _ =>
            let! scene := Base.call (transformSaveModelToScene env r) in
            when (truthy (uid options)) (Base.setSceneCache env (uid options) scene) >>
            ret (Some scene)
        | None => throw (Error "Dashboard not found")
        end
    | None => throw (Error "Dashboard not found")
    end.

Definition loadSnapshotScene (slug : string) : M St DashboardScene :=
  let! rsp := Base.call (loadSnapshotV1 env slug) in
  match rsp with
  | Some r =>
      match dashboard r with
      | Some _ => Base.call (transformSaveModelToScene env r)
      | None => throw (Error "Snapshot not found")
      end
  | None => throw (Error "Snapshot not found")
  end.

Definition withMeta (rsp : DashboardDTO) (m : DashboardMeta) : DashboardDTO :=
  {| dashboard := dashboard rsp; meta := m |}.

(** [rsp.meta.canSave = false; rsp.meta.canShare = false;
    rsp.meta.canStar = false] *)
Definition readOnlyHome (rsp : DashboardDTO) : DashboardDTO :=
  withMeta rsp
    {| url := url (meta rsp); folderUid := folderUid (meta rsp);
       canSave := Some false; canShare := Some false; canStar := Some false;
       isEmbedded := isEmbedded (meta rsp) |}.

(** [rsp.meta.isEmbedded = true] *)
Definition markEmbedded (rsp : DashboardDTO) : DashboardDTO :=
  withMeta rsp
    {| url := url (meta rsp); folderUid := folderUid (meta rsp);
       canSave := canSave (meta rsp); canShare := canShare (meta rsp);
       canStar := canStar (meta rsp); isEmbedded := Some true |}.

(** The [switch (route)] of [fetchDashboard]. *)
Definition fetchByRoute (options : LoadDashboardOptions)
  : M St (Flow (option DashboardDTO) DashboardDTO) :=
  match route options with
  | New =>
      let! rsp := Base.call (buildNewDashboardSaveModel env (urlFolderUid options)) in
      ret (Continue rsp)
  | Home =>
      let! rsp := Base.call (getHomeDashboard env) in
      match rsp with
      | HomeRedirect redirectUri =>
          let newUrl := stripBaseFromUrl env redirectUri in
          Base.act (locationReplace env newUrl) >>
          ret (Return None)
      | HomeV2Spec _ _ =>
          throw (Error "You are trying to load a v2 dashboard spec as v1. Use DashboardScenePageStateManagerV2 instead.")
      | HomeResource _ =>
          (* [rsp.dashboard] is undefined on a resource *)
          throw (TypeError "Cannot use 'in' operator to search for 'elements' in undefined")
      | HomeLegacy dto => ret (Continue (readOnlyHome dto))
      end
  | Provisioning =>
      let! rsp := Base.call (loadDashboardV1 env "provisioning" (slug options)
                                             (uid options) None) in
      ret (Return (Some rsp))
  | Public =>
      let! rsp := Base.call (loadDashboardV1 env "public" (Some ""%string)
                                             (uid options) None) in
      ret (Return (Some rsp))
  | _ =>
      let queryParams := queryParamsOf <$> params options in
      let! rsp := Base.call (loadDashboardV1 env (or_default (type options) "db")
                               (Some (or_default (slug options) ""))
                               (uid options) queryParams) in
      ret (Continue (if bool_decide (route options = Embedded)
                     then markEmbedded rsp else rsp))
  end.

(** The statements after the [switch], still inside the [try]. *)
Definition afterFetch (options : LoadDashboardOptions) (key : string)
    (rsp : DashboardDTO) : M St (option DashboardDTO) :=
  when (truthy_opt (url (meta rsp)) && bool_decide (route options = Normal))
       (let dashboardUrl := stripBaseFromUrl env (default ""%string (url (meta rsp))) in
        let! currentPath := gets (fun s => locationPathname env (ext s)) in
        when (negb (String.eqb dashboardUrl currentPath))
             (Base.act (locationReplacePathname env dashboardUrl))) >>
  when (truthy_opt (folderUid (meta rsp)))
       (Base.call (updateNavModel env (default ""%string (folderUid (meta rsp))))) >>
  Base.setDashboardCache env key rsp >>
  ret (Some rsp).

(** The [try] block of [fetchDashboard]: the request and what follows a
    response. *)
Definition tryBlock (options : LoadDashboardOptions) (key : string)
  : M St (option DashboardDTO) :=
  let! flow := fetchByRoute options in
  match flow with
  | Return v => ret v
  | Continue rsp => afterFetch options key rsp
  end.

Definition fetchDashboard (options : LoadDashboardOptions)
  : M St (option DashboardDTO) :=
  Base.emit (EvFetchDashboard V1Manager options) >>
  let key := keyOf options in
  let! cachedDashboard :=
    match params options with
    | None => Base.getDashboardFromCache env key
    | Some _ => ret None
    end in
  match cachedDashboard with
  | Some cached => ret (Some cached)
  | None =>
      try_catch
        (tryBlock options key)
        (fun e => if isCancelledFetchError e then ret None else throw e)
  end.

(** lodash's [isEqual] on the two compared parameters *)
Definition isEqual {A} `{EqDecision A} (a b : A) : bool := bool_decide (a = b).

Definition withParams (o : LoadDashboardOptions) (p : option Params)
  : LoadDashboardOptions :=
  {| uid := uid o; route := route o; slug := slug o; type := type o;
     urlFolderUid := urlFolderUid o; params := p |}.

(** The update of the branch [!rsp?.dashboard] of [reloadDashboard]. *)
Definition notFoundUpdate : DashboardScenePageState :=
  {| st_isLoading := Some (Some false);
     st_loadError :=
       Some (Some {| status := Some 404;
                     message := "Dashboard not found";
                     messageId := None |});
     st_dashboard := None; st_options := None; st_panelEditor := None |}.

(** The [try] block of [reloadDashboard]. *)
Definition reloadTry (options : LoadDashboardOptions) : M St unit :=
  Base.setState {| st_isLoading := Some (Some true);
                   st_dashboard := None; st_options := None;
                   st_panelEditor := None; st_loadError := None |} >>
  let! rsp := fetchDashboard options in
  let! fromCache := Base.getSceneFromCache env (uid options) in
  let! same := sameVersion fromCache rsp in
  if same then
    Base.setState {| st_isLoading := Some (Some false);
                     st_dashboard := None; st_options := None;
                     st_panelEditor := None; st_loadError := None |}
  else
    match rsp with
    | Some r =>
        match dashboard r with
        | Some _ =>
            let! scene := Base.call (transformSaveModelToScene env r) in
            Base.setSceneCache env (uid options) scene >>
            Base.setState {| st_dashboard := Some (Some scene);
                             st_isLoading := Some (Some false);
                             st_options := Some (Some options);
                             st_panelEditor := None;
                             st_loadError := None |}
        | None => Base.setState notFoundUpdate
        end
    | None => Base.setState notFoundUpdate
    end.

(** The [catch] block of [reloadDashboard]. *)
Definition reloadCatch (err : JsError) : M St unit :=
  let status := getStatusFromError env err in
  let message := getMessageFromError env err in
  Base.setState
    {| st_isLoading := Some (Some false);
       st_loadError :=
         Some (Some {| message := message; status := status;
                       messageId := None |});
       st_dashboard := None; st_options := None;
       st_panelEditor := None |}.

Definition reloadDashboard (p : option Params) : M St unit :=
  let! stateOptions := gets (fun s => prop (st_options (state (self s)))) in
  match stateOptions with
  | None => ret tt
  | Some stateOptions =>
      let options := withParams stateOptions p in
      if isEqual (variables <$> params options) (variables <$> params stateOptions)
         && isEqual (scopes <$> params options) (scopes <$> params stateOptions)
      then ret tt
      else try_catch (reloadTry options) reloadCatch
  end.

(** The inherited methods, with this class's overrides. *)
Definition loadDashboard : LoadDashboardOptions -> M St unit :=
  Base.loadDashboard env fetchDashboard transformResponseToScene.

Definition loadSnapshot : string -> M St unit :=
  Base.loadSnapshot env loadSnapshotScene.
End V1.
End V1.

(** ** [DashboardScenePageStateManagerV2], the manager of v2 dashboards *)
Module V2.
Section V2.
Context {Ext : Type} (env : Env Ext).

Abbreviation St := (Local Ext DashboardV2Resource).

Definition loadSnapshotScene (slug : string) : M St DashboardScene :=
  let! rsp := Base.call (loadSnapshotV2 env slug) in
  match rsp with
  | Some r => Base.call (transformSaveModelSchemaV2ToScene env r)
  | None => throw (Error "Snapshot not found")
  end.

(** [fromCache && fromCache.state.version === rsp?.metadata.generation] *)
Definition sameVersion (fromCache : Read)
    (rsp : option DashboardV2Resource) : M St bool :=
  match fromCache with
  | Falsy => ret false
  | NoState =>
      throw (TypeError "Cannot read properties of undefined (reading 'version')")
  | Found fc => ret (bool_decide (scene_version fc = rsp ≫= (generation ∘ metadata)))
  end.

Definition transformResponseToScene (rsp : option DashboardV2Resource)
    (options : LoadDashboardOptions) : M St (option DashboardScene) :=
  let! fromCache := Base.getSceneFromCache env (uid options) in
  let! same := sameVersion fromCache rsp in
  if same then ret (sceneOf fromCache)
  else
    match rsp with
    | Some r =>
        let! scene := Base.call (transformSaveModelSchemaV2ToScene env r) in
        when (truthy (uid options)) (Base.setSceneCache env (uid options) scene) >>
        ret (Some scene)
    | None => throw (Error "Dashboard not found")
    end.

Definition reloadDashboard (p : option Params) : M St unit :=
  throw (Error "Method not implemented.").

(** [dto.access.canSave = false; dto.access.canShare = false;
    dto.access.canStar = false] *)
Definition readOnlyHome (dto : DashboardV2Resource) : DashboardV2Resource :=
  {| spec := spec dto; metadata := metadata dto;
     access := {| access_url := access_url (access dto);
                  access_canSave := Some false;
                  access_canShare := Some false;
                  access_canStar := Some false |} |}.

(** [rsp.metadata.annotations?.[AnnoKeyFolder]] *)
Definition folderAnnotation (rsp : DashboardV2Resource) : option string :=
  annotations (metadata rsp) ≫= (fun a => a !! AnnoKeyFolder).

(** The [switch (route)] of [fetchDashboard]. *)
Definition fetchByRoute (options : LoadDashboardOptions)
  : M St (Flow (option DashboardV2Resource) DashboardV2Resource) :=
  match route options with
  | New =>
      let! rsp := Base.call (buildNewDashboardSaveModelV2 env (urlFolderUid options)) in
      ret (Continue rsp)
  | Home =>
      let! dto := Base.call (getHomeDashboard env) in
      match dto with
      | HomeRedirect redirectUri =>
          let newUrl := stripBaseFromUrl env redirectUri in
          Base.act (locationReplace env newUrl) >>
          ret (Return None)
      | HomeResource r => ret (Continue (readOnlyHome r))
      | HomeLegacy _ | HomeV2Spec _ _ =>
          throw (Error "Custom home dashboard is not a v2 spec")
      end
  | Public =>
      let! rsp := Base.call (loadDashboardV2 env "public" (Some ""%string)
                                             (uid options) None) in
      ret (Return (Some rsp))
  | _ =>
      let queryParams := queryParamsOf <$> params options in
      let! rsp := Base.call (loadDashboardV2 env (or_default (type options) "db")
                               (Some (or_default (slug options) ""))
                               (uid options) queryParams) in
      if bool_decide (route options = Embedded)
      then throw (Error "Method not implemented.")
      else ret (Continue rsp)
  end.

(** The statements after the [switch], still inside the [try]. *)
Definition afterFetch (options : LoadDashboardOptions) (key : string)
    (rsp : DashboardV2Resource) : M St (option DashboardV2Resource) :=
  when (truthy_opt (access_url (access rsp)) && bool_decide (route options = Normal))
       (let dashboardUrl :=
          stripBaseFromUrl env (default ""%string (access_url (access rsp))) in
        let! currentPath := gets (fun s => locationPathname env (ext s)) in
        when (negb (String.eqb dashboardUrl currentPath))
             (Base.act (locationReplacePathname env dashboardUrl))) >>
  when (truthy_opt (folderAnnotation rsp))
       (Base.call (updateNavModel env (default ""%string (folderAnnotation rsp)))) >>
  Base.setDashboardCache env key rsp >>
  ret (Some rsp).

(** The [try] block of [fetchDashboard]: the request and what follows a
    response. *)
Definition tryBlock (options : LoadDashboardOptions) (key : string)
  : M St (option DashboardV2Resource) :=
  let! flow := fetchByRoute options in
  match flow with
  | Return v => ret v
  | Continue rsp => afterFetch options key rsp
  end.

Definition fetchDashboard (options : LoadDashboardOptions)
  : M St (option DashboardV2Resource) :=
  Base.emit (EvFetchDashboard V2Manager options) >>
  let key := keyOf options in
  let! cachedDashboard :=
    match params options with
    | None => Base.getDashboardFromCache env key
    | Some _ => ret None
    end in
  match cachedDashboard with
  | Some cached => ret (Some cached)
  | None =>
      try_catch
        (tryBlock options key)
        (fun e => if isCancelledFetchError e then ret None else throw e)
  end.

Definition loadDashboard : LoadDashboardOptions -> M St unit :=
  Base.loadDashboard env fetchDashboard transformResponseToScene.

Definition loadSnapshot : string -> M St unit :=
  Base.loadSnapshot env loadSnapshotScene.
End V2.
End V2.

(** ** [UnifiedDashboardScenePageStateManager] *)

(** The unified manager: its own inherited fields, the two managers it
    builds, and the one it currently delegates to. *)
Record World (Ext : Type) := {
  own : Manager (DashboardDTO + DashboardV2Resource);
  v1Manager : Manager DashboardDTO;
  v2Manager : Manager DashboardV2Resource;
  activeManager : ManagerId;
  world_ext : Ext;
  world_log : list Event;
}.
Arguments own {Ext} _.
Arguments v1Manager {Ext} _.
Arguments v2Manager {Ext} _.
Arguments activeManager {Ext} _.
Arguments world_ext {Ext} _.
Arguments world_log {Ext} _.
Arguments Build_World {Ext} _ _ _ _ _ _.

Module Unified.
Section Unified.
Context {Ext : Type} (env : Env Ext).

Abbreviation Response := (DashboardDTO + DashboardV2Resource)%type.

(** [constructor(initialState)]; the active manager starts as v1. *)
Definition constructor (initialState : DashboardScenePageState) (x : Ext)
  : World Ext :=
  {| own := newManager initialState;
     v1Manager := newManager initialState;
     v2Manager := newManager initialState;
     activeManager := V1Manager;
     world_ext := x; world_log := [] |}.

(** Running a method of [this.v1Manager]. *)
Definition onV1 {A} (c : M (Local Ext DashboardDTO) A) : M (World Ext) A :=
  fun w =>
    match c {| self := v1Manager w; ext := world_ext w; log := world_log w |} with
    | (r, s) =>
        (r, {| own := own w; v1Manager := self s; v2Manager := v2Manager w;
               activeManager := activeManager w;
               world_ext := ext s; world_log := log s |})
    end.

(** Running a method of [this.v2Manager]. *)
Definition onV2 {A} (c : M (Local Ext DashboardV2Resource) A) : M (World Ext) A :=
  fun w =>
    match c {| self := v2Manager w; ext := world_ext w; log := world_log w |} with
    | (r, s) =>
        (r, {| own := own w; v1Manager := v1Manager w; v2Manager := self s;
               activeManager := activeManager w;
               world_ext := ext s; world_log := log s |})
    end.

(** Running an inherited method on the unified manager's own fields. *)
Definition onOwn {A} (c : M (Local Ext Response) A) : M (World Ext) A :=
  fun w =>
    match c {| self := own w; ext := world_ext w; log := world_log w |} with
    | (r, s) =>
        (r, {| own := self s; v1Manager := v1Manager w; v2Manager := v2Manager w;
               activeManager := activeManager w;
               world_ext := ext s; world_log := log s |})
    end.

(** [this.activeManager = manager] *)
Definition setActiveManager (m : ManagerId) : M (World Ext) unit :=
  modify (fun w =>
    {| own := own w; v1Manager := v1Manager w; v2Manager := v2Manager w;
       activeManager := m;
       world_ext := world_ext w; world_log := world_log w |}).

(** [this.activeManager.state] *)
Definition activeState (w : World Ext) : DashboardScenePageState :=
  match activeManager w with
  | V1Manager => state (v1Manager w)
  | V2Manager => state (v2Manager w)
  end.

(** [error.data.storedVersion === 'v2alpha1' ? this.v2Manager : this.v1Manager] *)
Definition managerFor (storedVersion : string) : ManagerId :=
  if String.eqb storedVersion "v2alpha1" then V2Manager else V1Manager.

Definition withVersionHandling {A} (operation : ManagerId -> M (World Ext) A)
  : M (World Ext) A :=
  try_catch
    (let! active := gets activeManager in
     let! result := operation active in
     let! st := gets activeState in
     onOwn (Base.setState st) >>
     ret result)
    (fun error =>
       match error with
       | DashboardVersionError storedVersion _ =>
           let manager := managerFor storedVersion in
           setActiveManager manager >>
           operation manager
       | _ => throw error
       end).

(** [manager.fetchDashboard(options)] for either manager *)
Definition fetchDashboardOf (options : LoadDashboardOptions) (manager : ManagerId)
  : M (World Ext) (option Response) :=
  match manager with
  | V1Manager =>
      let! r := onV1 (V1.fetchDashboard env options) in ret (inl <$> r)
  | V2Manager =>
      let! r := onV2 (V2.fetchDashboard env options) in ret (inr <$> r)
  end.

Definition fetchDashboard (options : LoadDashboardOptions)
  : M (World Ext) (option Response) :=
  withVersionHandling (fetchDashboardOf options).

Definition reloadDashboard (p : option Params) : M (World Ext) unit :=
  withVersionHandling (fun manager =>
    match manager with
    | V1Manager => onV1 (V1.reloadDashboard env p)
    | V2Manager => onV2 (V2.reloadDashboard p)
    end).

Definition getDashboardFromCache (key : string) : M (World Ext) (option Response) :=
  let! active := gets activeManager in
  match active with
  | V1Manager =>
      let! r := onV1 (Base.getDashboardFromCache env key) in ret (inl <$> r)
  | V2Manager =>
      let! r := onV2 (Base.getDashboardFromCache env key) in ret (inr <$> r)
  end.

Definition transformResponseToScene (rsp : option Response)
    (options : LoadDashboardOptions) : M (World Ext) (option DashboardScene) :=
  match rsp with
  | None => ret None
  | Some (inr r) =>
      setActiveManager V2Manager >>
      onV2 (V2.transformResponseToScene env (Some r) options)
  | Some (inl r) => onV1 (V1.transformResponseToScene env (Some r) options)
  end.

Definition loadSnapshotScene (slug : string) : M (World Ext) DashboardScene :=
  try_catch
    (onV1 (V1.loadSnapshotScene env slug))
    (fun error =>
       match error with
       | DashboardVersionError storedVersion _ =>
           if String.eqb storedVersion "v2alpha1"
           then onV2 (V2.loadSnapshotScene env slug)
           else throw (Error "Snapshot not found")
       | _ => throw (Error "Snapshot not found")
       end).

Definition loadSnapshot (slug : string) : M (World Ext) unit :=
  withVersionHandling (fun manager =>
    match manager with
    | V1Manager => onV1 (V1.loadSnapshot env slug)
    | V2Manager => onV2 (V2.loadSnapshot env slug)
    end).

Definition clearDashboardCache : M (World Ext) unit :=
  onV1 Base.clearDashboardCache >>
  onV2 Base.clearDashboardCache.

Definition clearSceneCache : M (World Ext) unit :=
  onV1 Base.clearSceneCache >>
  onV2 Base.clearSceneCache >>
  onOwn Base.clearSceneCache.

Definition getCache : M (World Ext) SceneCache :=
  let! active := gets activeManager in
  match active with
  | V1Manager => onV1 Base.getCache
  | V2Manager => onV2 Base.getCache
  end.

Definition setDashboardCache (key : string) (d : Response) : M (World Ext) unit :=
  match d with
  | inr r => onV2 (Base.setDashboardCache env key r)
  | inl r => onV1 (Base.setDashboardCache env key r)
  end.
End Unified.
End Unified.

(** ** The history read query of the unified storage

    [postgres--resource_history_get-read object history.sql]: the query the
    storage issues to read the history of one object.  A table is the list of
    its rows; [WHERE] keeps the rows satisfying the condition, [ORDER BY ...
    DESC] sorts them, largest first. *)
Module ResourceHistory.
Record Row := {
  guid : string;
  resource_version : Z;
  namespace : string;
  group : string;
  resource : string;
  name : string;
  folder : string;
  value : string;
}.

(** [ORDER BY "resource_version" DESC]: the row before has the larger (or
    the same) version. *)
Definition resource_version_desc (r1 r2 : Row) : Prop :=
  resource_version r2 ≤ resource_version r1.

Global Instance resource_version_desc_dec r1 r2 :
  Decision (resource_version_desc r1 r2).
Proof. unfold resource_version_desc. apply _. Defined.

(** Larger versions first. *)
Definition descending (a b : Z) : Prop := b ≤ a.

(** The [WHERE] clause of the query. *)
Definition where_clause (r : Row) : Prop :=
  1 = 1
  ∧ namespace r = "nn"%string
  ∧ group r = "gg"%string
  ∧ resource r = "rr"%string
  ∧ name r = "name"%string.

Global Instance where_clause_dec r : Decision (where_clause r).
Proof. unfold where_clause. apply _. Defined.

(** The query: all eight columns are selected, so a result row is the
    stored row. *)
Definition resource_history_get (resource_history : list Row) : list Row :=
  merge_sort resource_version_desc (filter where_clause resource_history).

(** A row of the object [(nn, gg, rr, name)] and a row of another object,
    for the examples. *)
Definition row_of (v : Z) : Row :=
  {| guid := "g"; resource_version := v; namespace := "nn"; group := "gg";
     resource := "rr"; name := "name"; folder := ""; value := "{}" |}.

Definition other_row (v : Z) : Row :=
  {| guid := "h"; resource_version := v; namespace := "nn"; group := "gg";
     resource := "rr"; name := "other"; folder := ""; value := "{}" |}.
End ResourceHistory.

(** ** The manifest of the dashboard app: kinds and versions

    [dashboard_manifest.go] and the generated [dashboard_schema_gen.go] of
    [v0alpha1]. *)
Module Manifest.
Inductive SchemaScope := ClusterScope | NamespacedScope.

(** What [resource.NewSimpleSchema] is given. *)
Record SimpleSchema := {
  group : string;
  version : string;
  kind : string;
  plural : string;
  scope : SchemaScope;
}.

Inductive KindEncoding := KindEncodingJSON.

(** [&DashboardJSONCodec{}] of the package of one version. *)
Inductive Codec := DashboardJSONCodec (pkg : string).

(** [resource.Kind]; the zero value has a nil schema and a nil map. *)
Record Kind := {
  Schema : option SimpleSchema;
  Codecs : list (KindEncoding * Codec);
}.

Definition zeroKind : Kind := {| Schema := None; Codecs := [] |}.

(** [app.ManifestData] with the fields the manifest of this app sets. *)
Record ManifestKindVersion := { Name : string }.

Record ManifestKind := {
  mk_Kind : string;
  mk_Scope : string;
  mk_Conversion : bool;
  mk_Versions : list ManifestKindVersion;
}.

Record ManifestData := {
  AppName : string;
  Group : string;
  Kinds : list ManifestKind;
}.

Definition appManifestData : ManifestData :=
  {| AppName := "dashboard";
     Group := "dashboard.grafana.app";
     Kinds :=
       [{| mk_Kind := "Dashboard";
           mk_Scope := "Namespaced";
           mk_Conversion := false;
           mk_Versions :=
             [{| Name := "v0alpha1" |}; {| Name := "v1beta1" |};
              {| Name := "v2alpha1" |}; {| Name := "v2alpha2" |}] |}] |}.

(** The (kind, version) pairs the manifest data declares. *)
Definition declaredVersions (m : ManifestData) : list (string * string) :=
  k ← Kinds m; v ← mk_Versions k; [(mk_Kind k, Name v)].

Module v0alpha1.
Definition schemaDashboard : SimpleSchema :=
  {| group := "dashboard.grafana.app"; version := "v0alpha1";
     kind := "Dashboard"; plural := "dashboards"; scope := NamespacedScope |}.

Definition kindDashboard : Kind :=
  {| Schema := Some schemaDashboard;
     Codecs := [(KindEncodingJSON, DashboardJSONCodec "v0alpha1")] |}.

Definition DashboardKind : Kind := kindDashboard.
End v0alpha1.

Section Registry.
(** [DashboardKind()] of the packages [v1beta1], [v2alpha1] and
    [v2alpha2], which are generated alongside [v0alpha1]. *)
Context (v1beta1_DashboardKind v2alpha1_DashboardKind
         v2alpha2_DashboardKind : Kind).

(** The package-level map. *)
Definition kindVersionToGoType : gmap string Kind :=
  list_to_map
    [("Dashboard/v0alpha1"%string, v0alpha1.DashboardKind);
     ("Dashboard/v1beta1"%string, v1beta1_DashboardKind);
     ("Dashboard/v2alpha1"%string, v2alpha1_DashboardKind);
     ("Dashboard/v2alpha2"%string, v2alpha2_DashboardKind)].

End Registry.

(** The number of ["/"] in a string. *)
Fixpoint slashes (s : string) : nat :=
  match s with
  | EmptyString => 0
  | String c r => ((if Ascii.eqb c "/"%char then 1 else 0) + slashes r)%nat
  end.

(** [fmt.Sprintf("%s/%s", kind, version)] *)
Definition sprintf_key (kind version : string) : string :=
  kind +:+ "/" +:+ version.

(** [ManifestGoTypeAssociator], as a reader of the package-level map: it
    returns its two results and the map it leaves behind. *)
Definition ManifestGoTypeAssociator (kind version : string)
    (registry : gmap string Kind) : (Kind * bool) * gmap string Kind :=
  match registry !! sprintf_key kind version with
  | Some goType => ((goType, true), registry)
  | None => ((zeroKind, false), registry)
  end.
End Manifest.

(** ** A concrete outside world, to run the managers on examples *)
Module Scenario.
(** The clock, the current path, and the number of requests sent. *)
Record Outside := {
  clock : Z;
  pathname : string;
  requests : nat;
}.

Definition request {A} (answer : Res A) : Call Outside A :=
  fun x =>
    (answer,
     {| clock := clock x; pathname := pathname x; requests := S (requests x) |}).

Definition quiet {A} (a : A) : Call Outside A := fun x => (Ret a, x).

Definition navigate (p : string) (x : Outside) : Outside :=
  {| clock := clock x; pathname := p; requests := requests x |}.

Definition sceneOfV1 (r : DashboardDTO) : DashboardScene :=
  {| scene_uid := dashboard r ≫= dash_uid;
     scene_title := default ""%string (dash_title <$> dashboard r);
     scene_version := dashboard r ≫= dash_version |}.

Definition sceneOfV2 (r : DashboardV2Resource) : DashboardScene :=
  {| scene_uid := None;
     scene_title := spec_title (spec r);
     scene_version := generation (metadata r) |}.

(** The three readers of [app/core/utils/errors] on the thrown values of
    this model. *)
Definition statusOf (e : JsError) : option Z :=
  match e with
  | FetchError st _ _ _ => Some st
  | _ => None
  end.

Definition messageOf (e : JsError) : string :=
  match e with
  | FetchError _ _ _ m | DashboardVersionError _ m | Error m | TypeError m => m
  end.

Definition messageIdOf (e : JsError) : option string :=
  match e with
  | FetchError _ _ id _ => id
  | _ => None
  end.

(** Scenes that add no member to those of [Object.prototype]: through such
    a prototype [__proto__] reads the prototype and is assigned as on [{}],
    the other members are functions, and any other key is created as an own
    property. *)
Definition throughPlainScene (p : DashboardScene) (c : SceneCache) (key : string)
  : Read :=
  if String.eqb key "__proto__" then Found p
  else if bool_decide (key ∈ objectPrototypeMembers) then NoState
  else Falsy.

Definition intoPlainScene (p : DashboardScene) (c : SceneCache) (key : string)
    (scene : DashboardScene) : Res SceneCache :=
  if String.eqb key "__proto__"
  then Ret {| entries := entries c; prototype := Some scene |}
  else Ret {| entries := <[key := scene]> (entries c); prototype := prototype c |}.

(** An outside world whose v1 loader answers [v1], whose v2 loader answers
    [v2], and where a new dashboard is [fresh]. *)
Definition env (v1 : Res DashboardDTO) (v2 : Res DashboardV2Resource)
    (fresh : DashboardDTO) : Env Outside :=
  {| now := clock;
     buildNewDashboardSaveModel := fun _ => request (Ret fresh);
     buildNewDashboardSaveModelV2 := fun _ => request v2;
     getHomeDashboard := request (Ret (HomeRedirect "/d/home"));
     loadDashboardV1 := fun _ _ _ _ => request v1;
     loadSnapshotV1 := fun _ => request (Ret None);
     loadDashboardV2 := fun _ _ _ _ => request v2;
     loadSnapshotV2 := fun _ => request (Ret None);
     updateNavModel := fun _ => quiet tt;
     stripBaseFromUrl := fun u => u;
     locationReplace := navigate;
     locationReplacePathname := navigate;
     locationPathname := pathname;
     transformSaveModelToScene := fun r => quiet (sceneOfV1 r);
     transformSaveModelSchemaV2ToScene := fun r => quiet (sceneOfV2 r);
     getStatusFromError := statusOf;
     getMessageFromError := messageOf;
     getMessageIdFromError := messageIdOf;
     preserveDashboardStateWhenNavigating := false;
     restoreDashboardStateFromLocalStorage := fun _ => quiet tt;
     telemetry := fun _ => quiet tt;
     dashboardSrvSetCurrentUndefined := fun x => x;
     getThroughScene := throughPlainScene;
     setThroughScene := intoPlainScene |}.

Definition noMeta : DashboardMeta :=
  {| url := None; folderUid := None; canSave := None; canShare := None;
     canStar := None; isEmbedded := None |}.

Definition dto (title : string) (v : Z) : DashboardDTO :=
  {| dashboard := Some {| dash_title := title; dash_uid := None;
                          dash_version := Some v |};
     meta := noMeta |}.

Definition resourceV2 (title : string) (g : Z) : DashboardV2Resource :=
  {| spec := {| spec_title := title |};
     metadata := {| generation := Some g; annotations := None |};
     access := {| access_url := None; access_canSave := None;
                  access_canShare := None; access_canStar := None |} |}.

Definition start : Outside := {| clock := 1000; pathname := "/"; requests := 0 |}.

Definition fresh {T} : Local Outside T :=
  {| self := newManager emptyState; ext := start; log := [] |}.

Definition options (u : string) (r : DashboardRoutes) (p : option Params)
  : LoadDashboardOptions :=
  {| uid := u; route := r; slug := None; type := None; urlFolderUid := None;
     params := p |}.

Definition paramsWith (v : Z) (vars : UrlQueryMap) : Params :=
  {| version := v; scopes := []; timeRange := {| from := "now-6h"; to := "now" |};
     variables := vars |}.
End Scenario.

(** ** Vocabulary of the statements *)
Section Vocabulary.
Context {Ext : Type} (env : Env Ext).

(** The entry answers the key and is younger than the TTL. *)
Definition fresh_hit {T} (key : string) (s : Local Ext T)
    (entry : DashboardCacheEntry T) : Prop :=
  dashboardCache (self s) = Some entry
  ∧ cacheKey entry = key
  ∧ now env (ext s) - ts entry < 500.

(** Running [c] does not change the observation [f] of the manager. *)
Definition keeps {T X A} (f : Local Ext T -> X) (c : M (Local Ext T) A) : Prop :=
  ∀ s, f (c s).2 = f s.

(** Running [c] appends exactly the events [evs] to the log. *)
Definition adds {T A} (evs : list Event) (c : M (Local Ext T) A) : Prop :=
  ∀ s, log (c s).2 = log s ++ evs.

(** The content-relevant parameters of a reload equal those of the last
    load. *)
Definition same_content (p : option Params) (last : LoadDashboardOptions) : Prop :=
  variables <$> p = variables <$> params last
  ∧ scopes <$> p = scopes <$> params last.

(** The manager once [fetchDashboard options] has been entered. *)
Definition entered {T} (m : ManagerId) (options : LoadDashboardOptions)
    (s : Local Ext T) : Local Ext T :=
  {| self := self s; ext := ext s;
     log := log s ++ [EvFetchDashboard m options] |}.

(** The raw cache does not answer this fetch: parameters are given, or the
    lookup misses. *)
Definition not_served_from_cache {T} (options : LoadDashboardOptions)
    (s : Local Ext T) : Prop :=
  params options = None ->
  (Base.getDashboardFromCache env (keyOf options) s).1 = Ret None.

(** The manager when [loadScene] awaits [fetchDashboard], the measurement
    having left the outside world at [x]. *)
Definition loading {T} (s : Local Ext T) (x : Ext) : Local Ext T :=
  {| self := {| state := Base.mergeState (state (self s))
                           {| st_dashboard := Some None;
                              st_isLoading := Some (Some true);
                              st_options := None; st_panelEditor := None;
                              st_loadError := None |};
                cache := cache (self s);
                dashboardCache := dashboardCache (self s) |};
     ext := x; log := log s |}.

(** What [this.v1Manager] and [this.v2Manager] see of the world. *)
Definition viewV1 (w : World Ext) : Local Ext DashboardDTO :=
  {| self := v1Manager w; ext := world_ext w; log := world_log w |}.

Definition viewV2 (w : World Ext) : Local Ext DashboardV2Resource :=
  {| self := v2Manager w; ext := world_ext w; log := world_log w |}.

(** [this.activeManager = m] *)
Definition switched (m : ManagerId) (w : World Ext) : World Ext :=
  (Unified.setActiveManager m w).2.

(** [this.setState(this.activeManager.state)] *)
Definition synced (w : World Ext) : World Ext :=
  (Unified.onOwn (Base.setState (Unified.activeState w)) w).2.

(** The second half of C2 as it is stated: a fetch that ends in an error
    leaves the active manager as it was. *)
Definition active_unchanged_on_failure (E : Env Ext) : Prop :=
  ∀ options (w : World Ext) err,
    (Unified.fetchDashboard E options w).1 = Throw err ->
    activeManager (Unified.fetchDashboard E options w).2 = activeManager w.
End Vocabulary.

(** ** The module-level singletons

    [managers] and [getDashboardScenePageStateManager]: one lazily built
    instance of each manager class.  An instance is named by its slot. *)
Module Singletons.
(** The fields of one [UnifiedDashboardScenePageStateManager]. *)
Record UnifiedManager := {
  u_own : Manager (DashboardDTO + DashboardV2Resource);
  u_v1Manager : Manager DashboardDTO;
  u_v2Manager : Manager DashboardV2Resource;
  u_activeManager : ManagerId;
}.

(** [new UnifiedDashboardScenePageStateManager(initialState)] *)
Definition newUnified (initialState : DashboardScenePageState) : UnifiedManager :=
  {| u_own := newManager initialState;
     u_v1Manager := newManager initialState;
     u_v2Manager := newManager initialState;
     u_activeManager := V1Manager |}.

(** The object [managers]. *)
Record Managers := {
  v1 : option (Manager DashboardDTO);
  v2 : option (Manager DashboardV2Resource);
  unified : option UnifiedManager;
}.

(** Its initial value: the three slots are [undefined]. *)
Definition managers : Managers :=
  {| v1 := None; v2 := None; unified := None |}.

(** The argument ['v1' | 'v2'] and the instance returned. *)
Inductive Selector := SelectV1 | SelectV2.

Inductive Instance := TheV1 | TheV2 | TheUnified.

Definition getDashboardScenePageStateManager (v : option Selector)
    (ms : Managers) : Instance * Managers :=
  match v with
  | Some SelectV1 =>
      (TheV1,
       match v1 ms with
       | None => {| v1 := Some (newManager emptyState); v2 := v2 ms;
                    unified := unified ms |}
       | Some _ => ms
       end)
  | Some SelectV2 =>
      (TheV2,
       match v2 ms with
       | None => {| v1 := v1 ms; v2 := Some (newManager emptyState);
                    unified := unified ms |}
       | Some _ => ms
       end)
  | None =>
      (TheUnified,
       match unified ms with
       | None => {| v1 := v1 ms; v2 := v2 ms;
                    unified := Some (newUnified emptyState) |}
       | Some _ => ms
       end)
  end.

(** The slot of an instance is filled. *)
Definition built (i : Instance) (ms : Managers) : Prop :=
  match i with
  | TheV1 => is_Some (v1 ms)
  | TheV2 => is_Some (v2 ms)
  | TheUnified => is_Some (unified ms)
  end.
End Singletons.

(** ** More outside worlds for the examples *)
Module Scenes.
(** [e], with the two snapshot loaders answering [s1] and [s2]. *)
Definition withSnapshots (e : Env Scenario.Outside)
    (s1 : Res (option DashboardDTO)) (s2 : Res (option DashboardV2Resource))
  : Env Scenario.Outside :=
  {| now := now e;
     buildNewDashboardSaveModel := buildNewDashboardSaveModel e;
     buildNewDashboardSaveModelV2 := buildNewDashboardSaveModelV2 e;
     getHomeDashboard := getHomeDashboard e;
     loadDashboardV1 := loadDashboardV1 e;
     loadSnapshotV1 := fun _ => Scenario.request s1;
     loadDashboardV2 := loadDashboardV2 e;
     loadSnapshotV2 := fun _ => Scenario.request s2;
     updateNavModel := updateNavModel e;
     stripBaseFromUrl := stripBaseFromUrl e;
     locationReplace := locationReplace e;
     locationReplacePathname := locationReplacePathname e;
     locationPathname := locationPathname e;
     transformSaveModelToScene := transformSaveModelToScene e;
     transformSaveModelSchemaV2ToScene := transformSaveModelSchemaV2ToScene e;
     getStatusFromError := getStatusFromError e;
     getMessageFromError := getMessageFromError e;
     getMessageIdFromError := getMessageIdFromError e;
     preserveDashboardStateWhenNavigating := preserveDashboardStateWhenNavigating e;
     restoreDashboardStateFromLocalStorage := restoreDashboardStateFromLocalStorage e;
     telemetry := telemetry e;
     dashboardSrvSetCurrentUndefined := dashboardSrvSetCurrentUndefined e;
     getThroughScene := getThroughScene e;
     setThroughScene := setThroughScene e |}.

(** [e], with [/api/dashboards/home] answering [h]. *)
Definition withHome (e : Env Scenario.Outside) (h : Res HomeResponse)
  : Env Scenario.Outside :=
  {| now := now e;
     buildNewDashboardSaveModel := buildNewDashboardSaveModel e;
     buildNewDashboardSaveModelV2 := buildNewDashboardSaveModelV2 e;
     getHomeDashboard := Scenario.request h;
     loadDashboardV1 := loadDashboardV1 e;
     loadSnapshotV1 := loadSnapshotV1 e;
     loadDashboardV2 := loadDashboardV2 e;
     loadSnapshotV2 := loadSnapshotV2 e;
     updateNavModel := updateNavModel e;
     stripBaseFromUrl := stripBaseFromUrl e;
     locationReplace := locationReplace e;
     locationReplacePathname := locationReplacePathname e;
     locationPathname := locationPathname e;
     transformSaveModelToScene := transformSaveModelToScene e;
     transformSaveModelSchemaV2ToScene := transformSaveModelSchemaV2ToScene e;
     getStatusFromError := getStatusFromError e;
     getMessageFromError := getMessageFromError e;
     getMessageIdFromError := getMessageIdFromError e;
     preserveDashboardStateWhenNavigating := preserveDashboardStateWhenNavigating e;
     restoreDashboardStateFromLocalStorage := restoreDashboardStateFromLocalStorage e;
     telemetry := telemetry e;
     dashboardSrvSetCurrentUndefined := dashboardSrvSetCurrentUndefined e;
     getThroughScene := getThroughScene e;
     setThroughScene := setThroughScene e |}.

(** The plain outside world: both loaders answer a dashboard. *)
Definition plain : Env Scenario.Outside :=
  Scenario.env (Ret (Scenario.dto "t" 1)) (Ret (Scenario.resourceV2 "t" 1))
    (Scenario.dto "new" 0).

(** A manager holding [last] as the options of its last load. *)
Definition loaded {T} (last : LoadDashboardOptions) : Local Scenario.Outside T :=
  {| self := {| state := {| st_options := Some (Some last);
                            st_dashboard := None; st_panelEditor := None;
                            st_isLoading := None; st_loadError := None |};
                cache := ∅; dashboardCache := None |};
     ext := Scenario.start; log := [] |}.
(** A cancelled request. *)
Definition aborted : JsError := FetchError 0 true None "Request was aborted".

(** The outside world whose v1 loader is cancelled. *)
Definition cancelling : Env Scenario.Outside :=
  Scenario.env (Throw aborted) (Throw (Error "none")) (Scenario.dto "new" 0).

(** A manager with one raw entry and one scene, and [last] as the options
    of its last load. *)
Definition warm (last : LoadDashboardOptions) (key : string) (d : DashboardDTO)
    (sceneKey : string) (scene : DashboardScene)
  : Local Scenario.Outside DashboardDTO :=
  {| self := {| state := {| st_options := Some (Some last);
                            st_dashboard := None; st_panelEditor := None;
                            st_isLoading := None; st_loadError := None |};
                cache := {| entries := {[ sceneKey := scene ]};
                            prototype := None |};
                dashboardCache :=
                  Some {| entry_dashboard := d; ts := 1000; cacheKey := key |} |};
     ext := Scenario.start; log := [] |}.

(** The options of a load of [abc] with the variable [var-a]. *)
Definition withVar (v : string) : LoadDashboardOptions :=
  Scenario.options "abc" Normal
    (Some (Scenario.paramsWith 1 {[ "var-a"%string := QString v ]})).

End Scenes.

(** ** Vocabulary of the further properties *)
Section MoreVocabulary.
Context {Ext : Type} (env : Env Ext).

(** The world with another active manager and at another moment. *)
Definition later (m : ManagerId) (x : Ext) (w : World Ext) : World Ext :=
  {| own := own w; v1Manager := v1Manager w; v2Manager := v2Manager w;
     activeManager := m; world_ext := x; world_log := world_log w |}.

(** The manager when [reloadDashboard] awaits [fetchDashboard]. *)
Definition reloading {T} (s : Local Ext T) : Local Ext T :=
  {| self := {| state := Base.mergeState (state (self s))
                           {| st_isLoading := Some (Some true);
                              st_dashboard := None; st_options := None;
                              st_panelEditor := None; st_loadError := None |};
                cache := cache (self s);
                dashboardCache := dashboardCache (self s) |};
     ext := ext s; log := log s |}.

End MoreVocabulary.

(** * Properties *)

(** ** Reasoning about the monad *)
Section MonadFacts.
Context {S A B : Type}.

Lemma bind_ret_step (c : M S A) (k : A -> M S B) s a s' :
  c s = (Ret a, s') -> bind c k s = k a s'.
Proof. intros H. unfold bind. now rewrite H. Qed.

Lemma bind_throw_step (c : M S A) (k : A -> M S B) s e s' :
  c s = (Throw e, s') -> bind c k s = (Throw e, s').
Proof. intros H. unfold bind. now rewrite H. Qed.

Lemma try_catch_ret_step (c : M S A) h s a s' :
  c s = (Ret a, s') -> try_catch c h s = (Ret a, s').
Proof. intros H. unfold try_catch. now rewrite H. Qed.

Lemma try_catch_throw_step (c : M S A) h s e s' :
  c s = (Throw e, s') -> try_catch c h s = h e s'.
Proof. intros H. unfold try_catch. now rewrite H. Qed.
End MonadFacts.

(** ** The raw-response cache *)
Section RawCache.
Context {Ext T : Type} (env : Env Ext).

(** A lookup changes nothing. *)
Lemma getDashboardFromCache_pure (key : string) (s : Local Ext T) :
  (Base.getDashboardFromCache env key s).2 = s.
Proof.
  unfold Base.getDashboardFromCache.
  destruct (dashboardCache (self s)); [|reflexivity].
  now destruct (_ && _).
Qed.

(** C4. [getDashboardFromCache key] returns the stored response exactly
    when an entry exists, its key is [key] and its age is strictly below
    the TTL of 500ms; in every other case it returns null.  It never
    throws, and it leaves the manager, the outside world and the log of
    fetches as they were: it issues no fetch. *)
Theorem getDashboardFromCache_spec (key : string) (s : Local Ext T) :
  DASHBOARD_CACHE_TTL = 500
  ∧ (∀ d, (Base.getDashboardFromCache env key s).1 = Ret (Some d)
          ↔ ∃ entry, fresh_hit env key s entry ∧ entry_dashboard entry = d)
  ∧ ((Base.getDashboardFromCache env key s).1 = Ret None
     ↔ ¬ ∃ entry, fresh_hit env key s entry)
  ∧ (∀ e, (Base.getDashboardFromCache env key s).1 ≠ Throw e)
  ∧ (Base.getDashboardFromCache env key s).2 = s.
Proof.
  unfold Base.getDashboardFromCache, fresh_hit, DASHBOARD_CACHE_TTL.
  split; [reflexivity|].
  destruct (dashboardCache (self s)) as [entry|] eqn:Hc; simpl.
  - destruct (String.eqb_spec (cacheKey entry) key) as [Hk|Hk]; simpl.
    + destruct (Z.ltb_spec (now env (ext s) - ts entry) 500) as [Hlt|Hge]; simpl.
      * split; [|split; [|split]]; try easy.
        -- intros d. split.
           ++ intros [= <-]. exists entry. auto.
           ++ intros (e' & (He & _ & _) & <-). congruence.
        -- split; [discriminate|]. intros Hno. exfalso. apply Hno.
           exists entry. auto.
      * split; [|split; [|split]]; try easy.
        -- intros d. split; [discriminate|].
           intros (e' & (He & _ & Hlt) & _).
           assert (e' = entry) by congruence. subst. lia.
        -- split; [|reflexivity]. intros _ (e' & He & _ & Hlt).
           assert (e' = entry) by congruence. subst. lia.
    + split; [|split; [|split]]; try easy.
      * intros d. split; [discriminate|].
        intros (e' & (He & Hk' & _) & _).
        assert (e' = entry) by congruence. subst. contradiction.
      * split; [|reflexivity]. intros _ (e' & He & Hk' & _).
        assert (e' = entry) by congruence. subst. contradiction.
  - split; [|split; [|split]]; try easy.
    + intros d. split; [discriminate|]. intros (e' & (He & _) & _). discriminate.
    + split; [|reflexivity]. intros _ (e' & He & _). discriminate.
Qed.

(** C10. The raw-response tier is a single slot: [setDashboardCache k d]
    replaces it by the one entry for [k], so a lookup of any other key
    answers null right afterwards (and at any later clock), whatever was
    cached before. *)
Theorem setDashboardCache_single_entry (k k' : string) (d : T)
    (s : Local Ext T) :
  k' ≠ k ->
  let s1 := (Base.setDashboardCache env k d s).2 in
  dashboardCache (self s1)
    = Some {| entry_dashboard := d; ts := now env (ext s); cacheKey := k |}
  ∧ (Base.getDashboardFromCache env k' s1).1 = Ret None
  ∧ ∀ x', (Base.getDashboardFromCache env k'
             {| self := self s1; ext := x'; log := log s1 |}).1 = Ret None.
Proof.
  intros Hne. simpl.
  assert (Hk : String.eqb k k' = false).
  { apply String.eqb_neq. congruence. }
  unfold Base.getDashboardFromCache; simpl. rewrite Hk. simpl. auto.
Qed.
End RawCache.

(** An unexpired entry for ["b"] is dropped by caching ["a"]. *)
Lemma setDashboardCache_single_entry_witness :
  let e := Scenario.env (Ret (Scenario.dto "t" 1)) (Throw (Error "none"))
             (Scenario.dto "new" 0) in
  let s0 := (Base.setDashboardCache e "b" (Scenario.dto "b" 1) Scenario.fresh).2 in
  (Base.getDashboardFromCache e "b" s0).1 = Ret (Some (Scenario.dto "b" 1))
  ∧ (Base.getDashboardFromCache e "b"
       (Base.setDashboardCache e "a" (Scenario.dto "a" 1) s0).2).1 = Ret None.
Proof.
  intros e s0. split; [reflexivity|].
  apply (setDashboardCache_single_entry e "a" "b" (Scenario.dto "a" 1) s0).
  discriminate.
Defined.

(** ** What a computation leaves alone *)
Section Frames.
Context {Ext T : Type} (env : Env Ext).

Lemma keeps_ret {X A} (f : Local Ext T -> X) (a : A) : keeps f (ret a).
Proof. now intros s. Qed.

Lemma keeps_throw {X A} (f : Local Ext T -> X) e : keeps f (@throw _ A e).
Proof. now intros s. Qed.

Lemma keeps_gets {X A} (f : Local Ext T -> X) (g : Local Ext T -> A) :
  keeps f (gets g).
Proof. now intros s. Qed.

Lemma keeps_bind {X A B} (f : Local Ext T -> X) (c : M (Local Ext T) A) (k : A -> M (Local Ext T) B) :
  keeps f c -> (∀ a, keeps f (k a)) -> keeps f (bind c k).
Proof.
  intros Hc Hk s. unfold bind. specialize (Hc s).
  destruct (c s) as [[a|e] s']; simpl in *; [|assumption].
  now rewrite Hk.
Qed.

Lemma keeps_try_catch {X A} (f : Local Ext T -> X) (c : M (Local Ext T) A) h :
  keeps f c -> (∀ e, keeps f (h e)) -> keeps f (try_catch c h).
Proof.
  intros Hc Hh s. unfold try_catch. specialize (Hc s).
  destruct (c s) as [[a|e] s']; simpl in *; [assumption|].
  now rewrite Hh.
Qed.

Lemma keeps_when {X} (f : Local Ext T -> X) b (c : M (Local Ext T) unit) :
  keeps f c -> keeps f (when b c).
Proof. destruct b; [easy|]. intros _. apply keeps_ret. Qed.

(** The log is touched by [emit] only. *)
Lemma keeps_log_call {A} (c : Call Ext A) : keeps log (@Base.call Ext T A c).
Proof. intros s. unfold Base.call. now destruct (c (ext s)). Qed.

Lemma keeps_log_act g : keeps log (@Base.act Ext T g).
Proof. now intros s. Qed.

Lemma keeps_log_update_self g : keeps log (@Base.update_self Ext T g).
Proof. now intros s. Qed.

Lemma keeps_log_setDashboardCache k d :
  keeps log (@Base.setDashboardCache Ext env T k d).
Proof. now intros s. Qed.

Lemma keeps_log_getDashboardFromCache k :
  keeps log (@Base.getDashboardFromCache Ext env T k).
Proof.
  intros s. unfold Base.getDashboardFromCache.
  destruct (dashboardCache (self s)); [|reflexivity].
  now destruct (_ && _).
Qed.

(** Calls, actions on the outside world and ghost events leave the
    manager's own fields alone. *)
Lemma keeps_self_call {X A} (g : Manager T -> X) (c : Call Ext A) :
  keeps (g ∘ self) (@Base.call Ext T A c).
Proof. intros s. unfold Base.call. now destruct (c (ext s)). Qed.

Lemma keeps_self_act {X} (g : Manager T -> X) h :
  keeps (g ∘ self) (@Base.act Ext T h).
Proof. now intros s. Qed.

Lemma keeps_self_emit {X} (g : Manager T -> X) e :
  keeps (g ∘ self) (@Base.emit Ext T e).
Proof. now intros s. Qed.

(** The page state is touched by [setState] only. *)
Lemma keeps_state_setDashboardCache k d :
  keeps (state ∘ self) (@Base.setDashboardCache Ext env T k d).
Proof. now intros s. Qed.

Lemma keeps_state_setSceneCache k d :
  keeps (state ∘ self) (@Base.setSceneCache Ext env T k d).
Proof.
  intros s. unfold Base.setSceneCache.
  now destruct (Base.writeCache env (cache (self s)) k d).
Qed.

Lemma keeps_state_getDashboardFromCache k :
  keeps (state ∘ self) (@Base.getDashboardFromCache Ext env T k).
Proof.
  intros s. unfold Base.getDashboardFromCache.
  destruct (dashboardCache (self s)); [|reflexivity].
  now destruct (_ && _).
Qed.

Lemma adds_emit e : adds [e] (@Base.emit Ext T e).
Proof. now intros s. Qed.

Lemma adds_nil {A} (c : M (Local Ext T) A) : keeps log c -> adds [] c.
Proof. intros H s. rewrite app_nil_r. apply H. Qed.

Lemma adds_bind_l {A B} evs (c : M (Local Ext T) A) (k : A -> M (Local Ext T) B) :
  adds evs c -> (∀ a, keeps log (k a)) -> adds evs (bind c k).
Proof.
  intros Hc Hk s. unfold bind. specialize (Hc s).
  destruct (c s) as [[a|e] s']; simpl in *; [|assumption].
  now rewrite Hk.
Qed.

Lemma adds_try_catch {A} evs (c : M (Local Ext T) A) h :
  adds evs c -> (∀ e, keeps log (h e)) -> adds evs (try_catch c h).
Proof.
  intros Hc Hh s. unfold try_catch. specialize (Hc s).
  destruct (c s) as [[a|e] s']; simpl in *; [assumption|].
  now rewrite Hh.
Qed.
End Frames.

Ltac keeps_step :=
  match goal with
  | |- keeps _ (bind _ _) => apply keeps_bind; [|intros ?]
  | |- keeps _ (try_catch _ _) => apply keeps_try_catch; [|intros ?]
  | |- keeps _ (when _ _) => apply keeps_when
  | |- keeps _ (ret _) => apply keeps_ret
  | |- keeps _ (throw _) => apply keeps_throw
  | |- keeps _ (gets _) => apply keeps_gets
  | |- keeps log (Base.call _) => apply keeps_log_call
  | |- keeps log (Base.act _) => apply keeps_log_act
  | |- keeps log (Base.update_self _) => apply keeps_log_update_self
  | |- keeps log (Base.setDashboardCache _ _ _) => apply keeps_log_setDashboardCache
  | |- keeps log (Base.getDashboardFromCache _ _) =>
      apply keeps_log_getDashboardFromCache
  | |- keeps (_ ∘ self) (Base.call _) => apply keeps_self_call
  | |- keeps (_ ∘ self) (Base.act _) => apply keeps_self_act
  | |- keeps (_ ∘ self) (Base.emit _) => apply keeps_self_emit
  | |- keeps (state ∘ self) (Base.setDashboardCache _ _ _) =>
      apply keeps_state_setDashboardCache
  | |- keeps (state ∘ self) (Base.setSceneCache _ _ _) =>
      apply keeps_state_setSceneCache
  | |- keeps (state ∘ self) (Base.getDashboardFromCache _ _) =>
      apply keeps_state_getDashboardFromCache
  | |- keeps _ (match ?x with _ => _ end) => destruct x
  end.

Ltac keeps_all := repeat keeps_step.

(** ** Frames of the version-specific managers *)
Section ManagerFrames.
Context {Ext : Type} (env : Env Ext).

Lemma keeps_log_setState {T} u : keeps log (@Base.setState Ext T u).
Proof. apply keeps_log_update_self. Qed.

Lemma keeps_log_setSceneCache {T} k d :
  keeps log (@Base.setSceneCache Ext env T k d).
Proof.
  intros s. unfold Base.setSceneCache.
  now destruct (Base.writeCache env (cache (self s)) k d).
Qed.

Lemma keeps_log_getSceneFromCache {T} k :
  keeps log (@Base.getSceneFromCache Ext env T k).
Proof. apply keeps_gets. Qed.

Lemma V1_tryBlock_keeps_log o k : keeps log (V1.tryBlock env o k).
Proof.
  unfold V1.tryBlock, V1.fetchByRoute, V1.afterFetch. keeps_all.
Qed.

Lemma V1_tryBlock_keeps_state o k : keeps (state ∘ self) (V1.tryBlock env o k).
Proof.
  unfold V1.tryBlock, V1.fetchByRoute, V1.afterFetch. keeps_all.
Qed.

Lemma V2_tryBlock_keeps_log o k : keeps log (V2.tryBlock env o k).
Proof.
  unfold V2.tryBlock, V2.fetchByRoute, V2.afterFetch. keeps_all.
Qed.

(** Each call of a version-specific [fetchDashboard] is one event of the
    log. *)
Lemma V1_fetchDashboard_adds o :
  adds [EvFetchDashboard V1Manager o] (V1.fetchDashboard env o).
Proof.
  unfold V1.fetchDashboard. apply adds_bind_l; [apply adds_emit|].
  intros _. keeps_all. apply V1_tryBlock_keeps_log.
Qed.

Lemma V2_fetchDashboard_adds o :
  adds [EvFetchDashboard V2Manager o] (V2.fetchDashboard env o).
Proof.
  unfold V2.fetchDashboard. apply adds_bind_l; [apply adds_emit|].
  intros _. keeps_all. apply V2_tryBlock_keeps_log.
Qed.

(** [fetchDashboard] never sets the page state. *)
Lemma V1_fetchDashboard_keeps_state o :
  keeps (state ∘ self) (V1.fetchDashboard env o).
Proof.
  unfold V1.fetchDashboard. keeps_all. apply V1_tryBlock_keeps_state.
Qed.
End ManagerFrames.

(** ** Reloading *)
Section Reload.
Context {Ext : Type} (env : Env Ext).

Lemma bind_gets {S A B} (f : S -> A) (k : A -> M S B) s :
  bind (gets f) k s = k (f s) s.
Proof. reflexivity. Qed.

End Reload.


(** ** Cancelled requests *)
Section Cancelled.
Context {Ext : Type} (env : Env Ext).

(** When the cache does not answer, [fetchDashboard] is its guarded [try]
    block. *)
Lemma V1_fetchDashboard_miss options (s : Local Ext DashboardDTO) :
  let s1 := entered V1Manager options s in
  not_served_from_cache env options s1 ->
  V1.fetchDashboard env options s
  = try_catch (V1.tryBlock env options (keyOf options))
      (fun e => if isCancelledFetchError e then ret None else throw e) s1.
Proof.
  intros s1 Hmiss. unfold V1.fetchDashboard, not_served_from_cache in *.
  unfold bind at 1. cbn [Base.emit modify]. fold (keyOf options).
  fold (entered V1Manager options s). fold s1.
  destruct (params options) as [p|].
  - reflexivity.
  - specialize (Hmiss eq_refl).
    pose proof (getDashboardFromCache_pure env (keyOf options) s1) as Hs.
    unfold bind at 1.
    destruct (Base.getDashboardFromCache env (keyOf options) s1) as [r s'].
    simpl in Hmiss, Hs. subst. reflexivity.
Qed.

Lemma V1_fetchDashboard_cancelled options (s : Local Ext DashboardDTO) e :
  let s1 := entered V1Manager options s in
  not_served_from_cache env options s1 ->
  (V1.tryBlock env options (keyOf options) s1).1 = Throw e ->
  isCancelledFetchError e = true ->
  V1.fetchDashboard env options s
  = (Ret None, (V1.tryBlock env options (keyOf options) s1).2).
Proof.
  intros s1 Hmiss Hthrow Hc. rewrite V1_fetchDashboard_miss by assumption.
  fold s1. unfold try_catch.
  destruct (V1.tryBlock env options (keyOf options) s1) as [r s'].
  simpl in *. subst r. now rewrite Hc.
Qed.

(** A load whose fetch answers null returns without touching
    [loadError], whatever the two overridden methods are. *)
Lemma loadDashboard_null_fetch {T} fetch transform options
    (s : Local Ext T) x s' :
  telemetry env StartMeasure (ext s) = (Ret tt, x) ->
  fetch options (loading s x) = (Ret None, s') ->
  Base.loadDashboard env fetch transform options s = (Ret tt, s').
Proof.
  intros Hm Hf. unfold Base.loadDashboard, Base.loadDashboardTry, try_catch.
  unfold bind at 1. unfold Base.call at 1. rewrite Hm. cbn [self log].
  unfold bind at 1. unfold Base.loadScene.
  unfold bind at 1. cbn [Base.setState Base.update_self modify self ext log].
  fold (loading s x). unfold bind at 1. rewrite Hf. reflexivity.
Qed.

(** C6. When the [try] block of [fetchDashboard] fails with a cancelled
    fetch error, [fetchDashboard] returns null instead of throwing, and
    the enclosing [loadDashboard] returns normally with the [loadError] of
    the state exactly as it was before the load. *)
Theorem cancelled_fetch_not_surfaced options (s : Local Ext DashboardDTO) x e :
  telemetry env StartMeasure (ext s) = (Ret tt, x) ->
  let s1 := loading s x in
  let s2 := entered V1Manager options s1 in
  not_served_from_cache env options s2 ->
  (V1.tryBlock env options (keyOf options) s2).1 = Throw e ->
  isCancelledFetchError e = true ->
  (V1.fetchDashboard env options s1).1 = Ret None
  ∧ (V1.loadDashboard env options s).1 = Ret tt
  ∧ st_loadError (state (self (V1.loadDashboard env options s).2))
    = st_loadError (state (self s)).
Proof.
  intros Hm s1 s2 Hmiss Hthrow Hc.
  pose proof (V1_fetchDashboard_cancelled options s1 e Hmiss Hthrow Hc) as Hf.
  fold s2 in Hf.
  unfold V1.loadDashboard.
  rewrite (loadDashboard_null_fetch _ _ options s x _ Hm Hf), Hf.
  split; [reflexivity|]. split; [reflexivity|]. cbn [snd].
  pose proof (V1_tryBlock_keeps_state env options (keyOf options) s2) as Hk.
  unfold compose in Hk. rewrite Hk. reflexivity.
Qed.
End Cancelled.

(** The request of a normal route is cancelled while the dashboard loads. *)
Lemma cancelled_fetch_not_surfaced_witness :
  let e := Scenario.env (Throw (FetchError 0 true None "Request was aborted"))
             (Throw (Error "none")) (Scenario.dto "new" 0) in
  let o := Scenario.options "abc" Normal None in
  (V1.fetchDashboard e o (loading Scenario.fresh Scenario.start)).1 = Ret None
  ∧ (V1.loadDashboard e o Scenario.fresh).1 = Ret tt
  ∧ st_loadError (state (self (V1.loadDashboard e o Scenario.fresh).2)) = None.
Proof.
  intros e o.
  apply (cancelled_fetch_not_surfaced e o Scenario.fresh Scenario.start
           (FetchError 0 true None "Request was aborted")).
  - reflexivity.
  - intros _. reflexivity.
  - reflexivity.
  - reflexivity.
Defined.

(** ** Failures and the [loadError] of the state *)
Section Failures.
Context {Ext : Type} (env : Env Ext).

(** [loadDashboard] catches whatever its [try] block throws: the state
    gets a [loadError] with the status, the message identifier and the
    message read off the thrown value. *)
Lemma loadDashboard_failure {T} fetch transform options (s s' : Local Ext T) err :
  Base.loadDashboardTry env fetch transform options s = (Throw err, s') ->
  (Base.loadDashboard env fetch transform options s).1 = Ret tt
  ∧ prop (st_loadError
            (state (self (Base.loadDashboard env fetch transform options s).2)))
    = Some {| status := getStatusFromError env err;
              messageId := getMessageIdFromError env err;
              message := getMessageFromError env err |}.
Proof.
  intros Hthrow. unfold Base.loadDashboard.
  rewrite (try_catch_throw_step _ _ _ _ _ Hthrow). split; reflexivity.
Qed.

(** The same for [loadSnapshot]. *)
Lemma loadSnapshot_failure {T} loadScene slug (s s' : Local Ext T) err :
  Base.loadSnapshotTry loadScene slug s = (Throw err, s') ->
  (Base.loadSnapshot env loadScene slug s).1 = Ret tt
  ∧ prop (st_loadError (state (self (Base.loadSnapshot env loadScene slug s).2)))
    = Some {| status := getStatusFromError env err;
              messageId := getMessageIdFromError env err;
              message := getMessageFromError env err |}.
Proof.
  intros Hthrow. unfold Base.loadSnapshot.
  rewrite (try_catch_throw_step _ _ _ _ _ Hthrow). split; reflexivity.
Qed.

(** C7, what the code does on the reload path.  [reloadDashboard] also
    catches whatever its [try] block throws, but the [loadError] it sets
    carries the status and the message only: its message identifier is
    absent, whatever identifier the thrown value has. *)
Theorem reloadDashboard_failure_drops_messageId (p : option Params)
    (s s' : Local Ext DashboardDTO) (last : LoadDashboardOptions) err :
  prop (st_options (state (self s))) = Some last ->
  ¬ same_content p last ->
  V1.reloadTry env (V1.withParams last p) s = (Throw err, s') ->
  (V1.reloadDashboard env p s).1 = Ret tt
  ∧ prop (st_loadError (state (self (V1.reloadDashboard env p s).2)))
    = Some {| status := getStatusFromError env err;
              messageId := None;
              message := getMessageFromError env err |}.
Proof.
  intros Hlast Hdiff Hthrow. unfold V1.reloadDashboard.
  rewrite bind_gets, Hlast. cbn [V1.withParams params]. unfold V1.isEqual.
  destruct (bool_decide _ && bool_decide _) eqn:Hb.
  { apply andb_true_iff in Hb as [H1 H2].
    apply bool_decide_eq_true_1 in H1, H2. destruct Hdiff. now split. }
  rewrite (try_catch_throw_step _ _ _ _ _ Hthrow). split; reflexivity.
Qed.
End Failures.

(** The backend refuses a dashboard with status 500 and the message
    identifier [errors.dashboard.load].  A load records the identifier; a
    reload of the same dashboard with new variables loses it. *)
Lemma reloadDashboard_failure_drops_messageId_witness :
  let err := FetchError 500 false (Some "errors.dashboard.load"%string) "boom" in
  let e := Scenario.env (Throw err) (Throw (Error "none")) (Scenario.dto "new" 0) in
  let last := Scenario.options "abc" Normal
                (Some (Scenario.paramsWith 1 {[ "var-a"%string := QString "1" ]})) in
  let s : Local Scenario.Outside DashboardDTO :=
    {| self := {| state := Base.mergeState emptyState
                             {| st_options := Some (Some last);
                                st_dashboard := None; st_panelEditor := None;
                                st_isLoading := None; st_loadError := None |};
                  cache := ∅; dashboardCache := None |};
       ext := Scenario.start; log := [] |} in
  let p := Some (Scenario.paramsWith 1 {[ "var-a"%string := QString "2" ]}) in
  getMessageIdFromError e err = Some "errors.dashboard.load"%string
  ∧ (prop (st_loadError (state (self (V1.reloadDashboard e p s).2)))
     = Some {| status := Some 500; messageId := None; message := "boom" |})
  ∧ (prop (st_loadError (state (self (V1.loadDashboard e last s).2)))
     = Some {| status := Some 500;
               messageId := Some "errors.dashboard.load"%string;
               message := "boom" |}).
Proof.
  intros err e last s p. split; [reflexivity|]. split.
  - refine (proj2 (reloadDashboard_failure_drops_messageId e p s _ last err
                     eq_refl _ eq_refl)).
    intros [Hv _].
    apply (f_equal (fun m => m ≫= (fun vars => vars !! "var-a"%string))) in Hv.
    vm_compute in Hv. discriminate.
  - refine (proj2 (loadDashboard_failure e (V1.fetchDashboard e)
                     (V1.transformResponseToScene e) last s _ err eq_refl)).
Defined.

(** ** Transient dashboards and the two cache tiers *)
Section Transient.
Context {Ext : Type} (env : Env Ext).

(** Without a uid, [transformResponseToScene] leaves the scene cache as it
    is. *)
Lemma V1_transformResponseToScene_no_uid rsp options :
  uid options = ""%string ->
  keeps (cache ∘ self) (V1.transformResponseToScene env rsp options).
Proof.
  intros Hu. unfold V1.transformResponseToScene, V1.sameVersion, V1.versionOf.
  unfold Base.getSceneFromCache.
  rewrite Hu. cbn [truthy String.eqb negb when]. keeps_all.
Qed.

(** C3, what the code does on the New route.  A dashboard built for the
    New route is written to the raw-response tier like any other
    response: when [fetchDashboard] is not answered by the cache and the
    new save model has no folder, it returns the save model and leaves it
    in [dashboardCache] under the uid of the options. *)
Theorem new_dashboard_enters_raw_cache options (s : Local Ext DashboardDTO)
    rsp x :
  route options = New ->
  not_served_from_cache env options (entered V1Manager options s) ->
  buildNewDashboardSaveModel env (urlFolderUid options) (ext s) = (Ret rsp, x) ->
  truthy_opt (folderUid (meta rsp)) = false ->
  (V1.fetchDashboard env options s).1 = Ret (Some rsp)
  ∧ dashboardCache (self (V1.fetchDashboard env options s).2)
    = Some {| entry_dashboard := rsp; ts := now env x; cacheKey := uid options |}.
Proof.
  intros Hroute Hmiss Hbuild Hfolder.
  rewrite V1_fetchDashboard_miss by assumption.
  set (s0 := entered V1Manager options s).
  set (sx := {| self := self s; ext := x; log := log s0 |}).
  assert (Hkey : keyOf options = uid options).
  { unfold keyOf. now rewrite Hroute. }
  assert (Hcall : Base.call (buildNewDashboardSaveModel env (urlFolderUid options)) s0
                  = (Ret rsp, sx)).
  { unfold Base.call. cbn [s0 entered ext]. now rewrite Hbuild. }
  assert (Hswitch : V1.fetchByRoute env options s0 = (Ret (Continue rsp), sx)).
  { unfold V1.fetchByRoute. rewrite Hroute.
    now rewrite (bind_ret_step _ _ _ _ _ Hcall). }
  assert (Hafter : V1.afterFetch env options (keyOf options) rsp sx
                   = (Ret (Some rsp),
                      (Base.setDashboardCache env (uid options) rsp sx).2)).
  { unfold V1.afterFetch. rewrite Hfolder, Hroute, Hkey.
    rewrite andb_false_r. reflexivity. }
  assert (Htry : V1.tryBlock env options (keyOf options) s0
                 = (Ret (Some rsp),
                    (Base.setDashboardCache env (uid options) rsp sx).2)).
  { unfold V1.tryBlock. now rewrite (bind_ret_step _ _ _ _ _ Hswitch). }
  rewrite (try_catch_ret_step _ _ _ _ _ Htry). split; reflexivity.
Qed.
End Transient.

(** A new dashboard is fetched twice in a row: the first fetch caches it
    under the empty uid, the second is answered from the cache without
    building anything. *)
Lemma new_dashboard_enters_raw_cache_witness :
  let e := Scenario.env (Throw (Error "none")) (Throw (Error "none"))
             (Scenario.dto "New dashboard" 0) in
  let o := Scenario.options "" New None in
  let s1 := (V1.fetchDashboard e o Scenario.fresh).2 in
  ((V1.fetchDashboard e o Scenario.fresh).1 = Ret (Some (Scenario.dto "New dashboard" 0))
   ∧ dashboardCache (self s1)
     = Some {| entry_dashboard := Scenario.dto "New dashboard" 0;
               ts := 1000; cacheKey := "" |})
  ∧ (V1.fetchDashboard e o s1).1 = Ret (Some (Scenario.dto "New dashboard" 0))
  ∧ Scenario.requests (ext s1) = 1%nat
  ∧ Scenario.requests (ext (V1.fetchDashboard e o s1).2) = 1%nat.
Proof.
  intros e o s1. split; [|repeat split; reflexivity].
  apply (new_dashboard_enters_raw_cache e o Scenario.fresh
           (Scenario.dto "New dashboard" 0)
           {| Scenario.clock := 1000; Scenario.pathname := "/";
              Scenario.requests := 1 |}).
  - reflexivity.
  - intros _. reflexivity.
  - reflexivity.
  - reflexivity.
Defined.

(** ** The unified manager and its version fallback *)
Section Fallback.
Context {Ext : Type} (env : Env Ext).

Lemma fetchDashboardOf_log options m w :
  world_log (Unified.fetchDashboardOf env options m w).2
  = world_log w ++ [EvFetchDashboard m options].
Proof.
  destruct m; unfold Unified.fetchDashboardOf, bind, Unified.onV1, Unified.onV2.
  - pose proof (V1_fetchDashboard_adds env options (viewV1 w)) as H.
    unfold viewV1 in H.
    destruct (V1.fetchDashboard env options _) as [[r|e] s]; exact H.
  - pose proof (V2_fetchDashboard_adds env options (viewV2 w)) as H.
    unfold viewV2 in H.
    destruct (V2.fetchDashboard env options _) as [[r|e] s]; exact H.
Qed.

Lemma fetchDashboardOf_active options m w :
  activeManager (Unified.fetchDashboardOf env options m w).2 = activeManager w.
Proof.
  destruct m; unfold Unified.fetchDashboardOf, bind, Unified.onV1, Unified.onV2.
  - now destruct (V1.fetchDashboard env options _) as [[r|e] s].
  - now destruct (V2.fetchDashboard env options _) as [[r|e] s].
Qed.

(** The three ways through [withVersionHandling]. *)
Lemma withVersionHandling_ret {A} (operation : ManagerId -> M (World Ext) A) w a w1 :
  operation (activeManager w) w = (Ret a, w1) ->
  Unified.withVersionHandling operation w = (Ret a, synced w1).
Proof.
  intros H. unfold Unified.withVersionHandling, try_catch.
  rewrite bind_gets. unfold bind at 1. rewrite H. reflexivity.
Qed.

Lemma withVersionHandling_mismatch {A} (operation : ManagerId -> M (World Ext) A)
    w sv msg w1 :
  operation (activeManager w) w = (Throw (DashboardVersionError sv msg), w1) ->
  Unified.withVersionHandling operation w
  = operation (Unified.managerFor sv) (switched (Unified.managerFor sv) w1).
Proof.
  intros H. unfold Unified.withVersionHandling, try_catch.
  rewrite bind_gets. unfold bind at 1. rewrite H. reflexivity.
Qed.

Lemma withVersionHandling_throw {A} (operation : ManagerId -> M (World Ext) A)
    w e w1 :
  operation (activeManager w) w = (Throw e, w1) ->
  (∀ sv msg, e ≠ DashboardVersionError sv msg) ->
  Unified.withVersionHandling operation w = (Throw e, w1).
Proof.
  intros H Hne. unfold Unified.withVersionHandling, try_catch.
  rewrite bind_gets. unfold bind at 1. rewrite H.
  destruct e; try reflexivity. now destruct (Hne storedVersion dv_message).
Qed.

(** C1. A fetch through the unified manager makes one attempt through the
    active manager.  If that attempt throws a [DashboardVersionError], one
    more attempt is made, through the manager of the stored version (the v2
    manager when the stored version is [v2alpha1], the v1 manager for any
    other), and the fetch is that attempt: what it returns or throws,
    another version error included, is the outcome, with no further
    attempt.  Otherwise the outcome is that of the first attempt.  Either
    way at most two version-specific fetches are entered. *)
Theorem fetchDashboard_one_fallback options (w : World Ext) :
  let first := Unified.fetchDashboardOf env options (activeManager w) w in
  let run := Unified.fetchDashboard env options w in
  (∃ attempts, world_log run.2 = world_log w ++ attempts
               ∧ (length attempts ≤ 2)%nat)
  ∧ match first.1 with
    | Throw (DashboardVersionError sv _) =>
        let fallback :=
          if String.eqb sv "v2alpha1" then V2Manager else V1Manager in
        let retry :=
          Unified.fetchDashboardOf env options fallback (switched fallback first.2) in
        run = retry
        ∧ (∀ e, retry.1 = Throw e -> run.1 = Throw e)
        ∧ world_log run.2
          = world_log w ++ [EvFetchDashboard (activeManager w) options;
                            EvFetchDashboard fallback options]
    | _ =>
        run.1 = first.1
        ∧ world_log run.2
          = world_log w ++ [EvFetchDashboard (activeManager w) options]
    end.
Proof.
  intros first run.
  pose proof (fetchDashboardOf_log options (activeManager w) w) as Hlog1.
  fold first in Hlog1.
  assert (Hcases :
    match first.1 with
    | Throw (DashboardVersionError sv _) =>
        let fallback :=
          if String.eqb sv "v2alpha1" then V2Manager else V1Manager in
        let retry :=
          Unified.fetchDashboardOf env options fallback (switched fallback first.2) in
        run = retry
        ∧ (∀ e, retry.1 = Throw e -> run.1 = Throw e)
        ∧ world_log run.2
          = world_log w ++ [EvFetchDashboard (activeManager w) options;
                            EvFetchDashboard fallback options]
    | _ =>
        run.1 = first.1
        ∧ world_log run.2
          = world_log w ++ [EvFetchDashboard (activeManager w) options]
    end).
  { subst run. unfold Unified.fetchDashboard.
    destruct first as [[a|e] w1] eqn:Hfirst; cbn [fst snd] in *.
    - rewrite (withVersionHandling_ret _ _ _ _ Hfirst). now split.
    - destruct e as [st c mid m|sv m|m|m];
        try (rewrite (withVersionHandling_throw _ _ _ _ Hfirst) by discriminate;
             now split).
      rewrite (withVersionHandling_mismatch _ _ _ _ _ Hfirst).
      unfold Unified.managerFor.
      cbn zeta. split; [reflexivity|]. split; [auto|].
      rewrite fetchDashboardOf_log. cbn [switched Unified.setActiveManager modify snd world_log].
      rewrite Hlog1, <- app_assoc. reflexivity. }
  split; [|exact Hcases].
  destruct first.1 as [a|[st c mid m|sv m|m|m]];
    try (destruct Hcases as [_ ->]; eexists; split; [reflexivity|simpl; lia]).
  destruct Hcases as (_ & _ & ->). eexists; split; [reflexivity|simpl; lia].
Qed.
End Fallback.

(** A chained mismatch: the v1 loader reports a stored [v2alpha1], the v2
    loader in turn reports [v1beta1].  The second error is the outcome, and
    two fetches were entered. *)
Example chained_mismatch_is_surfaced :
  let e := Scenario.env (Throw (DashboardVersionError "v2alpha1" "stored as v2"))
             (Throw (DashboardVersionError "v1beta1" "stored as v1"))
             (Scenario.dto "new" 0) in
  let o := Scenario.options "abc" Normal None in
  let w := Unified.constructor emptyState Scenario.start in
  (Unified.fetchDashboard e o w).1
  = Throw (DashboardVersionError "v1beta1" "stored as v1")
  ∧ world_log (Unified.fetchDashboard e o w).2
    = [EvFetchDashboard V1Manager o; EvFetchDashboard V2Manager o].
Proof. split; reflexivity. Qed.

Section ActiveManager.
Context {Ext : Type} (env : Env Ext).

(** C2, amended.  The active manager is switched when the first attempt
    throws a version error, to the manager chosen from the stored version
    and before the retry, and it stays switched whether the retry succeeds
    or fails.  When the first attempt succeeds or fails otherwise, the
    active manager is unchanged.  So after a successful fetch the active
    manager is the one whose attempt succeeded.  [transformResponseToScene]
    makes v2 the active manager when it is handed a v2 resource, whatever
    the transformation then does, and leaves the active manager alone
    otherwise. *)
Theorem activeManager_after_fetch options (w : World Ext) :
  let first := Unified.fetchDashboardOf env options (activeManager w) w in
  let run := Unified.fetchDashboard env options w in
  match first.1 with
  | Throw (DashboardVersionError sv _) =>
      activeManager run.2 = Unified.managerFor sv
  | _ => activeManager run.2 = activeManager w
  end
  ∧ (∀ r, run.1 = Ret r ->
       ∃ w', (Unified.fetchDashboardOf env options (activeManager run.2) w').1
             = Ret r)
  ∧ (∀ rsp o w0,
       activeManager (Unified.transformResponseToScene env rsp o w0).2
       = match rsp with
         | Some (inr _) => V2Manager
         | _ => activeManager w0
         end).
Proof.
  intros first run. subst first run. unfold Unified.fetchDashboard.
  split; [|split].
  - pose proof (fetchDashboardOf_active env options (activeManager w) w) as Ha.
    destruct (Unified.fetchDashboardOf env options (activeManager w) w)
      as [[a|e] w1] eqn:Hfirst; cbn [fst snd] in *.
    + now rewrite (withVersionHandling_ret _ _ _ _ Hfirst).
    + destruct e as [st c mid m|sv m|m|m];
        try (rewrite (withVersionHandling_throw _ _ _ _ Hfirst) by discriminate;
             exact Ha).
      rewrite (withVersionHandling_mismatch _ _ _ _ _ Hfirst).
      now rewrite fetchDashboardOf_active.
  - intros r Hr.
    pose proof (fetchDashboardOf_active env options (activeManager w) w) as Ha.
    destruct (Unified.fetchDashboardOf env options (activeManager w) w)
      as [[a|e] w1] eqn:Hfirst; cbn [snd] in Ha.
    + rewrite (withVersionHandling_ret _ _ _ _ Hfirst) in Hr |- *.
      cbn [fst snd] in *. injection Hr as ->.
      exists w. change (activeManager (synced w1)) with (activeManager w1).
      now rewrite Ha, Hfirst.
    + destruct e as [st c mid m|sv m|m|m];
        try (rewrite (withVersionHandling_throw _ _ _ _ Hfirst) in Hr by discriminate;
             discriminate).
      rewrite (withVersionHandling_mismatch _ _ _ _ _ Hfirst) in Hr |- *.
      rewrite fetchDashboardOf_active.
      exists (switched (Unified.managerFor sv) w1). exact Hr.
  - intros rsp o w0. unfold Unified.transformResponseToScene.
    destruct rsp as [[r|r]|]; [| |reflexivity].
    + unfold Unified.onV1.
      now destruct (V1.transformResponseToScene env (Some r) o _).
    + unfold bind at 1. cbn [Unified.setActiveManager modify]. unfold Unified.onV2.
      now destruct (V2.transformResponseToScene env (Some r) o _).
Qed.
End ActiveManager.

(** The counterexample to C2 as stated: the stored version is [v2alpha1],
    the retry through the v2 manager fails with a 500, and the active
    manager, v1 before the fetch, is v2 after it. *)
Lemma active_unchanged_on_failure_fails :
  ¬ active_unchanged_on_failure
      (Scenario.env (Throw (DashboardVersionError "v2alpha1" "stored as v2"))
         (Throw (FetchError 500 false None "boom")) (Scenario.dto "new" 0)).
Proof.
  intros H.
  specialize (H (Scenario.options "abc" Normal None)
                (Unified.constructor emptyState Scenario.start)
                (FetchError 500 false None "boom") eq_refl).
  discriminate H.
Qed.

(** ** The history read query *)
Section HistoryQuery.
Import ResourceHistory.

Global Instance descending_trans : Transitive descending.
Proof. unfold descending. intros a b c. lia. Qed.

Global Instance descending_antisymm : AntiSymm (=) descending.
Proof. unfold descending. intros a b. lia. Qed.

Global Instance resource_version_desc_trans : Transitive resource_version_desc.
Proof. unfold resource_version_desc. intros a b c. lia. Qed.

Global Instance resource_version_desc_total : Total resource_version_desc.
Proof. unfold resource_version_desc. intros a b. lia. Qed.

Lemma resource_history_get_versions_sorted table :
  StronglySorted descending (resource_version <$> resource_history_get table).
Proof.
  unfold resource_history_get.
  apply (StronglySorted_fmap resource_version resource_version_desc descending).
  - auto.
  - apply StronglySorted_merge_sort; apply _.
Qed.

(** C8. The history query returns exactly the stored rows whose namespace,
    group, resource and name are those of the object asked for, each as
    often as it is stored, ordered by [resource_version], largest first.
    So when the writes of the object produced the versions 1, 2 and 3, in
    whatever order the table holds them and among rows of other objects,
    the versions are listed as [3, 2, 1]. *)
Theorem resource_history_get_spec (table : list Row) :
  (∀ r, r ∈ resource_history_get table
        ↔ r ∈ table
          ∧ namespace r = "nn"%string ∧ group r = "gg"%string
          ∧ resource r = "rr"%string ∧ name r = "name"%string)
  ∧ resource_history_get table ≡ₚ filter where_clause table
  ∧ StronglySorted descending (resource_version <$> resource_history_get table)
  ∧ (resource_version <$> filter where_clause table ≡ₚ [1; 2; 3] ->
     resource_version <$> resource_history_get table = [3; 2; 1]).
Proof.
  assert (Hperm : resource_history_get table ≡ₚ filter where_clause table).
  { apply merge_sort_Permutation. }
  split; [|split; [exact Hperm|split]].
  - intros r. rewrite Hperm, list_elem_of_filter. unfold where_clause. tauto.
  - apply resource_history_get_versions_sorted.
  - intros H123.
    apply (StronglySorted_unique descending).
    + apply resource_history_get_versions_sorted.
    + unfold descending. repeat constructor; lia.
    + rewrite Hperm, H123.
      change [3; 2; 1] with (reverse [1; 2; 3]). symmetry. apply reverse_Permutation.
Qed.
End HistoryQuery.

(** Versions stored as 2, 1, 3 between rows of another object. *)
Lemma resource_history_get_spec_witness :
  let table := [ResourceHistory.other_row 9; ResourceHistory.row_of 2;
                ResourceHistory.row_of 1; ResourceHistory.other_row 4;
                ResourceHistory.row_of 3] in
  ResourceHistory.resource_version <$> ResourceHistory.resource_history_get table
  = [3; 2; 1].
Proof.
  intros table.
  apply (proj2 (proj2 (proj2 (resource_history_get_spec table)))).
  vm_compute.
  change (Permutation [2; 1; 3] [1; 2; 3]).
  apply perm_swap.
Defined.

(** ** The registry of kinds and versions *)
Section Registry.
Import Manifest.
Context (v1beta1_DashboardKind v2alpha1_DashboardKind v2alpha2_DashboardKind : Kind).

Abbreviation registry0 :=
  (kindVersionToGoType v1beta1_DashboardKind v2alpha1_DashboardKind
     v2alpha2_DashboardKind).

Lemma append_cons c s t : String c s +:+ t = String c (s +:+ t).
Proof. reflexivity. Qed.

Lemma append_nil t : "" +:+ t = t.
Proof. reflexivity. Qed.

Lemma slashes_append s t : slashes (s +:+ t) = (slashes s + slashes t)%nat.
Proof.
  induction s as [|c s IH]; [reflexivity|].
  rewrite append_cons. cbn [slashes]. rewrite IH. lia.
Qed.

(** Two keys built from slash-free kinds agree only on equal parts. *)
Lemma sprintf_key_inj_plain k1 v1 k2 v2 :
  slashes k1 = 0%nat -> slashes k2 = 0%nat ->
  sprintf_key k1 v1 = sprintf_key k2 v2 -> k1 = k2 ∧ v1 = v2.
Proof.
  unfold sprintf_key. revert k2.
  induction k1 as [|c1 k1 IH]; intros [|c2 k2] H1 H2 Heq.
  - rewrite !append_nil in Heq. rewrite !append_cons, !append_nil in Heq.
    now injection Heq.
  - rewrite append_nil, !append_cons, append_nil in Heq.
    injection Heq as <- _. cbn in H2. lia.
  - rewrite append_nil, !append_cons, append_nil in Heq.
    injection Heq as -> _. cbn in H1. lia.
  - rewrite !append_cons in Heq. injection Heq as -> Heq.
    cbn [slashes] in H1, H2.
    destruct (IH k2) as [-> ->]; [lia|lia|exact Heq|]. now split.
Qed.

(** A key with a single slash has one reading as a kind and a version. *)
Lemma sprintf_key_inv kind version k v :
  slashes k = 0%nat -> slashes v = 0%nat ->
  sprintf_key kind version = sprintf_key k v -> kind = k ∧ version = v.
Proof.
  intros Hk Hv Heq.
  pose proof (f_equal slashes Heq) as Hn. unfold sprintf_key in Hn.
  rewrite !slashes_append, Hk, Hv in Hn. cbn in Hn.
  apply sprintf_key_inj_plain; [lia|exact Hk|exact Heq].
Qed.

Lemma registry0_lookup key :
  registry0 !! key
  = if decide (key = "Dashboard/v0alpha1"%string) then Some v0alpha1.DashboardKind
    else if decide (key = "Dashboard/v1beta1"%string) then Some v1beta1_DashboardKind
    else if decide (key = "Dashboard/v2alpha1"%string) then Some v2alpha1_DashboardKind
    else if decide (key = "Dashboard/v2alpha2"%string) then Some v2alpha2_DashboardKind
    else None.
Proof.
  unfold kindVersionToGoType. cbn [list_to_map foldr uncurry curry fst snd].
  rewrite !lookup_insert, lookup_empty.
  repeat case_decide; subst; first [reflexivity | congruence | discriminate].
Qed.
(** The keys of the declared pairs are the keys of the map. *)
Lemma declared_iff_key kind version :
  (kind, version) ∈ declaredVersions appManifestData
  ↔ sprintf_key kind version
    ∈ ["Dashboard/v0alpha1"; "Dashboard/v1beta1"; "Dashboard/v2alpha1";
       "Dashboard/v2alpha2"]%string.
Proof.
  change (declaredVersions appManifestData)
    with [("Dashboard", "v0alpha1"); ("Dashboard", "v1beta1");
          ("Dashboard", "v2alpha1"); ("Dashboard", "v2alpha2")]%string.
  rewrite !elem_of_cons, !elem_of_nil. split.
  - intros [H|[H|[H|[H|[]]]]]; injection H as -> ->; vm_compute; tauto.
  - intros [H|[H|[H|[H|[]]]]].
    + destruct (sprintf_key_inv kind version "Dashboard" "v0alpha1") as [-> ->];
        auto.
    + destruct (sprintf_key_inv kind version "Dashboard" "v1beta1") as [-> ->];
        auto.
    + destruct (sprintf_key_inv kind version "Dashboard" "v2alpha1") as [-> ->];
        auto.
    + destruct (sprintf_key_inv kind version "Dashboard" "v2alpha2") as [-> ->];
        auto 6.
Qed.

(** C9. [ManifestGoTypeAssociator] only reads the registry: a call leaves
    the map as it was, and a second call with the same kind and version
    returns the same two results.  It answers [exists = true] exactly for
    the (kind, version) pairs the manifest declares, each with the Go type
    registered for its version, and [exists = false] with the zero
    [resource.Kind] for every other pair. *)
Theorem ManifestGoTypeAssociator_resolve (kind version : string) :
  let call1 := ManifestGoTypeAssociator kind version registry0 in
  let call2 := ManifestGoTypeAssociator kind version call1.2 in
  call1.2 = registry0
  ∧ call2 = call1
  ∧ (call1.1.2 = true ↔ (kind, version) ∈ declaredVersions appManifestData)
  ∧ (call1.1.2 = false ↔ (kind, version) ∉ declaredVersions appManifestData)
  ∧ (call1.1.2 = false -> call1.1.1 = zeroKind)
  ∧ (∀ v goType,
       (v, goType) ∈ [("v0alpha1"%string, v0alpha1.DashboardKind);
                      ("v1beta1"%string, v1beta1_DashboardKind);
                      ("v2alpha1"%string, v2alpha1_DashboardKind);
                      ("v2alpha2"%string, v2alpha2_DashboardKind)] ->
       kind = "Dashboard"%string -> version = v ->
       call1.1 = (goType, true)).
Proof.
  intros call1 call2.
  assert (Hreg : call1.2 = registry0).
  { subst call1. unfold ManifestGoTypeAssociator. now destruct (_ !! _). }
  assert (Hiff : call1.1.2 = true
                 ↔ (kind, version) ∈ declaredVersions appManifestData).
  { rewrite declared_iff_key. subst call1. unfold ManifestGoTypeAssociator.
    rewrite registry0_lookup, !elem_of_cons, elem_of_nil.
    repeat case_decide; cbn [fst snd]; split; intros; try tauto; try discriminate. }
  split; [exact Hreg|]. split; [subst call2; now rewrite Hreg|].
  split; [exact Hiff|]. split; [|split].
  - rewrite <- Hiff. destruct (call1.1.2); split; congruence.
  - subst call1. unfold ManifestGoTypeAssociator.
    destruct (_ !! _); cbn [fst snd]; [discriminate|reflexivity].
  - intros v goType Hin -> ->. subst call1. unfold ManifestGoTypeAssociator.
    rewrite registry0_lookup.
    rewrite !elem_of_cons, elem_of_nil in Hin.
    destruct Hin as [H|[H|[H|[H|[]]]]]; injection H as -> ->; reflexivity.
Qed.
End Registry.

(** * Further properties of the managers *)

(** ** The raw-response cache, continued *)
Section RawCacheMore.
Context {Ext : Type} (env : Env Ext).

(** X1. What [setDashboardCache k d] stores is read back by
    [getDashboardFromCache k] at every later clock less than 500ms after the
    store, and at no clock from 500ms on. *)
Theorem setDashboardCache_roundtrip {T} (k : string) (d : T)
    (s : Local Ext T) (x' : Ext) :
  let s1 := (Base.setDashboardCache env k d s).2 in
  (Base.getDashboardFromCache env k
     {| self := self s1; ext := x'; log := log s1 |}).1
  = Ret (if bool_decide (now env x' - now env (ext s) < 500)
         then Some d else None).
Proof.
  cbn. unfold Base.getDashboardFromCache. cbn [self dashboardCache ext cacheKey ts].
  rewrite String.eqb_refl. cbn [andb entry_dashboard].
  unfold DASHBOARD_CACHE_TTL.
  destruct (Z.ltb_spec (now env x' - now env (ext s)) 500).
  - now rewrite bool_decide_eq_true_2.
  - rewrite bool_decide_eq_false_2; [reflexivity|lia].
Qed.

(** X2. [clearDashboardCache] of the unified manager empties the raw tier
    of both version managers: afterwards a lookup of any key answers null,
    whichever manager is active and whatever the clock, and the scene caches
    and page states of the two managers are as before. *)
Theorem unified_clearDashboardCache_clears_both (key : string) (w : World Ext)
    (m : ManagerId) (x' : Ext) :
  let w1 := (Unified.clearDashboardCache w).2 in
  (Unified.getDashboardFromCache env key (later m x' w1)).1 = Ret None
  ∧ cache (v1Manager w1) = cache (v1Manager w)
  ∧ cache (v2Manager w1) = cache (v2Manager w)
  ∧ state (v1Manager w1) = state (v1Manager w)
  ∧ state (v2Manager w1) = state (v2Manager w).
Proof.
  cbn. repeat split. destruct m; reflexivity.
Qed.

(** X3. Through the unified manager the raw tier reads back what was
    stored only when the stored response is of the active manager's
    version: [setDashboardCache] files a response under the manager of its
    own version, [getDashboardFromCache] asks the active one.  Otherwise the
    lookup answers what it answered before the store. *)
Theorem unified_setDashboardCache_roundtrip (key : string)
    (d : DashboardDTO + DashboardV2Resource) (w : World Ext) :
  let w1 := (Unified.setDashboardCache env key d w).2 in
  match d, activeManager w with
  | inl _, V1Manager | inr _, V2Manager =>
      (Unified.getDashboardFromCache env key w1).1 = Ret (Some d)
  | _, _ =>
      (Unified.getDashboardFromCache env key w1).1
      = (Unified.getDashboardFromCache env key w).1
  end.
Proof.
  destruct d as [r|r], (activeManager w) eqn:Ha; cbn;
    unfold Unified.getDashboardFromCache, Unified.onV1, Unified.onV2, bind, gets;
    cbn; rewrite Ha; cbn;
    unfold Base.getDashboardFromCache; cbn;
    rewrite ?String.eqb_refl, ?Z.sub_diag; try reflexivity;
    repeat match goal with
           | |- context [match dashboardCache ?m with _ => _ end] =>
               destruct (dashboardCache m)
           | |- context [if ?b then _ else _] => destruct b
           end; reflexivity.
Qed.
End RawCacheMore.

(** ** What a fetch does to the manager *)
Section FetchFrames.
Context {Ext : Type} (env : Env Ext).

Lemma keeps_getDashboardFromCache_any {T X} (f : Local Ext T -> X) k :
  keeps f (Base.getDashboardFromCache env k).
Proof.
  intros s. unfold Base.getDashboardFromCache.
  destruct (dashboardCache (self s)); [|reflexivity].
  now destruct (_ && _).
Qed.

Lemma keeps_cache_setDashboardCache {T} k (d : T) :
  keeps (cache ∘ self) (Base.setDashboardCache env k d).
Proof. now intros s. Qed.

Lemma V1_tryBlock_keeps_cache o k : keeps (cache ∘ self) (V1.tryBlock env o k).
Proof.
  unfold V1.tryBlock, V1.fetchByRoute, V1.afterFetch. keeps_all;
    apply keeps_cache_setDashboardCache.
Qed.

Lemma V2_tryBlock_keeps_cache o k : keeps (cache ∘ self) (V2.tryBlock env o k).
Proof.
  unfold V2.tryBlock, V2.fetchByRoute, V2.afterFetch. keeps_all;
    apply keeps_cache_setDashboardCache.
Qed.

Lemma V2_tryBlock_keeps_state o k : keeps (state ∘ self) (V2.tryBlock env o k).
Proof.
  unfold V2.tryBlock, V2.fetchByRoute, V2.afterFetch. keeps_all.
Qed.

Lemma V1_fetchDashboard_keeps_cache o :
  keeps (cache ∘ self) (V1.fetchDashboard env o).
Proof.
  unfold V1.fetchDashboard. keeps_all;
    first [apply keeps_getDashboardFromCache_any | apply V1_tryBlock_keeps_cache].
Qed.

(** X4. Whatever the route, the parameters and the answers of the backend,
    and whether it returns, returns null or throws, [fetchDashboard] of the
    v1 and of the v2 manager leaves the scene cache and the page state of
    its manager exactly as they were. *)
Theorem fetchDashboard_keeps_scenes_and_state (o : LoadDashboardOptions) :
  (∀ s : Local Ext DashboardDTO,
     cache (self (V1.fetchDashboard env o s).2) = cache (self s)
     ∧ state (self (V1.fetchDashboard env o s).2) = state (self s))
  ∧ (∀ s : Local Ext DashboardV2Resource,
       cache (self (V2.fetchDashboard env o s).2) = cache (self s)
       ∧ state (self (V2.fetchDashboard env o s).2) = state (self s)).
Proof.
  split; intros s; split.
  - apply (V1_fetchDashboard_keeps_cache o s).
  - revert s. change (keeps (state ∘ self) (V1.fetchDashboard env o)).
    unfold V1.fetchDashboard. keeps_all. apply V1_tryBlock_keeps_state.
  - revert s. change (keeps (cache ∘ self) (V2.fetchDashboard env o)).
    unfold V2.fetchDashboard. keeps_all;
      first [apply keeps_getDashboardFromCache_any | apply V2_tryBlock_keeps_cache].
  - revert s. change (keeps (state ∘ self) (V2.fetchDashboard env o)).
    unfold V2.fetchDashboard. keeps_all. apply V2_tryBlock_keeps_state.
Qed.
End FetchFrames.

(** ** The outcomes of a v1 fetch *)
Section FetchOutcomes.
Context {Ext : Type} (env : Env Ext).

(** After the [switch]: either the response is returned and is the one
    entry of the raw cache, or an error leaves the raw cache alone. *)
Lemma V1_afterFetch_cases o k rsp (s : Local Ext DashboardDTO) :
  let out := V1.afterFetch env o k rsp s in
  (out.1 = Ret (Some rsp)
   ∧ dashboardCache (self out.2)
     = Some {| entry_dashboard := rsp; ts := now env (ext out.2); cacheKey := k |})
  ∨ (∃ e, out.1 = Throw e ∧ dashboardCache (self out.2) = dashboardCache (self s)).
Proof.
  unfold V1.afterFetch, bind, when, gets, ret, Base.act, Base.call, modify.
  destruct (truthy_opt (url (meta rsp)) && bool_decide (route o = Normal));
    [destruct (negb _)|];
    cbn; destruct (truthy_opt (folderUid (meta rsp))); cbn;
    try (left; split; reflexivity);
    match goal with
    | |- context [updateNavModel env ?f ?x] =>
        destruct (updateNavModel env f x) as [[[]|e] x1]; cbn;
        [left; split; reflexivity | right; exists e; split; reflexivity]
    end.
Qed.

(** The [switch] keeps the manager's own fields. *)
Lemma V1_fetchByRoute_keeps_self o :
  keeps self (V1.fetchByRoute env o).
Proof.
  intros s. unfold V1.fetchByRoute, bind, ret, throw, Base.call, Base.act, modify.
  destruct (route o); cbn;
    repeat match goal with
           | |- context [let (_, _) := ?c (ext s) in _] =>
               destruct (c (ext s)) as [[?|?] ?]; cbn
           | |- context [match ?h with HomeRedirect _ => _ | _ => _ end] =>
               destruct h; cbn
           end; reflexivity.
Qed.

(** An early [return] with a response happens on the Provisioning and the
    Public route only. *)
Lemma V1_fetchByRoute_return o (s s1 : Local Ext DashboardDTO) r :
  V1.fetchByRoute env o s = (Ret (Return (Some r)), s1) ->
  route o = Provisioning ∨ route o = Public.
Proof.
  unfold V1.fetchByRoute, bind, ret, throw, Base.call, Base.act, modify.
  destruct (route o); cbn; auto;
    repeat match goal with
           | |- context [let (_, _) := ?c (ext s) in _] =>
               destruct (c (ext s)) as [[?|?] ?]; cbn
           | |- context [match ?h with HomeRedirect _ => _ | _ => _ end] =>
               destruct h; cbn
           end; intros [=].
Qed.

(** What the [switch] hands on for the Home and the Embedded route. *)
Lemma V1_fetchByRoute_continue o (s s1 : Local Ext DashboardDTO) r :
  V1.fetchByRoute env o s = (Ret (Continue r), s1) ->
  (route o = Home ->
   canSave (meta r) = Some false ∧ canShare (meta r) = Some false
   ∧ canStar (meta r) = Some false)
  ∧ (route o = Embedded -> isEmbedded (meta r) = Some true)
  ∧ route o ≠ Provisioning ∧ route o ≠ Public.
Proof.
  unfold V1.fetchByRoute, bind, ret, throw, Base.call, Base.act, modify.
  destruct (route o); cbn;
    repeat match goal with
           | |- context [let (_, _) := ?c (ext s) in _] =>
               destruct (c (ext s)) as [[?|?] ?]; cbn
           | |- context [match ?h with HomeRedirect _ => _ | _ => _ end] =>
               destruct h; cbn
           end; intros [=]; subst; repeat split; try discriminate; auto.
Qed.

(** The three ways a fetch that the cache does not answer can end. *)
Lemma V1_fetchDashboard_fresh o (s : Local Ext DashboardDTO) :
  not_served_from_cache env o (entered V1Manager o s) ->
  let out := V1.fetchDashboard env o s in
  (∃ r s1, V1.fetchByRoute env o (entered V1Manager o s) = (Ret (Return r), s1)
           ∧ out = (Ret r, s1))
  ∨ (∃ r s1, V1.fetchByRoute env o (entered V1Manager o s) = (Ret (Continue r), s1)
             ∧ out.1 = Ret (Some r)
             ∧ dashboardCache (self out.2)
               = Some {| entry_dashboard := r; ts := now env (ext out.2);
                         cacheKey := keyOf o |})
  ∨ (out.1 ≠ Ret None -> ∃ e, out.1 = Throw e)
    ∧ (∀ r, out.1 ≠ Ret (Some r))
    ∧ dashboardCache (self out.2) = dashboardCache (self s).
Proof.
  intros Hmiss out. subst out. rewrite V1_fetchDashboard_miss by assumption.
  set (s0 := entered V1Manager o s).
  pose proof (V1_fetchByRoute_keeps_self o s0) as Hself.
  unfold try_catch, V1.tryBlock, bind.
  destruct (V1.fetchByRoute env o s0) as [[[r|r]|e] s1] eqn:Hroute; cbn in Hself.
  - left. exists r, s1. split; reflexivity.
  - pose proof (V1_afterFetch_cases o (keyOf o) r s1) as [[H1 H2]|(e & H1 & H2)];
      cbn zeta in *;
      destruct (V1.afterFetch env o (keyOf o) r s1) as [res s2]; cbn in *; subst res.
    + right; left. exists r, s1. repeat split; assumption.
    + right; right.
      destruct (isCancelledFetchError e); cbn; rewrite H2, Hself;
        ((split; [|split]);
         [intros H; first [now destruct H | eauto] | intros r0; discriminate
         | reflexivity]).
  - right; right.
    destruct (isCancelledFetchError e); cbn; rewrite Hself;
      ((split; [|split]);
       [intros H; first [now destruct H | eauto] | intros r0; discriminate
       | reflexivity]).
Qed.
End FetchOutcomes.

Section FetchProperties.
Context {Ext : Type} (env : Env Ext).

(** A fetch is answered by the raw cache, or the cache does not answer. *)
Lemma V1_fetchDashboard_served_or_fresh o (s : Local Ext DashboardDTO) :
  (∃ d, V1.fetchDashboard env o s = (Ret (Some d), entered V1Manager o s))
  ∨ not_served_from_cache env o (entered V1Manager o s).
Proof.
  unfold not_served_from_cache.
  destruct (params o) as [p|] eqn:Hp; [right; discriminate|].
  pose proof (getDashboardFromCache_pure env (keyOf o) (entered V1Manager o s)) as Hs.
  destruct (Base.getDashboardFromCache env (keyOf o) (entered V1Manager o s))
    as [[[d|]|e] s'] eqn:Hget; cbn in Hs; subst s'.
  - left. exists d. unfold V1.fetchDashboard. unfold bind at 1.
    cbn [Base.emit modify]. fold (entered V1Manager o s). rewrite Hp.
    unfold bind. now rewrite Hget.
  - right. reflexivity.
  - exfalso. revert Hget. unfold Base.getDashboardFromCache.
    destruct (dashboardCache _); [destruct (_ && _)|]; discriminate.
Qed.

(** The cache path of [fetchDashboard]. *)
Lemma V1_fetchDashboard_hit o (s : Local Ext DashboardDTO) d t :
  params o = None ->
  dashboardCache (self s)
  = Some {| entry_dashboard := d; ts := t; cacheKey := keyOf o |} ->
  now env (ext s) - t < 500 ->
  V1.fetchDashboard env o s = (Ret (Some d), entered V1Manager o s).
Proof.
  intros Hp Hc Hage. unfold V1.fetchDashboard. unfold bind at 1.
  cbn [Base.emit modify]. fold (entered V1Manager o s). rewrite Hp.
  unfold bind, Base.getDashboardFromCache. cbn [entered self ext].
  rewrite Hc. cbn [cacheKey ts entry_dashboard].
  rewrite String.eqb_refl. unfold DASHBOARD_CACHE_TTL.
  destruct (Z.ltb_spec (now env (ext s) - t) 500); [reflexivity|lia].
Qed.

(** X5. A fetch without parameters whose key has an unexpired entry in the
    raw cache returns that entry and nothing else happens: no collaborator
    is called, the outside world and the manager are as before. *)
Theorem V1_fetchDashboard_served_from_cache o (s : Local Ext DashboardDTO) entry :
  params o = None ->
  fresh_hit env (keyOf o) s entry ->
  V1.fetchDashboard env o s
  = (Ret (Some (entry_dashboard entry)), entered V1Manager o s)
  ∧ ext (V1.fetchDashboard env o s).2 = ext s
  ∧ self (V1.fetchDashboard env o s).2 = self s.
Proof.
  intros Hp (Hc & Hk & Hage). destruct entry as [d t k].
  cbn [cacheKey ts entry_dashboard] in *. subst k.
  rewrite (V1_fetchDashboard_hit o s d t Hp Hc Hage). repeat split.
Qed.

(** X6. A fetch that does not return a response (it returns null or it
    throws) leaves the raw cache as it was: the cache is written last, after
    everything that can fail. *)
Theorem V1_fetchDashboard_no_response_no_write o (s : Local Ext DashboardDTO) :
  (∀ r, (V1.fetchDashboard env o s).1 ≠ Ret (Some r)) ->
  dashboardCache (self (V1.fetchDashboard env o s).2) = dashboardCache (self s).
Proof.
  intros Hno.
  destruct (V1_fetchDashboard_served_or_fresh o s) as [[d Hd]|Hmiss].
  { rewrite Hd in Hno. now destruct (Hno d). }
  destruct (V1_fetchDashboard_fresh env o s Hmiss)
    as [(r & s1 & Hroute & Hout)|[(r & s1 & _ & Hout & _)|(_ & _ & Hkeep)]].
  - rewrite Hout. cbn.
    pose proof (V1_fetchByRoute_keeps_self env o (entered V1Manager o s)) as Hself.
    rewrite Hroute in Hself. cbn in Hself. now rewrite Hself.
  - now destruct (Hno r).
  - exact Hkeep.
Qed.

(** X7. A response fetched on any route but Provisioning and Public is,
    when the fetch returns it, the one entry of the raw cache, under the key
    of the fetch and stamped with the clock at the end of the fetch; so a
    fetch without parameters and of the same key made right away returns the
    same response. *)
Theorem V1_fetchDashboard_caches_response o (s : Local Ext DashboardDTO) r :
  not_served_from_cache env o (entered V1Manager o s) ->
  route o ≠ Provisioning -> route o ≠ Public ->
  (V1.fetchDashboard env o s).1 = Ret (Some r) ->
  let s' := (V1.fetchDashboard env o s).2 in
  dashboardCache (self s')
  = Some {| entry_dashboard := r; ts := now env (ext s'); cacheKey := keyOf o |}
  ∧ ∀ o', params o' = None -> keyOf o' = keyOf o ->
          (V1.fetchDashboard env o' s').1 = Ret (Some r).
Proof.
  intros Hmiss Hprov Hpub Hret s'.
  assert (Hcache : dashboardCache (self s')
                   = Some {| entry_dashboard := r; ts := now env (ext s');
                             cacheKey := keyOf o |}).
  { subst s'.
    destruct (V1_fetchDashboard_fresh env o s Hmiss)
      as [(r0 & s1 & Hroute & Hout)|[(r0 & s1 & _ & Hout & Hc)|(_ & Hno & _)]].
    - rewrite Hout in Hret. cbn in Hret. injection Hret as ->.
      destruct (V1_fetchByRoute_return env o _ _ _ Hroute); contradiction.
    - rewrite Hout in Hret. injection Hret as ->. exact Hc.
    - now destruct (Hno r). }
  split; [exact Hcache|]. intros o' Hp Hk.
  rewrite (V1_fetchDashboard_hit o' s' r (now env (ext s')) Hp);
    [reflexivity|now rewrite Hcache, Hk|lia].
Qed.

(** X8. On the Provisioning and the Public route the v1 manager never
    writes the raw cache, whatever the fetch returns. *)
Theorem V1_fetchDashboard_early_routes_not_cached o (s : Local Ext DashboardDTO) :
  route o = Provisioning ∨ route o = Public ->
  dashboardCache (self (V1.fetchDashboard env o s).2) = dashboardCache (self s).
Proof.
  intros Hroute.
  destruct (V1_fetchDashboard_served_or_fresh o s) as [[d Hd]|Hmiss].
  { now rewrite Hd. }
  destruct (V1_fetchDashboard_fresh env o s Hmiss)
    as [(r & s1 & Hr & Hout)|[(r & s1 & Hr & _)|(_ & _ & Hkeep)]].
  - rewrite Hout. cbn.
    pose proof (V1_fetchByRoute_keeps_self env o (entered V1Manager o s)) as Hself.
    rewrite Hr in Hself. cbn in Hself. now rewrite Hself.
  - destruct (V1_fetchByRoute_continue env o _ _ _ Hr) as (_ & _ & Hp & Hq).
    destruct Hroute; contradiction.
  - exact Hkeep.
Qed.

(** X9. A response that the v1 manager fetched (not one taken from the raw
    cache) is read-only on the Home route: [canSave], [canShare] and
    [canStar] are false; on the Embedded route it is marked [isEmbedded]. *)
Theorem V1_fetchDashboard_route_marks o (s : Local Ext DashboardDTO) r :
  not_served_from_cache env o (entered V1Manager o s) ->
  (V1.fetchDashboard env o s).1 = Ret (Some r) ->
  (route o = Home ->
   canSave (meta r) = Some false ∧ canShare (meta r) = Some false
   ∧ canStar (meta r) = Some false)
  ∧ (route o = Embedded -> isEmbedded (meta r) = Some true).
Proof.
  intros Hmiss Hret.
  destruct (V1_fetchDashboard_fresh env o s Hmiss)
    as [(r0 & s1 & Hroute & Hout)|[(r0 & s1 & Hroute & Hout & _)|(_ & Hno & _)]].
  - rewrite Hout in Hret. cbn in Hret. injection Hret as ->.
    destruct (V1_fetchByRoute_return env o _ _ _ Hroute) as [H|H];
      rewrite H; split; discriminate.
  - rewrite Hout in Hret. injection Hret as ->.
    destruct (V1_fetchByRoute_continue env o _ _ _ Hroute) as (Hh & He & _).
    split; assumption.
  - now destruct (Hno r).
Qed.
End FetchProperties.

Section EmbeddedV2.
Context {Ext : Type} (env : Env Ext).

Lemma V2_fetchDashboard_miss o (s : Local Ext DashboardV2Resource) :
  let s1 := entered V2Manager o s in
  not_served_from_cache env o s1 ->
  V2.fetchDashboard env o s
  = try_catch (V2.tryBlock env o (keyOf o))
      (fun e => if isCancelledFetchError e then ret None else throw e) s1.
Proof.
  intros s1 Hmiss. unfold V2.fetchDashboard, not_served_from_cache in *.
  unfold bind at 1. cbn [Base.emit modify].
  fold (entered V2Manager o s). fold s1.
  destruct (params o) as [p|].
  - reflexivity.
  - specialize (Hmiss eq_refl).
    pose proof (getDashboardFromCache_pure env (keyOf o) s1) as Hs.
    unfold bind at 1.
    destruct (Base.getDashboardFromCache env (keyOf o) s1) as [r s'].
    simpl in Hmiss, Hs. subst. reflexivity.
Qed.

(** X10. The v2 manager cannot fetch on the Embedded route: unless the raw
    cache answers, [fetchDashboard] returns no response there (it throws, or
    returns null when the request was cancelled), and it leaves the raw
    cache, the scene cache and the page state as they were, although the
    dashboard is requested from the backend first (the outside world is
    the one the loader leaves). *)
Theorem V2_fetchDashboard_embedded o (s : Local Ext DashboardV2Resource) :
  route o = Embedded ->
  not_served_from_cache env o (entered V2Manager o s) ->
  (∀ r, (V2.fetchDashboard env o s).1 ≠ Ret (Some r))
  ∧ self (V2.fetchDashboard env o s).2 = self s
  ∧ ext (V2.fetchDashboard env o s).2
    = (loadDashboardV2 env (or_default (type o) "db")
         (Some (or_default (slug o) "")) (uid o)
         (queryParamsOf <$> params o) (ext s)).2.
Proof.
  intros Hroute Hmiss. rewrite V2_fetchDashboard_miss by assumption.
  unfold try_catch, V2.tryBlock, V2.fetchByRoute, bind, Base.call.
  rewrite Hroute. cbn [entered ext self log].
  destruct (loadDashboardV2 env _ _ _ _ (ext s)) as [[rsp|e] x]; cbn.
  - repeat split; discriminate.
  - destruct (isCancelledFetchError e); cbn; repeat split; discriminate.
Qed.
End EmbeddedV2.

(** ** The scene cache *)
Section SceneCache.
Context {Ext : Type} (env : Env Ext).

(** An own property is what a read finds first. *)
Lemma readCache_own (c : SceneCache) key fc :
  c !! key = Some fc -> Base.readCache env c key = Found fc.
Proof.
  intros Hown. change (entries c !! key = Some fc) in Hown.
  unfold Base.readCache. now rewrite Hown.
Qed.

(** On a cache with the prototype of [{}], a key that names no member of
    [Object.prototype] is read and written as an own property. *)
Lemma readCache_plain (c : SceneCache) key :
  prototype c = None ->
  key ∉ "__proto__"%string :: objectPrototypeMembers ->
  Base.readCache env c key
  = match c !! key with Some fc => Found fc | None => Falsy end.
Proof.
  intros Hp Hkey. change (c !! key) with (entries c !! key).
  unfold Base.readCache.
  destruct (entries c !! key); [reflexivity|]. rewrite Hp.
  apply not_elem_of_cons in Hkey as [Hne Hkey].
  apply String.eqb_neq in Hne. rewrite Hne.
  now rewrite bool_decide_eq_false_2.
Qed.

Lemma writeCache_plain (c : SceneCache) key scene :
  prototype c = None ->
  key ∉ "__proto__"%string :: objectPrototypeMembers ->
  Base.writeCache env c key scene
  = Ret {| entries := <[key := scene]> (entries c); prototype := None |}.
Proof.
  intros Hp Hkey. unfold Base.writeCache. rewrite Hp.
  apply not_elem_of_cons in Hkey as [Hne Hkey].
  apply String.eqb_neq in Hne. rewrite Hne.
  now destruct (entries c !! key).
Qed.

(** A member of [Object.prototype] that the cache does not own is read as a
    value without [state]. *)
Lemma readCache_inherited (c : SceneCache) key :
  prototype c = None ->
  c !! key = None ->
  key ∈ "__proto__"%string :: objectPrototypeMembers ->
  Base.readCache env c key = NoState.
Proof.
  intros Hp Hown Hkey. change (entries c !! key = None) in Hown.
  unfold Base.readCache. rewrite Hown, Hp.
  destruct (String.eqb key "__proto__") eqn:Heq; [reflexivity|].
  apply String.eqb_neq in Heq.
  apply elem_of_cons in Hkey as [?|Hkey]; [contradiction|].
  now rewrite bool_decide_eq_true_2.
Qed.

(** A transformation that reads a value without [state] throws before
    anything else happens. *)
Lemma V1_transformResponseToScene_no_state rsp o (s : Local Ext DashboardDTO) :
  Base.readCache env (cache (self s)) (uid o) = NoState ->
  V1.transformResponseToScene env rsp o s
  = (Throw (TypeError "Cannot read properties of undefined (reading 'version')"), s).
Proof.
  intros Hread. unfold V1.transformResponseToScene, Base.getSceneFromCache.
  rewrite bind_gets, Hread. reflexivity.
Qed.

Lemma V2_transformResponseToScene_no_state rsp o (s : Local Ext DashboardV2Resource) :
  Base.readCache env (cache (self s)) (uid o) = NoState ->
  V2.transformResponseToScene env rsp o s
  = (Throw (TypeError "Cannot read properties of undefined (reading 'version')"), s).
Proof.
  intros Hread. unfold V2.transformResponseToScene, Base.getSceneFromCache.
  rewrite bind_gets, Hread. reflexivity.
Qed.

(** A transformation on the empty object, for a uid that names no member of
    [Object.prototype]: the outcome is that of the serializer. *)
Lemma V1_transformResponseToScene_empty r d o (s : Local Ext DashboardDTO) :
  dashboard r = Some d ->
  cache (self s) = emptyCache ->
  uid o ∉ "__proto__"%string :: objectPrototypeMembers ->
  (V1.transformResponseToScene env (Some r) o s).1
  = match (transformSaveModelToScene env r (ext s)).1 with
    | Ret scene => Ret (Some scene)
    | Throw e => Throw e
    end.
Proof.
  intros Hd Hc Hkey. unfold V1.transformResponseToScene, Base.getSceneFromCache.
  rewrite bind_gets, Hc, (readCache_plain emptyCache) by (reflexivity || assumption).
  change (emptyCache !! uid o) with ((∅ : gmap string DashboardScene) !! uid o).
  rewrite lookup_empty. unfold V1.sameVersion. unfold bind at 1. cbn [ret].
  rewrite Hd. unfold bind, Base.call.
  destruct (transformSaveModelToScene env r (ext s)) as [[scene|e] x]; [|reflexivity].
  destruct (truthy (uid o)); [|reflexivity].
  unfold when, Base.setSceneCache. cbn [self]. rewrite Hc.
  now rewrite (writeCache_plain emptyCache) by (reflexivity || assumption).
Qed.

Lemma V2_transformResponseToScene_empty r o (s : Local Ext DashboardV2Resource) :
  cache (self s) = emptyCache ->
  uid o ∉ "__proto__"%string :: objectPrototypeMembers ->
  (V2.transformResponseToScene env (Some r) o s).1
  = match (transformSaveModelSchemaV2ToScene env r (ext s)).1 with
    | Ret scene => Ret (Some scene)
    | Throw e => Throw e
    end.
Proof.
  intros Hc Hkey. unfold V2.transformResponseToScene, Base.getSceneFromCache.
  rewrite bind_gets, Hc, (readCache_plain emptyCache) by (reflexivity || assumption).
  change (emptyCache !! uid o) with ((∅ : gmap string DashboardScene) !! uid o).
  rewrite lookup_empty. unfold V2.sameVersion. unfold bind at 1. cbn [ret].
  unfold bind, Base.call.
  destruct (transformSaveModelSchemaV2ToScene env r (ext s)) as [[scene|e] x];
    [|reflexivity].
  destruct (truthy (uid o)); [|reflexivity].
  unfold when, Base.setSceneCache. cbn [self]. rewrite Hc.
  now rewrite (writeCache_plain emptyCache) by (reflexivity || assumption).
Qed.

(** X11. Given a response with a dashboard, a scene cache with the prototype
    of [{}] and a uid that names no member of [Object.prototype], while no
    scene of the same version is cached under the uid,
    [transformResponseToScene] of the v1 manager returns the scene the
    serializer builds and stores it under the uid as an own property, unless
    the uid is empty; the raw cache and the page state are not touched. *)
Theorem V1_transformResponseToScene_builds r d o (s : Local Ext DashboardDTO)
    scene x :
  dashboard r = Some d ->
  prototype (cache (self s)) = None ->
  uid o ∉ "__proto__"%string :: objectPrototypeMembers ->
  (∀ fc, cache (self s) !! uid o = Some fc -> scene_version fc ≠ dash_version d) ->
  transformSaveModelToScene env r (ext s) = (Ret scene, x) ->
  let out := V1.transformResponseToScene env (Some r) o s in
  out.1 = Ret (Some scene)
  ∧ cache (self out.2)
    = (if truthy (uid o)
       then {| entries := <[uid o := scene]> (entries (cache (self s)));
               prototype := None |}
       else cache (self s))
  ∧ dashboardCache (self out.2) = dashboardCache (self s)
  ∧ state (self out.2) = state (self s)
  ∧ ext out.2 = x.
Proof.
  intros Hd Hproto Hkey Hother Hbuild out.
  set (sx := {| self := self s; ext := x; log := log s |}).
  assert (Hout : out = (Ret (Some scene),
                        (when (truthy (uid o))
                              (Base.setSceneCache env (uid o) scene) sx).2)).
  { subst out. unfold V1.transformResponseToScene, Base.getSceneFromCache.
    rewrite bind_gets, readCache_plain by assumption.
    unfold V1.sameVersion, V1.versionOf. rewrite Hd.
    assert (Hsame :
      (match (match cache (self s) !! uid o with
              | Some fc => Found fc
              | None => Falsy
              end) with
       | Found fc => let! v := ret (dash_version d) in
                     ret (bool_decide (scene_version fc = v))
       | NoState =>
           throw (TypeError "Cannot read properties of undefined (reading 'version')")
       | Falsy => ret false
       end) s = (Ret false, s)).
    { destruct (cache (self s) !! uid o) as [fc|] eqn:Hfc; [|reflexivity].
      unfold bind, ret. rewrite bool_decide_eq_false_2; [reflexivity|].
      now apply Hother. }
    rewrite (bind_ret_step _ _ _ _ _ Hsame).
    assert (Hcall : Base.call (transformSaveModelToScene env r) s = (Ret scene, sx)).
    { unfold Base.call. now rewrite Hbuild. }
    rewrite (bind_ret_step _ _ _ _ _ Hcall).
    destruct (truthy (uid o)); [|reflexivity].
    unfold when, bind, Base.setSceneCache. cbn [self sx].
    now rewrite writeCache_plain by assumption. }
  rewrite Hout. destruct (truthy (uid o)); [|cbn; repeat split; reflexivity].
  unfold when, Base.setSceneCache. cbn [self sx].
  rewrite writeCache_plain by assumption. cbn. repeat split; reflexivity.
Qed.

(** X12. While a scene of the version of the response is cached under the
    uid, [transformResponseToScene] of the v1 manager returns that scene and
    nothing else happens: the serializer is not called. *)
Theorem V1_transformResponseToScene_cached r d o (s : Local Ext DashboardDTO) fc :
  dashboard r = Some d ->
  cache (self s) !! uid o = Some fc ->
  scene_version fc = dash_version d ->
  V1.transformResponseToScene env (Some r) o s = (Ret (Some fc), s).
Proof.
  intros Hd Hfc Hv.
  unfold V1.transformResponseToScene, Base.getSceneFromCache.
  rewrite bind_gets, (readCache_own _ _ _ Hfc).
  unfold V1.sameVersion, V1.versionOf. rewrite Hd.
  unfold bind, ret. rewrite bool_decide_eq_true_2 by assumption. reflexivity.
Qed.

(** X29. The scene cache is a plain object, so a uid that names a member of
    [Object.prototype] ([constructor], [toString], [__proto__], ...) reads
    that member while the cache owns no scene under it: with the prototype
    of [{}], [transformResponseToScene] of either manager then throws a
    [TypeError], whatever the response, before the serializer is called and
    without changing anything. *)
Theorem transformResponseToScene_inherited_member (o : LoadDashboardOptions) :
  uid o ∈ "__proto__"%string :: objectPrototypeMembers ->
  (∀ rsp (s : Local Ext DashboardDTO),
     prototype (cache (self s)) = None -> cache (self s) !! uid o = None ->
     V1.transformResponseToScene env rsp o s
     = (Throw (TypeError "Cannot read properties of undefined (reading 'version')"), s))
  ∧ (∀ rsp (s : Local Ext DashboardV2Resource),
       prototype (cache (self s)) = None -> cache (self s) !! uid o = None ->
       V2.transformResponseToScene env rsp o s
       = (Throw (TypeError "Cannot read properties of undefined (reading 'version')"), s)).
Proof.
  intros Hkey. split; intros rsp s Hproto Hown.
  - apply V1_transformResponseToScene_no_state.
    now apply readCache_inherited.
  - apply V2_transformResponseToScene_no_state.
    now apply readCache_inherited.
Qed.
End SceneCache.

(** ** Loading never throws *)
Section NeverThrows.
Context {Ext : Type} (env : Env Ext).

(** X13. [loadDashboard], [loadSnapshot] and [reloadDashboard] of the v1
    manager always return normally, whatever the collaborators throw: every
    failure ends in their [catch] block, which only sets the state. *)
Theorem V1_loads_never_throw (s : Local Ext DashboardDTO) :
  (∀ o, (V1.loadDashboard env o s).1 = Ret tt)
  ∧ (∀ slug, (V1.loadSnapshot env slug s).1 = Ret tt)
  ∧ (∀ p, (V1.reloadDashboard env p s).1 = Ret tt).
Proof.
  split; [|split].
  - intros o. unfold V1.loadDashboard, Base.loadDashboard, try_catch.
    now destruct (Base.loadDashboardTry _ _ _ _ _) as [[[]|e] s1].
  - intros slug. unfold V1.loadSnapshot, Base.loadSnapshot, try_catch.
    now destruct (Base.loadSnapshotTry _ _ _) as [[[]|e] s1].
  - intros p. unfold V1.reloadDashboard. rewrite bind_gets.
    destruct (prop _) as [last|]; [|reflexivity].
    destruct (_ && _); [reflexivity|]. unfold try_catch.
    now destruct (V1.reloadTry _ _ _) as [[[]|e] s1].
Qed.

(** X14. When the fetch of a load answers null (a redirect of the Home
    route, or a cancelled request), [loadDashboard] returns with the state
    still loading: [isLoading] is true and [dashboard] is undefined, the
    options of the last load are kept. *)
Theorem V1_loadDashboard_null_stays_loading o (s : Local Ext DashboardDTO) x :
  telemetry env StartMeasure (ext s) = (Ret tt, x) ->
  (V1.fetchDashboard env o (loading s x)).1 = Ret None ->
  let s' := (V1.loadDashboard env o s).2 in
  prop (st_isLoading (state (self s'))) = Some true
  ∧ prop (st_dashboard (state (self s'))) = None
  ∧ st_options (state (self s')) = st_options (state (self s))
  ∧ st_loadError (state (self s')) = st_loadError (state (self s)).
Proof.
  intros Hm Hnull.
  pose proof (V1_fetchDashboard_keeps_state env o (loading s x)) as Hk.
  destruct (V1.fetchDashboard env o (loading s x)) as [r s1] eqn:Hf.
  cbn in Hnull, Hk. subst r. unfold V1.loadDashboard.
  rewrite (loadDashboard_null_fetch env _ _ o s x s1 Hm Hf). cbn [snd].
  rewrite Hk. repeat split.
Qed.
End NeverThrows.

(** ** The unified manager, continued *)
Section UnifiedMore.
Context {Ext : Type} (env : Env Ext).

Lemma Base_loadSnapshot_returns {T} loadScene slug (s : Local Ext T) :
  (Base.loadSnapshot env loadScene slug s).1 = Ret tt.
Proof.
  unfold Base.loadSnapshot, try_catch.
  now destruct (Base.loadSnapshotTry _ _ _) as [[[]|e] s1].
Qed.

Lemma V1_reloadDashboard_returns p (s : Local Ext DashboardDTO) :
  (V1.reloadDashboard env p s).1 = Ret tt.
Proof.
  unfold V1.reloadDashboard. rewrite bind_gets.
  destruct (prop _) as [last|]; [|reflexivity].
  destruct (_ && _); [reflexivity|]. unfold try_catch.
  now destruct (V1.reloadTry _ _ _) as [[[]|e] s1].
Qed.

Lemma V2_fetchDashboard_keeps_state o :
  keeps (state ∘ self) (V2.fetchDashboard env o).
Proof.
  unfold V2.fetchDashboard. keeps_all. apply V2_tryBlock_keeps_state.
Qed.

(** X15. [loadSnapshot] of the unified manager never falls back and never
    throws: the [loadSnapshot] of the active manager catches every error,
    the version error included, so the other manager is not tried, its
    fields and the active manager stay as they are. *)
Theorem unified_loadSnapshot_no_fallback slug (w : World Ext) :
  let out := Unified.loadSnapshot env slug w in
  out.1 = Ret tt
  ∧ activeManager out.2 = activeManager w
  ∧ match activeManager w with
    | V1Manager => v2Manager out.2 = v2Manager w
    | V2Manager => v1Manager out.2 = v1Manager w
    end.
Proof.
  intros out. subst out. unfold Unified.loadSnapshot.
  destruct (activeManager w) eqn:Ha.
  - pose proof (Base_loadSnapshot_returns (V1.loadSnapshotScene env) slug (viewV1 w)) as Hr.
    change (Base.loadSnapshot env (V1.loadSnapshotScene env)) with (V1.loadSnapshot env) in Hr.
    destruct (V1.loadSnapshot env slug (viewV1 w)) as [r s1] eqn:Hop.
    cbn in Hr. subst r.
    erewrite withVersionHandling_ret;
      [|rewrite Ha; unfold Unified.onV1; fold (viewV1 w); rewrite Hop; reflexivity].
    cbn. auto.
  - pose proof (Base_loadSnapshot_returns (V2.loadSnapshotScene env) slug (viewV2 w)) as Hr.
    change (Base.loadSnapshot env (V2.loadSnapshotScene env)) with (V2.loadSnapshot env) in Hr.
    destruct (V2.loadSnapshot env slug (viewV2 w)) as [r s1] eqn:Hop.
    cbn in Hr. subst r.
    erewrite withVersionHandling_ret;
      [|rewrite Ha; unfold Unified.onV2; fold (viewV2 w); rewrite Hop; reflexivity].
    cbn. auto.
Qed.

(** X16. [reloadDashboard] of the unified manager never falls back either.
    While v1 is active it returns normally, leaves v1 active and the v2
    manager untouched, because the v1 reload catches every error.  While v2
    is active it throws [Method not implemented.] and changes nothing. *)
Theorem unified_reloadDashboard_no_fallback p (w : World Ext) :
  let out := Unified.reloadDashboard env p w in
  match activeManager w with
  | V1Manager =>
      out.1 = Ret tt ∧ activeManager out.2 = V1Manager
      ∧ v2Manager out.2 = v2Manager w
  | V2Manager => out = (Throw (Error "Method not implemented."), w)
  end.
Proof.
  intros out. subst out. unfold Unified.reloadDashboard.
  destruct (activeManager w) eqn:Ha.
  - pose proof (V1_reloadDashboard_returns p (viewV1 w)) as Hr.
    destruct (V1.reloadDashboard env p (viewV1 w)) as [r s1] eqn:Hop.
    cbn in Hr. subst r.
    erewrite withVersionHandling_ret;
      [|rewrite Ha; unfold Unified.onV1; fold (viewV1 w); rewrite Hop; reflexivity].
    cbn. auto.
  - erewrite withVersionHandling_throw;
      [|rewrite Ha; reflexivity|discriminate].
    destruct w; cbn in *. now subst.
Qed.
End UnifiedMore.

Section UnifiedSnapshotsAndState.
Context {Ext : Type} (env : Env Ext).

(** X17. [loadSnapshotScene] of the unified manager never changes the
    active manager, whichever way it ends, and it hides what went wrong.
    When the v1 loader returns a scene, that is the outcome.  When it fails
    with a version error whose stored version is [v2alpha1], the outcome is
    that of the v2 loader.  Every other failure of the v1 loader, a version
    error of another stored version included, is thrown as
    [Snapshot not found] in place of the error itself. *)
Theorem unified_loadSnapshotScene_masks slug (w : World Ext) :
  let first := Unified.onV1 (V1.loadSnapshotScene env slug) w in
  let out := Unified.loadSnapshotScene env slug w in
  activeManager out.2 = activeManager w
  ∧ match first.1 with
    | Ret scene => out = first
    | Throw (DashboardVersionError sv _) =>
        if String.eqb sv "v2alpha1"
        then out = Unified.onV2 (V2.loadSnapshotScene env slug) first.2
        else out = (Throw (Error "Snapshot not found"), first.2)
    | Throw _ => out = (Throw (Error "Snapshot not found"), first.2)
    end.
Proof.
  intros first out.
  assert (Hfirst : activeManager first.2 = activeManager w).
  { subst first. unfold Unified.onV1.
    now destruct (V1.loadSnapshotScene env slug _) as [r s1]. }
  assert (Hsecond : ∀ w1, activeManager
                            (Unified.onV2 (V2.loadSnapshotScene env slug) w1).2
                          = activeManager w1).
  { intros w1. unfold Unified.onV2.
    now destruct (V2.loadSnapshotScene env slug _) as [r s1]. }
  assert (Hcases :
    match first.1 with
    | Ret scene => out = first
    | Throw (DashboardVersionError sv _) =>
        if String.eqb sv "v2alpha1"
        then out = Unified.onV2 (V2.loadSnapshotScene env slug) first.2
        else out = (Throw (Error "Snapshot not found"), first.2)
    | Throw _ => out = (Throw (Error "Snapshot not found"), first.2)
    end).
  { subst out. unfold Unified.loadSnapshotScene.
    destruct first as [[scene|e] w1] eqn:Hrun; cbn [fst snd].
    - now rewrite (try_catch_ret_step _ _ _ _ _ Hrun).
    - rewrite (try_catch_throw_step _ _ _ _ _ Hrun).
      destruct e as [st c mid m|sv m|m|m]; try reflexivity.
      now destruct (String.eqb sv "v2alpha1"). }
  split; [|exact Hcases].
  destruct first.1 as [scene|[st c mid m|sv m|m|m]];
    try (rewrite Hcases; exact Hfirst).
  destruct (String.eqb sv "v2alpha1"); rewrite Hcases;
    [rewrite Hsecond|]; exact Hfirst.
Qed.

Lemma fetchDashboardOf_own o m (w : World Ext) :
  own (Unified.fetchDashboardOf env o m w).2 = own w.
Proof.
  destruct m; unfold Unified.fetchDashboardOf, bind, Unified.onV1, Unified.onV2.
  - now destruct (V1.fetchDashboard env o _) as [[r|e] s].
  - now destruct (V2.fetchDashboard env o _) as [[r|e] s].
Qed.

Lemma fetchDashboardOf_activeState o m (w : World Ext) :
  Unified.activeState (Unified.fetchDashboardOf env o m w).2 = Unified.activeState w.
Proof.
  unfold Unified.activeState. rewrite fetchDashboardOf_active.
  pose proof (V1_fetchDashboard_keeps_state env o (viewV1 w)) as H1.
  pose proof (V2_fetchDashboard_keeps_state env o (viewV2 w)) as H2.
  unfold compose in H1, H2.
  destruct m; unfold Unified.fetchDashboardOf, bind, Unified.onV1, Unified.onV2;
    fold (viewV1 w); fold (viewV2 w).
  - destruct (V1.fetchDashboard env o (viewV1 w)) as [[r|e] s]; cbn in *;
      destruct (activeManager w); auto.
  - destruct (V2.fetchDashboard env o (viewV2 w)) as [[r|e] s]; cbn in *;
      destruct (activeManager w); auto.
Qed.

(** X18. The state of the unified manager itself follows the active
    manager only when the first attempt of a fetch succeeds: it then takes
    over every key of the active manager's state.  When the first attempt
    throws, whether a fallback follows and succeeds or not, the unified
    manager's own state is left as it was.  Its own two caches are never
    touched by a fetch. *)
Theorem unified_fetch_state_sync o (w : World Ext) :
  let first := Unified.fetchDashboardOf env o (activeManager w) w in
  let run := Unified.fetchDashboard env o w in
  match first.1 with
  | Ret _ =>
      state (own run.2) = Base.mergeState (state (own w)) (Unified.activeState w)
  | Throw _ => state (own run.2) = state (own w)
  end
  ∧ cache (own run.2) = cache (own w)
  ∧ dashboardCache (own run.2) = dashboardCache (own w).
Proof.
  intros first run. subst first run. unfold Unified.fetchDashboard.
  pose proof (fetchDashboardOf_own o (activeManager w) w) as Hown.
  pose proof (fetchDashboardOf_activeState o (activeManager w) w) as Hst.
  destruct (Unified.fetchDashboardOf env o (activeManager w) w)
    as [[a|e] w1] eqn:Hfirst; cbn [fst snd] in *.
  - rewrite (withVersionHandling_ret _ _ _ _ Hfirst). cbn.
    rewrite Hown, Hst. auto.
  - destruct e as [st c mid m|sv m|m|m];
      try (rewrite (withVersionHandling_throw _ _ _ _ Hfirst) by discriminate;
           cbn; rewrite Hown; auto).
    rewrite (withVersionHandling_mismatch _ _ _ _ _ Hfirst).
    rewrite fetchDashboardOf_own. cbn. rewrite Hown. auto.
Qed.

(** X19. A home dashboard stored as a v2 spec is not recovered by the
    fallback: while v1 is active, the fetch of the Home route throws the
    plain error of the v1 manager, which is no version error, so one fetch
    is entered, v1 stays active and the v2 manager is not asked. *)
Theorem unified_home_v2_spec_is_an_error o (w : World Ext) sp hm x :
  route o = Home ->
  activeManager w = V1Manager ->
  not_served_from_cache env o (entered V1Manager o (viewV1 w)) ->
  getHomeDashboard env (world_ext w) = (Ret (HomeV2Spec sp hm), x) ->
  let run := Unified.fetchDashboard env o w in
  run.1 = Throw (Error "You are trying to load a v2 dashboard spec as v1. Use DashboardScenePageStateManagerV2 instead.")
  ∧ activeManager run.2 = V1Manager
  ∧ v2Manager run.2 = v2Manager w
  ∧ world_log run.2 = world_log w ++ [EvFetchDashboard V1Manager o].
Proof.
  intros Hroute Ha Hmiss Hhome run. subst run. unfold Unified.fetchDashboard.
  assert (Hv1 : V1.fetchDashboard env o (viewV1 w)
                = (Throw (Error "You are trying to load a v2 dashboard spec as v1. Use DashboardScenePageStateManagerV2 instead."),
                   {| self := v1Manager w; ext := x;
                      log := world_log w ++ [EvFetchDashboard V1Manager o] |})).
  { rewrite V1_fetchDashboard_miss by assumption.
    unfold try_catch, V1.tryBlock, V1.fetchByRoute, bind, Base.call.
    rewrite Hroute. cbn [entered viewV1 ext self log]. rewrite Hhome. reflexivity. }
  erewrite withVersionHandling_throw;
    [|rewrite Ha; unfold Unified.fetchDashboardOf, bind, Unified.onV1;
      fold (viewV1 w); rewrite Hv1; reflexivity|discriminate].
  cbn. auto.
Qed.
End UnifiedSnapshotsAndState.

(** ** The query parameters of a load *)
Section QueryParams.

(** X20. In the query parameters of a load the variables win: a variable
    named [version], [scopes], [from] or [to] replaces the parameter of that
    name, since the variables are spread last.  Without such a variable the
    four parameters are sent as given, and no other key appears than the
    variables and these four. *)
Theorem queryParamsOf_precedence (p : Params) :
  (∀ k v, variables p !! k = Some v -> queryParamsOf p !! k = Some v)
  ∧ (variables p !! "version"%string = None ->
     queryParamsOf p !! "version"%string = Some (QNumber (version p)))
  ∧ (variables p !! "scopes"%string = None ->
     queryParamsOf p !! "scopes"%string = Some (QStrings (scopes p)))
  ∧ (variables p !! "from"%string = None ->
     queryParamsOf p !! "from"%string = Some (QString (from (timeRange p))))
  ∧ (variables p !! "to"%string = None ->
     queryParamsOf p !! "to"%string = Some (QString (to (timeRange p))))
  ∧ (∀ k, variables p !! k = None ->
          k ∉ ["version"; "scopes"; "from"; "to"]%string ->
          queryParamsOf p !! k = None).
Proof.
  unfold queryParamsOf. cbn [list_to_map foldr uncurry curry fst snd].
  repeat split.
  - intros k v Hk. now apply lookup_union_Some_l.
  - intros H. rewrite lookup_union_r by assumption. reflexivity.
  - intros H. rewrite lookup_union_r by assumption. reflexivity.
  - intros H. rewrite lookup_union_r by assumption. reflexivity.
  - intros H. rewrite lookup_union_r by assumption. reflexivity.
  - intros k Hk Hnot. rewrite lookup_union_r by assumption.
    rewrite !elem_of_cons, elem_of_nil in Hnot.
    rewrite !lookup_insert_ne, lookup_empty by (intros <-; tauto). reflexivity.
Qed.
End QueryParams.

(** ** The outcomes of a reload *)
Section ReloadOutcomes.
Context {Ext : Type} (env : Env Ext).

(** With changed content parameters a reload is its guarded [try] block. *)
Lemma V1_reloadDashboard_differs p (s : Local Ext DashboardDTO) last :
  prop (st_options (state (self s))) = Some last ->
  ¬ same_content p last ->
  V1.reloadDashboard env p s
  = try_catch (V1.reloadTry env (V1.withParams last p)) (V1.reloadCatch env) s.
Proof.
  intros Hlast Hdiff. unfold V1.reloadDashboard.
  rewrite bind_gets, Hlast. cbn [V1.withParams params]. unfold V1.isEqual.
  destruct (bool_decide _ && bool_decide _) eqn:Hb; [|reflexivity].
  apply andb_true_iff in Hb as [H1 H2].
  apply bool_decide_eq_true_1 in H1, H2. destruct Hdiff. now split.
Qed.

(** The [try] block of a reload, once the fetch has answered. *)
Lemma V1_reloadTry_fetched o (s s1 : Local Ext DashboardDTO) rsp :
  V1.fetchDashboard env o (reloading s) = (Ret rsp, s1) ->
  cache (self s1) = cache (self s)
  ∧ state (self s1) = state (self (reloading s))
  ∧ V1.reloadTry env o s
    = (let! same := V1.sameVersion (Base.readCache env (cache (self s)) (uid o)) rsp in
       if same then
         Base.setState {| st_isLoading := Some (Some false);
                          st_dashboard := None; st_options := None;
                          st_panelEditor := None; st_loadError := None |}
       else
         match rsp with
         | Some r =>
             match dashboard r with
             | Some _ =>
                 let! scene := Base.call (transformSaveModelToScene env r) in
                 Base.setSceneCache env (uid o) scene >>
                 Base.setState {| st_dashboard := Some (Some scene);
                                  st_isLoading := Some (Some false);
                                  st_options := Some (Some o);
                                  st_panelEditor := None;
                                  st_loadError := None |}
             | None => Base.setState V1.notFoundUpdate
             end
         | None => Base.setState V1.notFoundUpdate
         end) s1.
Proof.
  intros Hfetch.
  pose proof (V1_fetchDashboard_keeps_cache env o (reloading s)) as Hc.
  pose proof (V1_fetchDashboard_keeps_state env o (reloading s)) as Hs.
  rewrite Hfetch in Hc, Hs. cbn in Hc, Hs.
  repeat split; [exact Hc|exact Hs|].
  unfold V1.reloadTry. unfold bind at 1.
  cbn [Base.setState Base.update_self modify]. fold (reloading s).
  rewrite (bind_ret_step _ _ _ _ _ Hfetch).
  unfold Base.getSceneFromCache. rewrite bind_gets, Hc. reflexivity.
Qed.

(** A reload with changed content parameters enters one fetch. *)
Lemma V1_reloadDashboard_differs_adds p (s : Local Ext DashboardDTO) last :
  prop (st_options (state (self s))) = Some last ->
  ¬ same_content p last ->
  log (V1.reloadDashboard env p s).2
  = log s ++ [EvFetchDashboard V1Manager (V1.withParams last p)].
Proof.
  intros Hlast Hdiff. rewrite (V1_reloadDashboard_differs p s last Hlast Hdiff).
  clear Hlast. revert s. apply adds_try_catch.
  - intros s. unfold V1.reloadTry. unfold bind at 1.
    cbn [Base.setState Base.update_self modify].
    set (s1 := {| self := _ |}). change (log s) with (log s1). revert s1.
    apply (adds_bind_l (T:=DashboardDTO)); [apply V1_fetchDashboard_adds|].
    intros rsp. unfold V1.sameVersion, V1.versionOf.
    keeps_all; first [apply keeps_log_setState | apply keeps_log_setSceneCache
                     | apply keeps_log_getSceneFromCache].
  - intros e. apply keeps_log_setState.
Qed.

(** X21. On a scene cache with the prototype of [{}] and for a uid that
    names no member of [Object.prototype], a reload with changed content
    parameters whose fetch returns a dashboard of a version that is not the
    cached scene's ends with the new scene as [dashboard], [isLoading] false
    and the options of the last load replaced by the reloaded ones; the
    scene is stored under the uid as an own property, even when the uid is
    empty.  Repeating the same reload then does nothing. *)
Theorem V1_reloadDashboard_records_params p (s s1 : Local Ext DashboardDTO)
    last r d scene x :
  prop (st_options (state (self s))) = Some last ->
  ¬ same_content p last ->
  V1.fetchDashboard env (V1.withParams last p) (reloading s) = (Ret (Some r), s1) ->
  dashboard r = Some d ->
  prototype (cache (self s)) = None ->
  uid last ∉ "__proto__"%string :: objectPrototypeMembers ->
  (∀ fc, cache (self s) !! uid last = Some fc ->
         scene_version fc ≠ dash_version d) ->
  transformSaveModelToScene env r (ext s1) = (Ret scene, x) ->
  let s' := (V1.reloadDashboard env p s).2 in
  prop (st_options (state (self s'))) = Some (V1.withParams last p)
  ∧ prop (st_dashboard (state (self s'))) = Some scene
  ∧ prop (st_isLoading (state (self s'))) = Some false
  ∧ cache (self s')
    = {| entries := <[uid last := scene]> (entries (cache (self s)));
         prototype := None |}
  ∧ V1.reloadDashboard env p s' = (Ret tt, s').
Proof.
  intros Hlast Hdiff Hfetch Hd Hproto Hkey Hother Hbuild s'.
  destruct (V1_reloadTry_fetched _ _ _ _ Hfetch) as (Hc & Hs & Htry).
  cbn [V1.withParams uid] in Htry.
  assert (Hsame : V1.sameVersion (Base.readCache env (cache (self s)) (uid last))
                    (Some r) s1
                  = (Ret false, s1)).
  { rewrite (readCache_plain env) by assumption.
    unfold V1.sameVersion, V1.versionOf. rewrite Hd.
    destruct (cache (self s) !! uid last) as [fc|] eqn:Hfc; [|reflexivity].
    unfold bind, ret. rewrite bool_decide_eq_false_2; [reflexivity|].
    now apply Hother. }
  rewrite (bind_ret_step _ _ _ _ _ Hsame), Hd in Htry.
  assert (Hcall : Base.call (transformSaveModelToScene env r) s1
                  = (Ret scene, {| self := self s1; ext := x; log := log s1 |})).
  { unfold Base.call. now rewrite Hbuild. }
  rewrite (bind_ret_step _ _ _ _ _ Hcall) in Htry.
  unfold bind at 1, Base.setSceneCache in Htry. cbn [self] in Htry.
  rewrite Hc, (writeCache_plain env) in Htry by assumption.
  assert (Hout : V1.reloadDashboard env p s
                 = (Ret tt, (V1.reloadTry env (V1.withParams last p) s).2)).
  { rewrite (V1_reloadDashboard_differs p s last Hlast Hdiff).
    unfold try_catch. rewrite Htry. reflexivity. }
  assert (Hagain : ∀ sf : Local Ext DashboardDTO,
            prop (st_options (state (self sf))) = Some (V1.withParams last p) ->
            V1.reloadDashboard env p sf = (Ret tt, sf)).
  { intros sf Hsf. unfold V1.reloadDashboard. rewrite bind_gets, Hsf.
    cbn [V1.withParams params]. unfold V1.isEqual.
    rewrite !bool_decide_eq_true_2 by reflexivity. reflexivity. }
  assert (Hopts : prop (st_options (state (self s'))) = Some (V1.withParams last p)).
  { subst s'. rewrite Hout, Htry. reflexivity. }
  split; [exact Hopts|]. split; [|split; [|split]];
    [| | |apply Hagain, Hopts];
    subst s'; rewrite Hout, Htry; cbn; rewrite ?Hc; reflexivity.
Qed.

(** X22. A reload with changed content parameters whose fetch returns a
    dashboard of the version of the cached scene only clears [isLoading]:
    the dashboard, the scene cache and the options of the last load stay as
    they were.  The reloaded parameters are not recorded, so repeating the
    same reload fetches once more. *)
Theorem V1_reloadDashboard_same_version p (s s1 : Local Ext DashboardDTO)
    last r d fc :
  prop (st_options (state (self s))) = Some last ->
  ¬ same_content p last ->
  V1.fetchDashboard env (V1.withParams last p) (reloading s) = (Ret (Some r), s1) ->
  dashboard r = Some d ->
  cache (self s) !! uid last = Some fc ->
  scene_version fc = dash_version d ->
  let s' := (V1.reloadDashboard env p s).2 in
  prop (st_isLoading (state (self s'))) = Some false
  ∧ st_options (state (self s')) = st_options (state (self s))
  ∧ st_dashboard (state (self s')) = st_dashboard (state (self s))
  ∧ st_loadError (state (self s')) = st_loadError (state (self s))
  ∧ cache (self s') = cache (self s)
  ∧ log (V1.reloadDashboard env p s').2
    = log s' ++ [EvFetchDashboard V1Manager (V1.withParams last p)].
Proof.
  intros Hlast Hdiff Hfetch Hd Hfc Hv s'.
  assert (Hmain :
    prop (st_isLoading (state (self s'))) = Some false
    ∧ st_options (state (self s')) = st_options (state (self s))
    ∧ st_dashboard (state (self s')) = st_dashboard (state (self s))
    ∧ st_loadError (state (self s')) = st_loadError (state (self s))
    ∧ cache (self s') = cache (self s));
    [|destruct Hmain as (H1 & H2 & H3 & H4 & H5); repeat split; try assumption;
      apply V1_reloadDashboard_differs_adds; [now rewrite H2|assumption]].
  destruct (V1_reloadTry_fetched _ _ _ _ Hfetch) as (Hc & Hs & Htry).
  cbn [V1.withParams uid] in Htry. rewrite (readCache_own env _ _ _ Hfc) in Htry.
  assert (Hsame : V1.sameVersion (Found fc) (Some r) s1 = (Ret true, s1)).
  { unfold V1.sameVersion, V1.versionOf. rewrite Hd.
    unfold bind, ret. now rewrite bool_decide_eq_true_2. }
  rewrite (bind_ret_step _ _ _ _ _ Hsame) in Htry.
  subst s'. rewrite (V1_reloadDashboard_differs p s last Hlast Hdiff).
  unfold try_catch. rewrite Htry. cbn. rewrite Hs, Hc. cbn.
  repeat split; assumption.
Qed.

(** X23. Inside a reload a fetch that answers null (as it does for a
    cancelled request) is reported: on a scene cache with the prototype of
    [{}] and for a uid that names no member of [Object.prototype], unless a
    scene without version is cached under the uid, the reload ends with the
    [loadError] of status 404 and message [Dashboard not found], and
    [isLoading] false. *)
Theorem V1_reloadDashboard_null_is_not_found p (s : Local Ext DashboardDTO) last :
  prop (st_options (state (self s))) = Some last ->
  ¬ same_content p last ->
  (V1.fetchDashboard env (V1.withParams last p) (reloading s)).1 = Ret None ->
  prototype (cache (self s)) = None ->
  uid last ∉ "__proto__"%string :: objectPrototypeMembers ->
  (∀ fc, cache (self s) !! uid last = Some fc -> scene_version fc ≠ None) ->
  let s' := (V1.reloadDashboard env p s).2 in
  prop (st_loadError (state (self s')))
  = Some {| status := Some 404; messageId := None;
            message := "Dashboard not found" |}
  ∧ prop (st_isLoading (state (self s'))) = Some false
  ∧ st_options (state (self s')) = st_options (state (self s)).
Proof.
  intros Hlast Hdiff Hnull Hproto Hkey Hother s'.
  destruct (V1.fetchDashboard env (V1.withParams last p) (reloading s))
    as [res s1] eqn:Hfetch. cbn in Hnull. subst res.
  destruct (V1_reloadTry_fetched _ _ _ _ Hfetch) as (Hc & Hs & Htry).
  cbn [V1.withParams uid] in Htry.
  assert (Hsame : V1.sameVersion (Base.readCache env (cache (self s)) (uid last))
                    None s1
                  = (Ret false, s1)).
  { rewrite (readCache_plain env) by assumption.
    unfold V1.sameVersion, V1.versionOf.
    destruct (cache (self s) !! uid last) as [fc|] eqn:Hfc; [|reflexivity].
    unfold bind, ret. rewrite bool_decide_eq_false_2; [reflexivity|].
    now apply Hother. }
  rewrite (bind_ret_step _ _ _ _ _ Hsame) in Htry.
  subst s'. rewrite (V1_reloadDashboard_differs p s last Hlast Hdiff).
  unfold try_catch. rewrite Htry. cbn. rewrite Hs. cbn.
  repeat split.
Qed.
End ReloadOutcomes.

(** ** The singletons *)
Section SingletonFacts.
Import Singletons.

(** X24. [getDashboardScenePageStateManager] builds an instance only when
    its slot is empty: the slot asked for is filled afterwards, an instance
    that exists is returned as it is (its state and caches are not reset),
    the two other slots are not touched (building the unified manager does
    not build the standalone v1 and v2 managers), and asking again changes
    nothing. *)
Theorem getDashboardScenePageStateManager_singleton (v : option Selector)
    (ms : Managers) :
  let i := (getDashboardScenePageStateManager v ms).1 in
  let ms1 := (getDashboardScenePageStateManager v ms).2 in
  built i ms1
  ∧ (built i ms -> ms1 = ms)
  ∧ (i ≠ TheV1 -> v1 ms1 = v1 ms)
  ∧ (i ≠ TheV2 -> v2 ms1 = v2 ms)
  ∧ (i ≠ TheUnified -> unified ms1 = unified ms)
  ∧ getDashboardScenePageStateManager v ms1 = (i, ms1).
Proof.
  destruct v as [[|]|]; cbn.
  - destruct (v1 ms) eqn:H; cbn; rewrite ?H; repeat split; eauto;
      try congruence; intros [? [=]].
  - destruct (v2 ms) eqn:H; cbn; rewrite ?H; repeat split; eauto;
      try congruence; intros [? [=]].
  - destruct (unified ms) eqn:H; cbn; rewrite ?H; repeat split; eauto;
      try congruence; intros [? [=]].
Qed.
End SingletonFacts.

(** ** The keys of the registry *)
Section KeyFacts.
Import Manifest.

Lemma sprintf_key_inj_level k1 v1 k2 v2 :
  slashes k1 = slashes k2 ->
  sprintf_key k1 v1 = sprintf_key k2 v2 -> k1 = k2 ∧ v1 = v2.
Proof.
  unfold sprintf_key. revert k2.
  induction k1 as [|c1 k1 IH]; intros [|c2 k2] Hn Heq.
  - rewrite !append_nil, !append_cons, !append_nil in Heq. now injection Heq.
  - rewrite append_nil, !append_cons, append_nil in Heq.
    injection Heq as <- _. cbn in Hn. lia.
  - rewrite append_nil, !append_cons, append_nil in Heq.
    injection Heq as -> _. cbn in Hn. lia.
  - rewrite !append_cons in Heq. injection Heq as -> Heq.
    cbn [slashes] in Hn.
    destruct (IH k2) as [-> ->]; [lia|exact Heq|]. now split.
Qed.

(** X25. The key [kind/version] of the registry names one pair among the
    pairs whose kinds hold the same number of slashes, in particular among
    kinds without a slash; a slash in a kind can make two pairs share a
    key, as [a/b] with [c] and [a] with [b/c] do. *)
Theorem sprintf_key_injective k1 v1 k2 v2 :
  (slashes k1 = slashes k2 ->
   sprintf_key k1 v1 = sprintf_key k2 v2 -> k1 = k2 ∧ v1 = v2)
  ∧ sprintf_key "a/b" "c" = sprintf_key "a" "b/c".
Proof.
  split; [apply sprintf_key_inj_level|reflexivity].
Qed.
End KeyFacts.

(** ** The history read query, continued *)
Section HistoryQueryMore.
Import ResourceHistory.

(** X26. The first row of the history query is the latest version of the
    object: it is a stored row of the object and no stored row of the object
    has a larger [resource_version].  The result is empty exactly when the
    table holds no row of the object. *)
Theorem resource_history_get_latest_first (table : list Row) :
  (resource_history_get table = [] ↔ ∀ r, r ∈ table -> ¬ where_clause r)
  ∧ ∀ r rest, resource_history_get table = r :: rest ->
      r ∈ table ∧ where_clause r
      ∧ ∀ r', r' ∈ table -> where_clause r' ->
              resource_version r' ≤ resource_version r.
Proof.
  assert (Hperm : resource_history_get table ≡ₚ filter where_clause table).
  { apply merge_sort_Permutation. }
  assert (Hin : ∀ r, r ∈ resource_history_get table ↔ where_clause r ∧ r ∈ table).
  { intros r. now rewrite Hperm, list_elem_of_filter. }
  split.
  - split.
    + intros Hnil r Hr Hw. assert (r ∈ resource_history_get table) by now apply Hin.
      rewrite Hnil in H. now apply elem_of_nil in H.
    + intros Hnone. destruct (resource_history_get table) as [|r rest] eqn:Hres;
        [reflexivity|].
      assert (Hr : r ∈ r :: rest) by apply list_elem_of_here.
      apply Hin in Hr as [Hw Hr]. now destruct (Hnone r Hr).
  - intros r rest Hres.
    assert (Hr : r ∈ resource_history_get table).
    { rewrite Hres. apply list_elem_of_here. }
    apply Hin in Hr as [Hw Hr]. split; [assumption|split; [assumption|]].
    intros r' Hr' Hw'.
    assert (Hin' : r' ∈ r :: rest). { rewrite <- Hres. now apply Hin. }
    assert (Hs : StronglySorted resource_version_desc (r :: rest)).
    { rewrite <- Hres. unfold resource_history_get.
      apply StronglySorted_merge_sort; apply _. }
    apply StronglySorted_inv in Hs as [_ Hall].
    apply elem_of_cons in Hin' as [->|Hin']; [lia|].
    rewrite Forall_forall in Hall. now apply Hall.
Qed.

(** X27. The versions the history query lists do not depend on the order
    in which the table holds its rows. *)
Theorem resource_history_get_order_free (table table' : list Row) :
  table ≡ₚ table' ->
  resource_version <$> resource_history_get table
  = resource_version <$> resource_history_get table'.
Proof.
  intros Hperm.
  apply (StronglySorted_unique descending);
    try apply resource_history_get_versions_sorted.
  unfold resource_history_get. now rewrite !merge_sort_Permutation, Hperm.
Qed.
End HistoryQueryMore.

(** * Examples of the further properties *)

(** A cached dashboard is returned without a request. *)
Lemma V1_fetchDashboard_served_from_cache_witness :
  let o := Scenario.options "abc" Normal None in
  let s := Scenes.warm o "abc" (Scenario.dto "c" 5) "abc"
             (Scenario.sceneOfV1 (Scenario.dto "c" 5)) in
  (V1.fetchDashboard Scenes.plain o s).1 = Ret (Some (Scenario.dto "c" 5))
  ∧ Scenario.requests (ext (V1.fetchDashboard Scenes.plain o s).2) = 0%nat.
Proof.
  intros o s.
  assert (Hhit : fresh_hit Scenes.plain (keyOf o) s
                   {| entry_dashboard := Scenario.dto "c" 5; ts := 1000;
                      cacheKey := "abc" |}).
  { split; [reflexivity|]. split; reflexivity. }
  destruct (V1_fetchDashboard_served_from_cache Scenes.plain o s _ eq_refl Hhit)
    as (Heq & _ & _).
  rewrite Heq. split; reflexivity.
Defined.

(** A cancelled fetch keeps the entry of another dashboard. *)
Lemma V1_fetchDashboard_no_response_no_write_witness :
  let o := Scenario.options "abc" Normal None in
  let s := Scenes.warm o "zzz" (Scenario.dto "z" 1) "zzz"
             (Scenario.sceneOfV1 (Scenario.dto "z" 1)) in
  (V1.fetchDashboard Scenes.cancelling o s).1 = Ret None
  ∧ dashboardCache (self (V1.fetchDashboard Scenes.cancelling o s).2)
    = Some {| entry_dashboard := Scenario.dto "z" 1; ts := 1000;
              cacheKey := "zzz" |}.
Proof.
  intros o s. split; [reflexivity|].
  apply (V1_fetchDashboard_no_response_no_write Scenes.cancelling o s).
  intros r H. vm_compute in H. discriminate H.
Defined.

(** A fetched dashboard is returned again by the next fetch. *)
Lemma V1_fetchDashboard_caches_response_witness :
  let o := Scenario.options "abc" Normal None in
  let s' := (V1.fetchDashboard Scenes.plain o Scenario.fresh).2 in
  (V1.fetchDashboard Scenes.plain o s').1 = Ret (Some (Scenario.dto "t" 1))
  ∧ Scenario.requests (ext (V1.fetchDashboard Scenes.plain o s').2) = 1%nat.
Proof.
  intros o s'. split; [|reflexivity].
  refine (proj2 (V1_fetchDashboard_caches_response Scenes.plain o Scenario.fresh
                   (Scenario.dto "t" 1) _ _ _ eq_refl) o eq_refl eq_refl).
  - intros _. reflexivity.
  - discriminate.
  - discriminate.
Defined.

(** A public dashboard is returned and not cached. *)
Lemma V1_fetchDashboard_early_routes_not_cached_witness :
  let o := Scenario.options "abc" Public None in
  (V1.fetchDashboard Scenes.plain o Scenario.fresh).1
  = Ret (Some (Scenario.dto "t" 1))
  ∧ dashboardCache (self (V1.fetchDashboard Scenes.plain o Scenario.fresh).2) = None.
Proof.
  intros o. split; [reflexivity|].
  apply (V1_fetchDashboard_early_routes_not_cached Scenes.plain o Scenario.fresh).
  right. reflexivity.
Defined.

(** The home dashboard comes back read-only. *)
Lemma V1_fetchDashboard_route_marks_witness :
  let e := Scenes.withHome Scenes.plain (Ret (HomeLegacy (Scenario.dto "home" 3))) in
  let o := Scenario.options "" Home None in
  let r := V1.readOnlyHome (Scenario.dto "home" 3) in
  (V1.fetchDashboard e o Scenario.fresh).1 = Ret (Some r)
  ∧ canSave (meta r) = Some false ∧ canShare (meta r) = Some false
  ∧ canStar (meta r) = Some false.
Proof.
  intros e o r. split; [reflexivity|].
  refine (proj1 (V1_fetchDashboard_route_marks e o Scenario.fresh r _ eq_refl)
            eq_refl).
  intros _. reflexivity.
Defined.

(** The v2 manager throws on the Embedded route, after one request. *)
Lemma V2_fetchDashboard_embedded_witness :
  let o := Scenario.options "abc" Embedded None in
  (V2.fetchDashboard Scenes.plain o Scenario.fresh).1
  = Throw (Error "Method not implemented.")
  ∧ (∀ r, (V2.fetchDashboard Scenes.plain o Scenario.fresh).1 ≠ Ret (Some r))
  ∧ Scenario.requests (ext (V2.fetchDashboard Scenes.plain o Scenario.fresh).2) = 1%nat.
Proof.
  intros o. split; [reflexivity|].
  assert (Hmiss : not_served_from_cache Scenes.plain o
                    (entered V2Manager o (@Scenario.fresh DashboardV2Resource))).
  { intros _. reflexivity. }
  destruct (V2_fetchDashboard_embedded Scenes.plain o Scenario.fresh eq_refl Hmiss)
    as (Hno & _ & Hext).
  split; [exact Hno|]. rewrite Hext. reflexivity.
Defined.

(** A first transformation builds the scene and stores it. *)
Lemma V1_transformResponseToScene_builds_witness :
  let o := Scenario.options "abc" Normal None in
  let r := Scenario.dto "t" 1 in
  let out := V1.transformResponseToScene Scenes.plain (Some r) o Scenario.fresh in
  out.1 = Ret (Some (Scenario.sceneOfV1 r))
  ∧ cache (self out.2) !! "abc"%string = Some (Scenario.sceneOfV1 r).
Proof.
  intros o r out.
  assert (Hnone : ∀ fc, cache (self (@Scenario.fresh DashboardDTO)) !! uid o = Some fc ->
                        scene_version fc ≠ Some 1).
  { intros fc H. vm_compute in H. discriminate H. }
  assert (Hkey : uid o ∉ "__proto__"%string :: objectPrototypeMembers).
  { intros H. cbn in H.
    repeat (apply elem_of_cons in H as [H|H]; [discriminate H|]).
    inversion H. }
  destruct (V1_transformResponseToScene_builds Scenes.plain r
              {| dash_title := "t"; dash_uid := None; dash_version := Some 1 |}
              o Scenario.fresh (Scenario.sceneOfV1 r) Scenario.start eq_refl
              eq_refl Hkey Hnone eq_refl)
    as (Hres & Hcache & _).
  split; [exact Hres|]. fold out in Hcache. rewrite Hcache. reflexivity.
Defined.

(** The uid [constructor] on a manager that has cached nothing. *)
Lemma transformResponseToScene_inherited_member_witness :
  let o := Scenario.options "constructor" Normal None in
  V1.transformResponseToScene Scenes.plain (Some (Scenario.dto "t" 1)) o
    Scenario.fresh
  = (Throw (TypeError "Cannot read properties of undefined (reading 'version')"),
     Scenario.fresh).
Proof.
  intros o.
  assert (Hkey : uid o ∈ "__proto__"%string :: objectPrototypeMembers).
  { cbn. apply elem_of_cons. right. apply elem_of_cons. now left. }
  exact (proj1 (transformResponseToScene_inherited_member Scenes.plain o Hkey)
           (Some (Scenario.dto "t" 1)) Scenario.fresh eq_refl eq_refl).
Defined.

(** A second transformation returns the stored scene. *)
Lemma V1_transformResponseToScene_cached_witness :
  let o := Scenario.options "abc" Normal None in
  let r := Scenario.dto "t" 1 in
  let fc := {| scene_uid := None; scene_title := "kept"; scene_version := Some 1 |} in
  let s := Scenes.warm o "abc" r "abc" fc in
  V1.transformResponseToScene Scenes.plain (Some r) o s = (Ret (Some fc), s).
Proof.
  intros o r fc s.
  apply (V1_transformResponseToScene_cached Scenes.plain r
           {| dash_title := "t"; dash_uid := None; dash_version := Some 1 |}
           o s fc); reflexivity.
Defined.

(** A cancelled load is left loading. *)
Lemma V1_loadDashboard_null_stays_loading_witness :
  let o := Scenario.options "abc" Normal None in
  let s' := (V1.loadDashboard Scenes.cancelling o Scenario.fresh).2 in
  prop (st_isLoading (state (self s'))) = Some true
  ∧ prop (st_dashboard (state (self s'))) = None.
Proof.
  intros o s'.
  destruct (V1_loadDashboard_null_stays_loading Scenes.cancelling o
              Scenario.fresh Scenario.start eq_refl eq_refl) as (H1 & H2 & _).
  split; assumption.
Defined.

(** A 500 of the v1 snapshot loader comes out as [Snapshot not found]. *)
Lemma unified_loadSnapshotScene_masks_witness :
  let e := Scenes.withSnapshots Scenes.plain
             (Throw (FetchError 500 false None "boom")) (Ret None) in
  let w := Unified.constructor emptyState Scenario.start in
  (Unified.loadSnapshotScene e "snap" w).1 = Throw (Error "Snapshot not found").
Proof.
  intros e w.
  pose proof (proj2 (unified_loadSnapshotScene_masks e "snap" w)) as Heq.
  change (Unified.loadSnapshotScene e "snap" w
          = (Throw (Error "Snapshot not found"),
             (Unified.onV1 (V1.loadSnapshotScene e "snap") w).2)) in Heq.
  rewrite Heq. reflexivity.
Defined.

(** A home dashboard stored as a v2 spec, asked for while v1 is active. *)
Lemma unified_home_v2_spec_is_an_error_witness :
  let e := Scenes.withHome Scenes.plain
             (Ret (HomeV2Spec {| spec_title := "home" |} Scenario.noMeta)) in
  let o := Scenario.options "" Home None in
  let w := Unified.constructor emptyState Scenario.start in
  activeManager (Unified.fetchDashboard e o w).2 = V1Manager
  ∧ world_log (Unified.fetchDashboard e o w).2 = [EvFetchDashboard V1Manager o].
Proof.
  intros e o w.
  assert (Hmiss : not_served_from_cache e o (entered V1Manager o (viewV1 w))).
  { intros _. reflexivity. }
  destruct (unified_home_v2_spec_is_an_error e o w {| spec_title := "home" |}
              Scenario.noMeta
              {| Scenario.clock := 1000; Scenario.pathname := "/";
                 Scenario.requests := 1 |} eq_refl eq_refl Hmiss eq_refl)
    as (_ & Ha & _ & Hlog).
  split; assumption.
Defined.

(** The reload of [var-a = 2] after a load of [var-a = 1]: the second time
    it does nothing. *)
Lemma V1_reloadDashboard_records_params_witness :
  let last := Scenes.withVar "1" in
  let p := params (Scenes.withVar "2") in
  let s : Local Scenario.Outside DashboardDTO := Scenes.loaded last in
  let s' := (V1.reloadDashboard Scenes.plain p s).2 in
  prop (st_options (state (self s'))) = Some (Scenes.withVar "2")
  ∧ V1.reloadDashboard Scenes.plain p s' = (Ret tt, s').
Proof.
  intros last p s s'.
  assert (Hdiff : ¬ same_content p last).
  { intros [Hv _].
    apply (f_equal (fun m => m ≫= (fun vars => vars !! "var-a"%string))) in Hv.
    vm_compute in Hv. discriminate. }
  assert (Hnone : ∀ fc, cache (self s) !! uid last = Some fc ->
                        scene_version fc ≠ Some 1).
  { intros fc H. vm_compute in H. discriminate H. }
  assert (Hkey : uid last ∉ "__proto__"%string :: objectPrototypeMembers).
  { intros H. cbn in H.
    repeat (apply elem_of_cons in H as [H|H]; [discriminate H|]).
    inversion H. }
  destruct (V1_reloadDashboard_records_params Scenes.plain p s
              (V1.fetchDashboard Scenes.plain (V1.withParams last p) (reloading s)).2
              last (Scenario.dto "t" 1)
              {| dash_title := "t"; dash_uid := None; dash_version := Some 1 |}
              (Scenario.sceneOfV1 (Scenario.dto "t" 1))
              {| Scenario.clock := 1000; Scenario.pathname := "/";
                 Scenario.requests := 1 |}
              eq_refl Hdiff eq_refl eq_refl eq_refl Hkey Hnone eq_refl)
    as (Hopts & _ & _ & _ & Hagain).
  split; [exact Hopts|exact Hagain].
Defined.

(** The reloaded dashboard has the version of the cached scene. *)
Lemma V1_reloadDashboard_same_version_witness :
  let last := Scenes.withVar "1" in
  let p := params (Scenes.withVar "2") in
  let fc := {| scene_uid := None; scene_title := "kept"; scene_version := Some 1 |} in
  let s := Scenes.warm last "zzz" (Scenario.dto "z" 1) "abc" fc in
  let s' := (V1.reloadDashboard Scenes.plain p s).2 in
  prop (st_options (state (self s'))) = Some last
  ∧ log (V1.reloadDashboard Scenes.plain p s').2
    = [EvFetchDashboard V1Manager (Scenes.withVar "2");
       EvFetchDashboard V1Manager (Scenes.withVar "2")].
Proof.
  intros last p fc s s'.
  assert (Hdiff : ¬ same_content p last).
  { intros [Hv _].
    apply (f_equal (fun m => m ≫= (fun vars => vars !! "var-a"%string))) in Hv.
    vm_compute in Hv. discriminate. }
  destruct (V1_reloadDashboard_same_version Scenes.plain p s
              (V1.fetchDashboard Scenes.plain (V1.withParams last p) (reloading s)).2
              last (Scenario.dto "t" 1)
              {| dash_title := "t"; dash_uid := None; dash_version := Some 1 |}
              fc eq_refl Hdiff eq_refl eq_refl eq_refl eq_refl)
    as (_ & Hopts & _ & _ & _ & Hlog).
  split.
  - fold s' in Hopts. now rewrite Hopts.
  - fold s' in Hlog. rewrite Hlog. reflexivity.
Defined.

(** A reload whose request is cancelled ends in the 404 error. *)
Lemma V1_reloadDashboard_null_is_not_found_witness :
  let last := Scenes.withVar "1" in
  let p := params (Scenes.withVar "2") in
  let s : Local Scenario.Outside DashboardDTO := Scenes.loaded last in
  prop (st_loadError (state (self (V1.reloadDashboard Scenes.cancelling p s).2)))
  = Some {| status := Some 404; messageId := None;
            message := "Dashboard not found" |}.
Proof.
  intros last p s.
  assert (Hdiff : ¬ same_content p last).
  { intros [Hv _].
    apply (f_equal (fun m => m ≫= (fun vars => vars !! "var-a"%string))) in Hv.
    vm_compute in Hv. discriminate. }
  assert (Hnone : ∀ fc, cache (self s) !! uid last = Some fc ->
                        scene_version fc ≠ None).
  { intros fc H. vm_compute in H. discriminate H. }
  assert (Hkey : uid last ∉ "__proto__"%string :: objectPrototypeMembers).
  { intros H. cbn in H.
    repeat (apply elem_of_cons in H as [H|H]; [discriminate H|]).
    inversion H. }
  exact (proj1 (V1_reloadDashboard_null_is_not_found Scenes.cancelling p s last
                  eq_refl Hdiff eq_refl eq_refl Hkey Hnone)).
Defined.

(** The same rows in two orders. *)
Lemma resource_history_get_order_free_witness :
  let a := ResourceHistory.row_of 1 in
  let b := ResourceHistory.row_of 2 in
  let c := ResourceHistory.other_row 9 in
  ResourceHistory.resource_version <$> ResourceHistory.resource_history_get [a; b; c]
  = ResourceHistory.resource_version <$> ResourceHistory.resource_history_get [b; a; c].
Proof.
  intros a b c.
  apply (resource_history_get_order_free [a; b; c] [b; a; c]).
  apply perm_swap.
Defined.

(** ** Clearing the scene caches *)
Section ClearScenes.
Context {Ext : Type} (env : Env Ext).

(** X28. After [clearSceneCache] of the unified manager the scene caches of
    both version managers and its own are the empty object, and the next
    [transformResponseToScene] returns no scene from before.  For a uid that
    names no member of [Object.prototype] its outcome is the outcome of the
    serializer on the response (a v1 response with its dashboard, or a v2
    resource).  For a uid that names one, [constructor] or [__proto__] for
    instance, it throws a [TypeError] and the serializer is not called: the
    outside world is as it was. *)
Theorem unified_clearSceneCache_then_transform (w : World Ext)
    (rsp : DashboardDTO + DashboardV2Resource) (o : LoadDashboardOptions) :
  let w1 := (Unified.clearSceneCache w).2 in
  let out := Unified.transformResponseToScene env (Some rsp) o w1 in
  cache (v1Manager w1) = ∅ ∧ cache (v2Manager w1) = ∅ ∧ cache (own w1) = ∅
  ∧ (uid o ∉ "__proto__"%string :: objectPrototypeMembers ->
     match rsp with
     | inl r =>
         is_Some (dashboard r) ->
         match (transformSaveModelToScene env r (world_ext w)).1 with
         | Ret scene => out.1 = Ret (Some scene)
         | Throw e => out.1 = Throw e
         end
     | inr r =>
         match (transformSaveModelSchemaV2ToScene env r (world_ext w)).1 with
         | Ret scene => out.1 = Ret (Some scene)
         | Throw e => out.1 = Throw e
         end
     end)
  ∧ (uid o ∈ "__proto__"%string :: objectPrototypeMembers ->
     out.1 = Throw (TypeError "Cannot read properties of undefined (reading 'version')")
     ∧ world_ext out.2 = world_ext w
     ∧ cache (v1Manager out.2) = ∅ ∧ cache (v2Manager out.2) = ∅).
Proof.
  intros w1 out. split; [reflexivity|]. split; [reflexivity|]. split; [reflexivity|].
  split.
  - intros Hkey. destruct rsp as [r|r].
    + intros [d Hd].
      assert (Hout : out.1
                     = match (transformSaveModelToScene env r (world_ext w)).1 with
                       | Ret scene => Ret (Some scene)
                       | Throw e => Throw e
                       end).
      { subst out. unfold Unified.transformResponseToScene, Unified.onV1.
        pose proof (V1_transformResponseToScene_empty env r d o (viewV1 w1)
                      Hd eq_refl Hkey) as H.
        unfold viewV1 in H.
        destruct (V1.transformResponseToScene env (Some r) o _) as [res s1].
        exact H. }
      rewrite Hout.
      now destruct (transformSaveModelToScene env r (world_ext w)) as [[scene|e] x].
    + assert (Hout : out.1
                     = match (transformSaveModelSchemaV2ToScene env r (world_ext w)).1 with
                       | Ret scene => Ret (Some scene)
                       | Throw e => Throw e
                       end).
      { subst out. unfold Unified.transformResponseToScene.
        unfold bind at 1. cbn [Unified.setActiveManager modify]. unfold Unified.onV2.
        pose proof (V2_transformResponseToScene_empty env r o (viewV2 w1)
                      eq_refl Hkey) as H.
        unfold viewV2 in H.
        destruct (V2.transformResponseToScene env (Some r) o _) as [res s1].
        exact H. }
      rewrite Hout.
      now destruct (transformSaveModelSchemaV2ToScene env r (world_ext w))
        as [[scene|e] x].
  - intros Hkey.
    assert (Hread : Base.readCache env emptyCache (uid o) = NoState).
    { apply (readCache_inherited env); [reflexivity|reflexivity|exact Hkey]. }
    destruct rsp as [r|r].
    + assert (Hout : out = (Throw (TypeError "Cannot read properties of undefined (reading 'version')"),
                            w1)).
      { subst out. unfold Unified.transformResponseToScene, Unified.onV1.
        rewrite (V1_transformResponseToScene_no_state env); [|exact Hread].
        reflexivity. }
      rewrite Hout. split; [|split; [|split]]; reflexivity.
    + assert (Hout : out = (Throw (TypeError "Cannot read properties of undefined (reading 'version')"),
                            switched V2Manager w1)).
      { subst out. unfold Unified.transformResponseToScene.
        unfold bind at 1. cbn [Unified.setActiveManager modify]. unfold Unified.onV2.
        rewrite (V2_transformResponseToScene_no_state env); [|exact Hread].
        reflexivity. }
      rewrite Hout. split; [|split; [|split]]; reflexivity.
Qed.
End ClearScenes.
